(** * Interview scheduler: a shallow embedding of [scheduler/schedule.py]
      and [scheduler/cli.py], with the properties of its timetable model.

    The development follows the Python source function by function.
    Integers are [Z] (Python integers are unbounded), [//] and [%] are
    [Z.div] and [Z.modulo] (both round towards minus infinity, as Python
    does), dictionaries are association lists in insertion order, and
    text is ASCII [string].  The CP-SAT solver is an external library: the
    model handed to it is embedded as a list of constraints with their
    meaning, and a solution is any assignment the solver may return, that
    is, one that satisfies every constraint of the model. *)

From Stdlib Require Import ZArith List String Ascii Bool Lia DecimalString.
From Stdlib Require Import Permutation Sorted.
From Stdlib Require DecimalPos QArith.
Import ListNotations.
Open Scope string_scope.
Open Scope Z_scope.

(** ** Exceptions and results *)

(** What a [ValueError] reports: one constructor for each [raise] of the
    source, with the values its message interpolates (the wording of the
    message itself is not modelled). *)
Inductive message : Type :=
| InvalidLiteral (text : string)
| InvalidTimeFormat (time_str : string)
| InvalidHour (hour : Z)
| InvalidMinute (minute : Z)
| ErrorParsingTime (time_str : string) (cause : message)
| InvalidDurationFormat (duration_str : string)
| InvalidTimeWindow (window : string)
| WindowStartNotBeforeEnd (window : string)
| DurationNotDivisible (panel : string) (duration_minutes slot_duration : Z)
| OrderPanelNotFound (panel : string)
| MissingAvailabilityWindows (panel : string)
| InvalidAvailabilityWindow (start stop : Z) (panel : string)
| PositionPanelNotFound (panel : string)
| InvalidPositionString (position panel : string)
| InvalidPositionInteger (position : Z) (panel : string)
| InvalidPositionType (panel : string)
| ConflictGroupTooSmall (i : Z)
| ConflictPanelNotFound (panel : string) (i : Z)
| ConflictGroupDuplicates (i : Z) (group : list string)
| NoSolutionFound
| MaxOfEmptySequence.

Inductive exn : Type :=
| ValueError (msg : message)
| ZeroDivisionError
| KeyError (key : string)
| IndexError
| AttributeError.

Inductive result (A : Type) : Type :=
| Ok (a : A)
| Raise (e : exn).
Arguments Ok {A} a.
Arguments Raise {A} e.

Definition bind {A B : Type} (r : result A) (k : A -> result B) : result B :=
  match r with
  | Ok a => k a
  | Raise e => Raise e
  end.

Notation "x <- r ;; k" := (bind r (fun x => k))
  (at level 61, r at next level, right associativity).

Definition is_ok {A : Type} (r : result A) : bool :=
  match r with Ok _ => true | Raise _ => false end.

(** ** The Python built-ins the source relies on *)

Module Py.

(** [str(n)] for an integer. *)
Definition str_of_Z (z : Z) : string := NilZero.string_of_int (Z.to_int z).

Fixpoint zfill (n : nat) (s : string) : string :=
  match n with
  | O => s
  | S k => "0" ++ zfill k s
  end.

(** The format specification [02d]: sign first, then zeros up to width 2. *)
Definition format_02d (z : Z) : string :=
  let digits := str_of_Z (Z.abs z) in
  if z <? 0
  then "-" ++ zfill (1 - String.length digits) digits
  else zfill (2 - String.length digits) digits.

(** Dictionaries keep insertion order; [d[k]] and [k in d]. *)
Fixpoint get {V : Type} (d : list (string * V)) (k : string) : option V :=
  match d with
  | [] => None
  | (k', v) :: rest => if String.eqb k' k then Some v else get rest k
  end.

Definition mem {V : Type} (k : string) (d : list (string * V)) : bool :=
  match get d k with Some _ => true | None => false end.

Definition keys {V : Type} (d : list (string * V)) : list string := map fst d.

(** [range(n)] and [range(a, b)]. *)
Definition range (n : Z) : list Z := map Z.of_nat (seq 0 (Z.to_nat n)).
Definition range2 (a b : Z) : list Z :=
  map (fun i => a + Z.of_nat i) (seq 0 (Z.to_nat (b - a))).

(** [sum] of a list of integers. *)
Definition sum (l : list Z) : Z := fold_right Z.add 0 l.

(** [x in l] for a list of strings. *)
Definition in_list (x : string) (l : list string) : bool :=
  existsb (String.eqb x) l.

(** [len(set(l))]: the number of distinct elements. *)
Fixpoint distinct (l : list string) : list string :=
  match l with
  | [] => []
  | x :: r => if in_list x r then distinct r else x :: distinct r
  end.

(** *** Strings *)

Definition is_space (c : ascii) : bool :=
  let n := nat_of_ascii c in
  (Nat.leb 9 n && Nat.leb n 13) || (Nat.leb 28 n && Nat.leb n 32).

Definition is_digit (c : ascii) : bool :=
  let n := nat_of_ascii c in Nat.leb 48 n && Nat.leb n 57.

Definition lower_char (c : ascii) : ascii :=
  let n := nat_of_ascii c in
  if Nat.leb 65 n && Nat.leb n 90 then ascii_of_nat (n + 32) else c.

Fixpoint lower (s : string) : string :=
  match s with
  | EmptyString => EmptyString
  | String c r => String (lower_char c) (lower r)
  end.

Fixpoint lstrip (s : string) : string :=
  match s with
  | EmptyString => EmptyString
  | String c r => if is_space c then lstrip r else s
  end.

Fixpoint rstrip (s : string) : string :=
  match s with
  | EmptyString => EmptyString
  | String c r =>
      match rstrip r with
      | EmptyString => if is_space c then EmptyString else String c EmptyString
      | r' => String c r'
      end
  end.

Definition strip (s : string) : string := rstrip (lstrip s).

Fixpoint all_digits (s : string) : bool :=
  match s with
  | EmptyString => true
  | String c r => is_digit c && all_digits r
  end.

(** [s.isdigit()]: at least one character, all of them digits. *)
Definition isdigit (s : string) : bool :=
  match s with
  | EmptyString => false
  | _ => all_digits s
  end.

(** [sub in s]. *)
Fixpoint contains (sub s : string) : bool :=
  String.prefix sub s ||
  match s with
  | EmptyString => false
  | String _ r => contains sub r
  end.

Fixpoint drop (n : nat) (s : string) : string :=
  match n, s with
  | O, _ => s
  | S k, String _ r => drop k r
  | S _, EmptyString => EmptyString
  end.

(** [s.replace(old, '')] for a non-empty [old]: occurrences are removed
    from left to right without overlap. *)
Fixpoint remove_fuel (fuel : nat) (old s : string) : string :=
  match fuel with
  | O => s
  | S f =>
      match s with
      | EmptyString => EmptyString
      | String c r =>
          if String.prefix old s
          then remove_fuel f old (drop (String.length old) s)
          else String c (remove_fuel f old r)
      end
  end.

Definition remove (old s : string) : string :=
  remove_fuel (String.length s) old s.

(** [s.split(sep)] for a one-character separator: never empty. *)
Fixpoint split (sep : ascii) (s : string) : list string :=
  match s with
  | EmptyString => [EmptyString]
  | String c r =>
      if Ascii.eqb c sep then EmptyString :: split sep r
      else match split sep r with
           | [] => [String c EmptyString]
           | h :: t => String c h :: t
           end
  end.

Definition digit_val (c : ascii) : Z := Z.of_nat (nat_of_ascii c - 48).

(** The digits of an integer literal, most significant first; a single
    underscore is allowed between two digits. [prev] tells whether the
    previous character was a digit. *)
Fixpoint int_digits (acc : Z) (prev : bool) (s : string) : option Z :=
  match s with
  | EmptyString => if prev then Some acc else None
  | String c r =>
      if is_digit c then int_digits (10 * acc + digit_val c) true r
      else if Ascii.eqb c "_" then
        if prev then
          match r with
          | String c' _ => if is_digit c' then int_digits acc false r else None
          | EmptyString => None
          end
        else None
      else None
  end.

(** [int(s)] in base 10: surrounding whitespace and one sign are allowed. *)
Definition int (s : string) : result Z :=
  let t := strip s in
  let parsed :=
    match t with
    | String c r =>
        if Ascii.eqb c "-" then option_map Z.opp (int_digits 0 false r)
        else if Ascii.eqb c "+" then int_digits 0 false r
        else int_digits 0 false t
    | EmptyString => None
    end in
  match parsed with
  | Some z => Ok z
  | None => Raise (ValueError (InvalidLiteral s))
  end.

End Py.

(** A [for] loop whose body may raise: the first exception ends the loop. *)
Fixpoint for_each {A : Type} (l : list A) (body : A -> result unit) : result unit :=
  match l with
  | [] => Ok tt
  | x :: rest => _ <- body x ;; for_each rest body
  end.

(** A loop that builds a list, one element per iteration. *)
Fixpoint map_result {A B : Type} (body : A -> result B) (l : list A) : result (list B) :=
  match l with
  | [] => Ok []
  | x :: rest => y <- body x ;; ys <- map_result body rest ;; Ok (y :: ys)
  end.

Definition len {A : Type} (l : list A) : Z := Z.of_nat (List.length l).

(** [enumerate(l)]. *)
Definition enumerate {A : Type} (l : list A) : list (Z * A) :=
  combine (Py.range (len l)) l.

(** ** The CP-SAT model (the part of [ortools.sat.python.cp_model] in use) *)

Module CpSat.

(** The variables of the model.  The library identifies a variable by the
    object [NewIntVar] or [NewBoolVar] returns, not by its name, so each
    creation site of the source has a constructor indexed by the loop
    variables in scope there. *)
Inductive var : Type :=
| Start (c : Z) (p : string)                 (* start_{c}_{p} *)
| Avail (c : Z) (p : string) (i : Z)         (* avail_{c}_{p}_{i} *)
| Follows (c : Z) (p1 p2 : string)           (* follows_{c}_{p1}_{p2} *)
| Before (c : Z) (p1 p2 p3 : string)         (* before_{c}_{p1}_{p2}_{p3} *)
| After (c : Z) (p1 p2 p3 : string)          (* after_{c}_{p1}_{p2}_{p3} *)
| PanelBefore (c : Z) (other panel : string) (* before_{c}_{other}_{panel} *)
| Break (c : Z) (i : Z)                      (* break_{c}_{p1}_{p2}, i-th pair *)
| NumBreaks
| Makespan.

Inductive expr : Type :=
| Const (z : Z)
| V (v : var)
| Plus (e1 e2 : expr)
| Times (e : expr) (k : Z)
| Sum (vs : list var).

Inductive lit : Type :=
| Lit (v : var)
| Not (v : var).

Inductive cmp : Type := Le | Lt | Ge | Eq.

(** [NewIntervalVar(start, size, end, name)]. *)
Record interval : Type := NewIntervalVar {
  iv_start : expr;
  iv_size : Z;
  iv_end : expr
}.

Inductive constraint : Type :=
| NewIntVar (v : var) (lb ub : Z)
| NewBoolVar (v : var)
| Linear (e1 : expr) (op : cmp) (e2 : expr) (only_enforce_if : list lit)
| BoolOr (ls : list lit) (only_enforce_if : list lit)
| NoOverlap (ivs : list interval).

Inductive status : Type := UNKNOWN | MODEL_INVALID | FEASIBLE | INFEASIBLE | OPTIMAL.

Definition assignment : Type := var -> Z.

Section Semantics.
Variable a : assignment.

Fixpoint eval (e : expr) : Z :=
  match e with
  | Const z => z
  | V v => a v
  | Plus e1 e2 => eval e1 + eval e2
  | Times e k => eval e * k
  | Sum vs => Py.sum (map a vs)
  end.

Definition lit_true (l : lit) : bool :=
  match l with
  | Lit v => a v =? 1
  | Not v => a v =? 0
  end.

Definition compare (op : cmp) (x y : Z) : bool :=
  match op with
  | Le => x <=? y
  | Lt => x <? y
  | Ge => x >=? y
  | Eq => x =? y
  end.

(** Two intervals do not overlap when one ends before the other starts. *)
Definition disjoint (i j : Z * Z) : bool :=
  (snd i <=? fst j) || (snd j <=? fst i).

Fixpoint pairwise_disjoint (l : list (Z * Z)) : bool :=
  match l with
  | [] => true
  | i :: rest => forallb (disjoint i) rest && pairwise_disjoint rest
  end.

Definition holds (c : constraint) : bool :=
  match c with
  | NewIntVar v lb ub => (lb <=? a v) && (a v <=? ub)
  | NewBoolVar v => (a v =? 0) || (a v =? 1)
  | Linear e1 op e2 enf =>
      implb (forallb lit_true enf) (compare op (eval e1) (eval e2))
  | BoolOr ls enf =>
      implb (forallb lit_true enf) (existsb lit_true ls)
  | NoOverlap ivs =>
      pairwise_disjoint (map (fun iv => (eval (iv_start iv), eval (iv_end iv))) ivs)
  end.

(** The assignment satisfies every constraint of the model. *)
Definition satisfies (model : list constraint) : bool := forallb holds model.
End Semantics.

End CpSat.
Import CpSat.

(** ** [scheduler/cli.py]: parsing of times and durations *)

(** Re-raise a [ValueError] of the body under the message of the handler. *)
Definition rewrap {A : Type} (time_str : string) (r : result A) : result A :=
  match r with
  | Raise (ValueError m) => Raise (ValueError (ErrorParsingTime time_str m))
  | other => other
  end.

Definition parse_time_to_minutes (time_str : string) : result (Z * Z) :=
  rewrap time_str
    (match Py.split ":" time_str with
     | [p0; p1] =>
         hour <- Py.int p0 ;;
         minute <- Py.int p1 ;;
         if negb ((0 <=? hour) && (hour <=? 23)) then Raise (ValueError (InvalidHour hour))
         else if negb ((0 <=? minute) && (minute <=? 59)) then Raise (ValueError (InvalidMinute minute))
         else Ok (hour, minute)
     | _ => Raise (ValueError (InvalidTimeFormat time_str))
     end).

Definition parse_duration (duration_str : string) : result Z :=
  let duration_str := Py.strip (Py.lower duration_str) in
  if Py.isdigit duration_str then Py.int duration_str
  else if Py.contains "h" duration_str then
    if Py.contains "min" duration_str then
      match Py.split "h" duration_str with
      | p0 :: p1 :: _ =>
          hours <- Py.int p0 ;;
          let remaining := Py.strip (Py.remove "min" p1) in
          minutes <- (match remaining with
                      | EmptyString => Ok 0
                      | _ => Py.int remaining
                      end) ;;
          Ok (hours * 60 + minutes)
      | _ => Raise IndexError
      end
    else
      hours <- Py.int (Py.remove "h" duration_str) ;;
      Ok (hours * 60 + 0)
  else if Py.contains "min" duration_str then
    Py.int (Py.remove "min" duration_str)
  else Raise (ValueError (InvalidDurationFormat duration_str)).

(** ** [scheduler/schedule.py]: the scheduler object *)

(** A pinned position: a string, an integer, or a value of another type. *)
Inductive position : Type :=
| PosStr (s : string)
| PosInt (k : Z)
| PosOther.

Record InterviewScheduler : Type := {
  num_candidates : Z;
  panels : list (string * Z);
  order : list string;
  availabilities : list (string * list (Z * Z));
  slots_per_day : Z;
  max_gap_minutes : Z;
  start_time_hour : Z;
  start_time_minute : Z;
  slot_duration_minutes : Z;
  position_constraints : list (string * position);
  panel_conflicts : list (list string);
  (* derived parameters *)
  max_gap_slots : Z;
  (* results, populated by solve *)
  status : option CpSat.status;
  solver : option CpSat.assignment;
  solution_found : bool
}.

Definition candidates (self : InterviewScheduler) : list Z :=
  Py.range (num_candidates self).

Definition raise_if (b : bool) (m : message) : result unit :=
  if b then Raise (ValueError m) else Ok tt.

Definition _validate_parameters (self : InterviewScheduler) : result unit :=
  (* all panels in order exist in the panels dict *)
  _ <- for_each (order self) (fun panel =>
         raise_if (negb (Py.mem panel (panels self))) (OrderPanelNotFound panel)) ;;
  (* all panels have availability windows *)
  _ <- for_each (Py.keys (panels self)) (fun panel =>
         raise_if (negb (Py.mem panel (availabilities self)))
                  (MissingAvailabilityWindows panel)) ;;
  (* availability windows are valid *)
  _ <- for_each (availabilities self) (fun '(panel, windows) =>
         for_each windows (fun '(start, stop) =>
           raise_if ((start <? 0) || (stop >? slots_per_day self) || (start >=? stop))
                    (InvalidAvailabilityWindow start stop panel))) ;;
  (* position constraints are valid *)
  _ <- for_each (position_constraints self) (fun '(panel, position) =>
         _ <- raise_if (negb (Py.mem panel (panels self))) (PositionPanelNotFound panel) ;;
         match position with
         | PosStr s =>
             raise_if (negb (Py.in_list s ["first"; "last"])) (InvalidPositionString s panel)
         | PosInt k =>
             raise_if (negb ((0 <=? k) && (k <? len (panels self))))
                      (InvalidPositionInteger k panel)
         | PosOther => Raise (ValueError (InvalidPositionType panel))
         end) ;;
  (* panel conflicts are valid *)
  for_each (enumerate (panel_conflicts self)) (fun '(i, conflict_group) =>
    _ <- raise_if (len conflict_group <? 2) (ConflictGroupTooSmall i) ;;
    _ <- for_each conflict_group (fun panel =>
           raise_if (negb (Py.mem panel (panels self))) (ConflictPanelNotFound panel i)) ;;
    raise_if (negb (len (Py.distinct conflict_group) =? len conflict_group))
             (ConflictGroupDuplicates i conflict_group)).

(** [InterviewScheduler.__init__]. *)
Definition __init__
    (num_candidates : Z) (panels : list (string * Z)) (order : list string)
    (availabilities : list (string * list (Z * Z)))
    (slots_per_day max_gap_minutes start_time_hour start_time_minute
       slot_duration_minutes : Z)
    (position_constraints : option (list (string * position)))
    (panel_conflicts : option (list (list string))) : result InterviewScheduler :=
  if slot_duration_minutes =? 0 then Raise ZeroDivisionError
  else
    let self := {|
      num_candidates := num_candidates;
      panels := panels;
      order := order;
      availabilities := availabilities;
      slots_per_day := slots_per_day;
      max_gap_minutes := max_gap_minutes;
      start_time_hour := start_time_hour;
      start_time_minute := start_time_minute;
      slot_duration_minutes := slot_duration_minutes;
      position_constraints :=
        match position_constraints with Some d => d | None => [] end;
      panel_conflicts :=
        match panel_conflicts with Some l => l | None => [] end;
      max_gap_slots := max_gap_minutes / slot_duration_minutes;
      status := None;
      solver := None;
      solution_found := false
    |} in
    _ <- _validate_parameters self ;;
    Ok self.

(** *** Timeline *)

Definition time_to_slot (self : InterviewScheduler) (hour minute : Z) : result Z :=
  if slot_duration_minutes self =? 0 then Raise ZeroDivisionError
  else Ok (((hour - start_time_hour self) * 60 + (minute - start_time_minute self))
           / slot_duration_minutes self).

(** The hour and the minute [slot_to_time] computes before formatting them. *)
Definition slot_to_hour_minute (self : InterviewScheduler) (slot : Z) : Z * Z :=
  let total_minutes := slot * slot_duration_minutes self + start_time_minute self in
  let hour := start_time_hour self + total_minutes / 60 in
  let minute := total_minutes mod 60 in
  (hour, minute).

Definition slot_to_time (self : InterviewScheduler) (slot : Z) : string :=
  let '(hour, minute) := slot_to_hour_minute self slot in
  Py.format_02d hour ++ ":" ++ Py.format_02d minute.

Open Scope list_scope.

(** *** Building the model

    [solve] creates the variables and hands the constraints below to the
    model.  Every method returns the constraints it adds, in the order of
    the source.  [self.panels[p]] is written [duration self p]: once
    [_validate_parameters] has passed, every panel name the model looks up
    is a key of [panels], so the default is never used. *)

Definition duration (self : InterviewScheduler) (p : string) : Z :=
  match Py.get (panels self) p with Some d => d | None => 0 end.

Definition windows (self : InterviewScheduler) (p : string) : list (Z * Z) :=
  match Py.get (availabilities self) p with Some w => w | None => [] end.

Definition start_vars (self : InterviewScheduler) : list constraint :=
  flat_map (fun c =>
    map (fun '(p, d) => NewIntVar (Start c p) 0 (slots_per_day self - d)) (panels self))
    (candidates self).

Definition interval_vars (self : InterviewScheduler) (c : Z) (p : string) : interval :=
  NewIntervalVar (V (Start c p)) (duration self p)
                 (Plus (V (Start c p)) (Const (duration self p))).

Definition lunch_like_panels : list string := ["Lunch"].

Definition availability_options (self : InterviewScheduler) (c : Z) (p : string) : list var :=
  map (fun '(i, _) => Avail c p i) (enumerate (windows self p)).

Definition _add_basic_constraints (self : InterviewScheduler) : list constraint :=
  (* each candidate cannot be in two sessions simultaneously *)
  map (fun c => NoOverlap (map (interval_vars self c) (Py.keys (panels self))))
      (candidates self)
  (* each panel cannot see two candidates simultaneously (except Lunch) *)
  ++ flat_map (fun p =>
       if negb (Py.in_list p lunch_like_panels)
       then [NoOverlap (map (fun c => interval_vars self c p) (candidates self))]
       else [])
       (Py.keys (panels self))
  (* panel availability windows *)
  ++ flat_map (fun c =>
       flat_map (fun p =>
         flat_map (fun '(i, (start_slot, end_slot)) =>
           [ NewBoolVar (Avail c p i);
             Linear (V (Start c p)) Ge (Const start_slot) [Lit (Avail c p i)];
             Linear (Plus (V (Start c p)) (Const (duration self p))) Le (Const end_slot)
                    [Lit (Avail c p i)] ])
           (enumerate (windows self p))
         ++ [Linear (Sum (availability_options self c p)) Eq (Const 1) []])
         (Py.keys (panels self)))
       (candidates self).

(** The pairs [(p1, p2)] with [p1 != p2], in the order of the nested loops. *)
Definition ordered_pairs (panels_list : list string) : list (string * string) :=
  flat_map (fun p1 =>
    flat_map (fun p2 => if negb (String.eqb p1 p2) then [(p1, p2)] else []) panels_list)
    panels_list.

Definition others (panels_list : list string) (p : string) : list string :=
  filter (fun q => negb (String.eqb q p)) panels_list.

(** The body of the loop over the pairs [p1 != p2], for candidate [c]. *)
Definition follows_constraints (self : InterviewScheduler) (c : Z) (p1 p2 : string)
  : list constraint :=
  let panels_list := Py.keys (panels self) in
  let follows_var := Follows c p1 p2 in
  let d1 := duration self p1 in
  [ (* p2 starts after p1 ends *)
    Linear (V (Start c p2)) Ge (Plus (V (Start c p1)) (Const d1)) [Lit follows_var];
    (* gap <= max_gap_slots *)
    Linear (V (Start c p2)) Le
           (Plus (Plus (V (Start c p1)) (Const d1)) (Const (max_gap_slots self)))
           [Lit follows_var] ]
  (* no other session can start between them *)
  ++ flat_map (fun p3 =>
       if negb (String.eqb p3 p1) && negb (String.eqb p3 p2) then
         [ NewBoolVar (Before c p1 p2 p3);
           NewBoolVar (After c p1 p2 p3);
           Linear (V (Start c p3)) Lt (Plus (V (Start c p1)) (Const d1))
                  [Lit follows_var; Lit (Before c p1 p2 p3)];
           Linear (V (Start c p3)) Ge (V (Start c p2))
                  [Lit follows_var; Lit (After c p1 p2 p3)];
           BoolOr [Lit (Before c p1 p2 p3); Lit (After c p1 p2 p3)]
                  [Lit follows_var] ]
       else [])
       panels_list.

(** The body of the loop over the candidates. *)
Definition gap_constraints_of (self : InterviewScheduler) (c : Z) : list constraint :=
  let panels_list := Py.keys (panels self) in
  map (fun '(p1, p2) => NewBoolVar (Follows c p1 p2)) (ordered_pairs panels_list)
  ++ flat_map (fun '(p1, p2) => follows_constraints self c p1 p2)
              (ordered_pairs panels_list)
  (* each session has at most one predecessor and one successor *)
  ++ flat_map (fun p =>
       [ Linear (Sum (map (fun p1 => Follows c p1 p) (others panels_list p))) Le (Const 1) [];
         Linear (Sum (map (fun p2 => Follows c p p2) (others panels_list p))) Le (Const 1) [] ])
       panels_list
  (* exactly (num_panels - 1) follows relationships *)
  ++ [ Linear (Sum (map (fun '(p1, p2) => Follows c p1 p2) (ordered_pairs panels_list)))
              Eq (Const (len panels_list - 1)) [] ].

Definition _add_gap_constraints (self : InterviewScheduler) : list constraint :=
  flat_map (gap_constraints_of self) (candidates self).

Definition _add_position_constraints (self : InterviewScheduler) : list constraint :=
  flat_map (fun c =>
    flat_map (fun '(panel, position) =>
      match position with
      | PosStr "first" =>
          map (fun other_panel =>
                 Linear (V (Start c panel)) Le (V (Start c other_panel)) [])
              (others (Py.keys (panels self)) panel)
      | PosStr "last" =>
          map (fun other_panel =>
                 Linear (V (Start c panel)) Ge
                        (Plus (V (Start c other_panel)) (Const (duration self other_panel))) [])
              (others (Py.keys (panels self)) panel)
      | PosStr _ => []
      | PosInt position =>
          flat_map (fun other_panel =>
            let before_var := PanelBefore c other_panel panel in
            let other_duration := duration self other_panel in
            [ NewBoolVar before_var;
              Linear (Plus (V (Start c other_panel)) (Const other_duration)) Le
                     (V (Start c panel)) [Lit before_var];
              Linear (V (Start c panel)) Lt
                     (Plus (V (Start c other_panel)) (Const other_duration))
                     [Not before_var] ])
            (others (Py.keys (panels self)) panel)
          ++ [ Linear (Sum (map (fun other_panel => PanelBefore c other_panel panel)
                                (others (Py.keys (panels self)) panel)))
                      Eq (Const position) [] ]
      | PosOther => []
      end)
      (position_constraints self))
    (candidates self).

Definition _add_panel_conflict_constraints (self : InterviewScheduler) : list constraint :=
  map (fun conflict_group =>
         NoOverlap (flat_map (fun panel =>
                      map (fun c => interval_vars self c panel) (candidates self))
                      conflict_group))
      (panel_conflicts self).

(** [order[i]]; the index is in range wherever the source uses it. *)
Definition order_at (self : InterviewScheduler) (i : Z) : string :=
  nth (Z.to_nat i) (order self) "".

Definition break_vars (self : InterviewScheduler) : list var :=
  flat_map (fun c => map (fun i => Break c i) (Py.range (len (order self) - 1)))
           (candidates self).

Definition _add_order_constraints (self : InterviewScheduler) : list constraint :=
  flat_map (fun c =>
    flat_map (fun i =>
      let p1 := order_at self i in
      let p2 := order_at self (i + 1) in
      let d1 := duration self p1 in
      let break_var := Break c i in
      [ NewBoolVar break_var;
        (* order preserved: p1 ends before p2 starts *)
        Linear (Plus (V (Start c p1)) (Const d1)) Le (V (Start c p2)) [Not break_var];
        (* order violated: p2 ends before p1 starts *)
        Linear (Plus (V (Start c p2)) (Const (duration self p2))) Le (V (Start c p1))
               [Lit break_var] ])
      (Py.range (len (order self) - 1)))
    (candidates self).

Definition BIG (self : InterviewScheduler) : Z := (slots_per_day self + 1) * 1000.

Definition _set_objective (self : InterviewScheduler) : list constraint :=
  [ NewIntVar NumBreaks 0 (len (break_vars self));
    Linear (V NumBreaks) Eq (Sum (break_vars self)) [];
    NewIntVar Makespan 0 (slots_per_day self) ]
  ++ flat_map (fun c =>
       map (fun '(p, d) => Linear (V Makespan) Ge (Plus (V (Start c p)) (Const d)) [])
           (panels self))
       (candidates self).

(** The expression handed to [model.Minimize]. *)
Definition objective (self : InterviewScheduler) : expr :=
  Plus (Times (V NumBreaks) (BIG self)) (V Makespan).

(** The model [solve] has built when it calls the solver. *)
Definition model (self : InterviewScheduler) : list constraint :=
  start_vars self
  ++ _add_basic_constraints self
  ++ _add_gap_constraints self
  ++ _add_position_constraints self
  ++ _add_panel_conflict_constraints self
  ++ _add_order_constraints self
  ++ _set_objective self.

(** *** Solving

    The search itself is the library's.  [solve] is given what
    [CpSolver.Solve] answers: a status and, through [solver.Value], the
    value of every variable.  [CpSolver_answer] is the library's contract:
    with status [OPTIMAL] or [FEASIBLE] the values satisfy every constraint
    of the model, and with [OPTIMAL] no assignment that satisfies the model
    has a smaller objective. *)

Definition is_solution_status (st : CpSat.status) : bool :=
  match st with
  | OPTIMAL | FEASIBLE => true
  | _ => false
  end.

Definition CpSolver_answer (self : InterviewScheduler)
    (st : CpSat.status) (values : assignment) : Prop :=
  (is_solution_status st = true -> satisfies values (model self) = true) /\
  (st = OPTIMAL ->
   forall other, satisfies other (model self) = true ->
                 eval values (objective self) <= eval other (objective self)).

Definition solve (self : InterviewScheduler)
    (st : CpSat.status) (values : assignment) : InterviewScheduler * bool :=
  let self' := {|
    num_candidates := num_candidates self;
    panels := panels self;
    order := order self;
    availabilities := availabilities self;
    slots_per_day := slots_per_day self;
    max_gap_minutes := max_gap_minutes self;
    start_time_hour := start_time_hour self;
    start_time_minute := start_time_minute self;
    slot_duration_minutes := slot_duration_minutes self;
    position_constraints := position_constraints self;
    panel_conflicts := panel_conflicts self;
    max_gap_slots := max_gap_slots self;
    status := Some st;
    solver := Some values;
    solution_found := is_solution_status st
  |} in
  (self', solution_found self').

(** [self.solver.Value(self.start_vars[(c, p)])]. *)
Definition Value_start (self : InterviewScheduler) (c : Z) (p : string) : result Z :=
  match solver self with
  | None => Raise AttributeError
  | Some values =>
      if existsb (Z.eqb c) (candidates self) && Py.mem p (panels self)
      then Ok (values (Start c p))
      else Raise (KeyError p)
  end.

(** *** Reading the solution *)

Inductive pyval : Type :=
| PyStr (s : string)
| PyInt (z : Z).

Definition StatusName (st : option CpSat.status) : string :=
  match st with
  | Some UNKNOWN | None => "UNKNOWN"
  | Some MODEL_INVALID => "MODEL_INVALID"
  | Some FEASIBLE => "FEASIBLE"
  | Some INFEASIBLE => "INFEASIBLE"
  | Some OPTIMAL => "OPTIMAL"
  end.

Definition _is_order_broken (self : InterviewScheduler) (candidate order_index : Z)
  : result bool :=
  let p1 := order_at self order_index in
  let p2 := order_at self (order_index + 1) in
  start1 <- Value_start self candidate p1 ;;
  start2 <- Value_start self candidate p2 ;;
  Ok (start1 + duration self p1 >? start2).

(** [max] of a sequence: a [ValueError] when it is empty. *)
Definition max_of (l : list Z) : result Z :=
  match l with
  | [] => Raise (ValueError MaxOfEmptySequence)
  | x :: rest => Ok (fold_left Z.max rest x)
  end.

Definition get_solution_summary (self : InterviewScheduler)
  : result (list (string * pyval)) :=
  if negb (solution_found self) then Ok [("status", PyStr "No solution found")]
  else
    broken <- map_result (fun '(c, i) => _is_order_broken self c i)
                (flat_map (fun c => map (fun i => (c, i)) (Py.range (len (order self) - 1)))
                          (candidates self)) ;;
    let num_breaks := len (filter (fun b => b) broken) in
    ends <- map_result (fun '(c, p) =>
                          s <- Value_start self c p ;; Ok (s + duration self p))
              (flat_map (fun c => map (fun p => (c, p)) (Py.keys (panels self)))
                        (candidates self)) ;;
    makespan <- max_of ends ;;
    Ok [ ("status", PyStr (StatusName (status self)));
         ("order_breaks", PyInt num_breaks);
         ("day_ends_at", PyStr (slot_to_time self makespan));
         ("max_gap_enforced",
          PyStr (String.append (Py.str_of_Z (max_gap_minutes self)) " minutes")) ].

Record session : Type := {
  panel : string;
  start_time : string;
  end_time : string;
  start_slot : Z;
  end_slot : Z;
  duration_minutes : Z;
  gap_before : option Z
}.

(** [sessions.sort(key=lambda x: x["start_slot"])]: the sort is stable. *)
Fixpoint insert_by_start (x : session) (l : list session) : list session :=
  match l with
  | [] => [x]
  | y :: rest =>
      if start_slot x <=? start_slot y then x :: l else y :: insert_by_start x rest
  end.

Definition sort_by_start (l : list session) : list session :=
  fold_right insert_by_start [] l.

Definition with_gap (s : session) (gap_minutes : Z) : session :=
  {| panel := panel s; start_time := start_time s; end_time := end_time s;
     start_slot := start_slot s; end_slot := end_slot s;
     duration_minutes := duration_minutes s; gap_before := Some gap_minutes |}.

(** The loop over [range(1, len(sessions))]: [previous] is [sessions[i-1]]. *)
Fixpoint add_gaps (self : InterviewScheduler) (previous : session) (l : list session)
  : list session :=
  match l with
  | [] => []
  | s :: rest =>
      let gap_slots := start_slot s - end_slot previous in
      let gap_minutes := gap_slots * slot_duration_minutes self in
      with_gap s gap_minutes :: add_gaps self s rest
  end.

Definition get_candidate_schedule (self : InterviewScheduler) (candidate_id : Z)
  : result (list session) :=
  if negb (solution_found self) then Ok []
  else
    sessions <- map_result (fun p =>
        start_slot <- Value_start self candidate_id p ;;
        let end_slot := start_slot + duration self p in
        Ok {| panel := p;
              start_time := slot_to_time self start_slot;
              end_time := slot_to_time self end_slot;
              start_slot := start_slot;
              end_slot := end_slot;
              duration_minutes := duration self p * slot_duration_minutes self;
              gap_before := None |})
      (Py.keys (panels self)) ;;
    match sort_by_start sessions with
    | [] => Ok []
    | first :: rest => Ok (first :: add_gaps self first rest)
    end.

(** *** CSV export *)

(** A loop that threads a state and may raise. *)
Fixpoint fold_result {A S : Type} (body : S -> A -> result S) (l : list A) (s : S)
  : result S :=
  match l with
  | [] => Ok s
  | x :: rest => s' <- body s x ;; fold_result body rest s'
  end.

(** Dictionaries with integer keys: [d[k]] and [d[k] = v]. *)
Fixpoint zget {V : Type} (d : list (Z * V)) (k : Z) : option V :=
  match d with
  | [] => None
  | (k', v) :: rest => if k' =? k then Some v else zget rest k
  end.

Fixpoint zset {V : Type} (d : list (Z * V)) (k : Z) (v : V) : list (Z * V) :=
  match d with
  | [] => [(k, v)]
  | (k', v') :: rest => if k' =? k then (k', v) :: rest else (k', v') :: zset rest k v
  end.

Definition schedule_matrix : Type := list (Z * list (Z * string)).

(** [schedule_matrix[slot][c] = panel]. *)
Definition set_cell (m : schedule_matrix) (slot c : Z) (p : string)
  : result schedule_matrix :=
  match zget m slot with
  | None => Raise (KeyError (Py.str_of_Z slot))
  | Some row => Ok (zset m slot (zset row c p))
  end.

(** [schedule_matrix[slot][c]]. *)
Definition get_cell (m : schedule_matrix) (slot c : Z) : result string :=
  match zget m slot with
  | None => Raise (KeyError (Py.str_of_Z slot))
  | Some row =>
      match zget row c with
      | None => Raise (KeyError (Py.str_of_Z c))
      | Some p => Ok p
      end
  end.

Definition quotechar : ascii := ascii_of_nat 34.
Definition CR : ascii := ascii_of_nat 13.
Definition LF : ascii := ascii_of_nat 10.

Fixpoint needs_quotes (s : string) : bool :=
  match s with
  | EmptyString => false
  | String c r =>
      Ascii.eqb c "," || Ascii.eqb c quotechar || Ascii.eqb c CR || Ascii.eqb c LF
      || needs_quotes r
  end.

Fixpoint double_quotes (s : string) : string :=
  match s with
  | EmptyString => EmptyString
  | String c r =>
      if Ascii.eqb c quotechar then String c (String c (double_quotes r))
      else String c (double_quotes r)
  end.

(** One field as [csv.writer] writes it in the default dialect. *)
Definition csv_field (s : string) : string :=
  if needs_quotes s
  then String quotechar (String.append (double_quotes s) (String quotechar EmptyString))
  else s.

Definition csv_row (row : list string) : string :=
  let line :=
    match row with
    | [EmptyString] => String quotechar (String quotechar EmptyString)
    | _ => String.concat "," (map csv_field row)
    end in
  String.append line (String CR (String LF EmptyString)).

(** [writer.writerows(csv_data)]. *)
Definition writerows (csv_data : list (list string)) : string :=
  String.concat "" (map csv_row csv_data).

(** What [export_to_csv] returns and, when a file name is given, the file
    it writes (name and content). *)
Record csv_export : Type := {
  returned : string;
  written : option (string * string)
}.

Definition export_to_csv (self : InterviewScheduler)
    (filename : option string) (date : string) : result csv_export :=
  if negb (solution_found self) then Raise (ValueError NoSolutionFound)
  else
    (* initialize all slots as empty *)
    let empty : schedule_matrix :=
      fold_left (fun m slot => zset m slot (map (fun c => (c, "")) (candidates self)))
                (Py.range (slots_per_day self)) [] in
    (* fill in the panel assignments *)
    filled <- fold_result (fun m c =>
                fold_result (fun m '(p, d) =>
                  start_slot <- Value_start self c p ;;
                  let end_slot := start_slot + d in
                  fold_result (fun m slot =>
                    if slot <? slots_per_day self then set_cell m slot c p else Ok m)
                    (Py.range2 start_slot end_slot) m)
                  (panels self) m)
                (candidates self) empty ;;
    let header :=
      date :: map (fun c => String.append "CANDIDATE " (Py.str_of_Z (c + 1)))
                  (candidates self) in
    rows <- map_result (fun slot =>
              let time_range :=
                String.append (slot_to_time self slot)
                              (String.append "-" (slot_to_time self (slot + 1))) in
              cells <- map_result (get_cell filled slot) (candidates self) ;;
              Ok (time_range :: cells))
            (Py.range (slots_per_day self)) ;;
    let csv_data := header :: rows in
    match filename with
    | Some name =>
        if negb (String.eqb name "")
        then Ok {| returned := name; written := Some (name, writerows csv_data) |}
        else Ok {| returned := writerows csv_data; written := None |}
    | None => Ok {| returned := writerows csv_data; written := None |}
    end.

Definition export_to_csv_string (self : InterviewScheduler) : result csv_export :=
  export_to_csv self None "DATE".

Definition export_to_csv_file (self : InterviewScheduler) (filename date : string)
  : result csv_export :=
  export_to_csv self (Some filename) date.

(** ** [scheduler/cli.py]: from a configuration to a scheduler *)

(** A scalar of the YAML document, and [str] of it. *)
Inductive scalar : Type :=
| YInt (z : Z)
| YStr (s : string).

Definition str (x : scalar) : string :=
  match x with
  | YInt z => Py.str_of_Z z
  | YStr s => s
  end.

(** The value of an [availabilities] entry: one window or a list of them. *)
Inductive windows_spec : Type :=
| OneWindow (w : string)
| Windows (ws : list string).

Record Config : Type := {
  cfg_num_candidates : Z;
  cfg_panels : list (string * scalar);
  cfg_order : list string;
  cfg_availabilities : list (string * windows_spec);
  cfg_start_time : option string;
  cfg_end_time : option string;
  cfg_slot_duration_minutes : option Z;
  cfg_max_gap_minutes : option Z;
  cfg_position_constraints : option (list (string * position));
  cfg_panel_conflicts : option (list (list string))
}.

(** [config.get(key, default)]. *)
Definition get_default {A : Type} (field : option A) (default : A) : A :=
  match field with Some x => x | None => default end.

(** [s.split(sep, 1)] when [sep] occurs in [s]: the text before the first
    occurrence and the text after it. *)
Fixpoint split_once (sep : ascii) (s : string) : string * string :=
  match s with
  | EmptyString => (EmptyString, EmptyString)
  | String c r =>
      if Ascii.eqb c sep then (EmptyString, r)
      else let '(before, after) := split_once sep r in (String c before, after)
  end.

(** The [TempScheduler] of [create_scheduler_from_config]. *)
Record TempScheduler : Type := {
  temp_start_time_hour : Z;
  temp_start_time_minute : Z;
  temp_slot_duration_minutes : Z
}.

Definition temp_time_to_slot (scheduler : TempScheduler) (hour minute : Z) : result Z :=
  if temp_slot_duration_minutes scheduler =? 0 then Raise ZeroDivisionError
  else Ok (((hour - temp_start_time_hour scheduler) * 60
            + (minute - temp_start_time_minute scheduler))
           / temp_slot_duration_minutes scheduler).

Definition parse_availability_windows (windows : list string) (scheduler : TempScheduler)
  : result (list (Z * Z)) :=
  map_result (fun window =>
    if negb (Py.contains "-" window) then Raise (ValueError (InvalidTimeWindow window))
    else
      let '(start_str, end_str) := split_once "-" window in
      start <- parse_time_to_minutes (Py.strip start_str) ;;
      stop <- parse_time_to_minutes (Py.strip end_str) ;;
      start_slot <- temp_time_to_slot scheduler (fst start) (snd start) ;;
      end_slot <- temp_time_to_slot scheduler (fst stop) (snd stop) ;;
      if start_slot >=? end_slot
      then Raise (ValueError (WindowStartNotBeforeEnd window))
      else Ok (start_slot, end_slot))
    windows.

(** The body of the loop of [create_scheduler_from_config] that turns the
    configured durations into slots, and the loop itself. *)
Definition parse_panel (config : Config) (item : string * scalar) : result (string * Z) :=
  let '(panel_name, duration_str) := item in
  duration_minutes <- parse_duration (str duration_str) ;;
  let slot_duration := get_default (cfg_slot_duration_minutes config) 15 in
  if slot_duration =? 0 then Raise ZeroDivisionError
  else
    let duration_slots := duration_minutes / slot_duration in
    if negb (duration_minutes mod slot_duration =? 0)
    then Raise (ValueError (DurationNotDivisible panel_name duration_minutes slot_duration))
    else Ok (panel_name, duration_slots).

Definition parse_panels (config : Config) : result (list (string * Z)) :=
  map_result (parse_panel config) (cfg_panels config).

Definition create_scheduler_from_config (config : Config) : result InterviewScheduler :=
  let num_candidates := cfg_num_candidates config in
  panels <- parse_panels config ;;
  let order := cfg_order config in
  start <- parse_time_to_minutes (get_default (cfg_start_time config) "08:30") ;;
  let '(start_hour, start_minute) := start in
  stop <- parse_time_to_minutes (get_default (cfg_end_time config) "17:00") ;;
  let '(end_hour, end_minute) := stop in
  let slot_duration_minutes := get_default (cfg_slot_duration_minutes config) 15 in
  let total_minutes := (end_hour - start_hour) * 60 + (end_minute - start_minute) in
  if slot_duration_minutes =? 0 then Raise ZeroDivisionError
  else
    let slots_per_day := total_minutes / slot_duration_minutes in
    let max_gap_minutes := get_default (cfg_max_gap_minutes config) 15 in
    let temp_scheduler := {|
      temp_start_time_hour := start_hour;
      temp_start_time_minute := start_minute;
      temp_slot_duration_minutes := slot_duration_minutes |} in
    availabilities <- map_result (fun '(panel_name, windows) =>
        let windows := match windows with OneWindow w => [w] | Windows ws => ws end in
        parsed_windows <- parse_availability_windows windows temp_scheduler ;;
        Ok (panel_name, parsed_windows))
      (cfg_availabilities config) ;;
    __init__ num_candidates panels order availabilities slots_per_day max_gap_minutes
             start_hour start_minute slot_duration_minutes
             (Some (get_default (cfg_position_constraints config) []))
             (Some (get_default (cfg_panel_conflicts config) [])).

(** ** Schedulers and solutions the properties are about *)

(** [self] is what [__init__] returned. *)
Definition constructed (self : InterviewScheduler) : Prop :=
  exists pc conflicts,
    __init__ (num_candidates self) (panels self) (order self) (availabilities self)
             (slots_per_day self) (max_gap_minutes self) (start_time_hour self)
             (start_time_minute self) (slot_duration_minutes self) pc conflicts
    = Ok self.

(** [self'] is the scheduler after a successful [solve]: the solver answered
    within its contract and [solve] returned [True]. *)
Definition solved (self self' : InterviewScheduler) (values : assignment) : Prop :=
  exists st,
    constructed self /\
    CpSolver_answer self st values /\
    solve self st values = (self', true).

(** The start and end slot of the session of candidate [c] with panel [p]. *)
Definition session_start (values : assignment) (c : Z) (p : string) : Z :=
  values (Start c p).

Definition session_end (self : InterviewScheduler) (values : assignment)
    (c : Z) (p : string) : Z :=
  values (Start c p) + duration self p.

(** The pairs of neighbours of a list, in order. *)
Fixpoint consecutive {A : Type} (l : list A) : list (A * A) :=
  match l with
  | x :: (y :: _) as rest => (x, y) :: consecutive rest
  | _ => []
  end.

(** Two windows share a slot. *)
Definition windows_overlap (w1 w2 : Z * Z) : bool :=
  (fst w1 <? snd w2) && (fst w2 <? snd w1).

(** The duration of a configured panel is well formed for slot width [W]:
    its text parses and the minutes are a multiple of [W]. *)
Definition duration_well_formed (W : Z) (entry : string * scalar) : Prop :=
  exists minutes,
    parse_duration (str (snd entry)) = Ok minutes /\ minutes mod W = 0.

(** The error [parse_panels] reports for a configured panel whose duration
    is not well formed. *)
Definition duration_error (W : Z) (entry : string * scalar) (e : exn) : Prop :=
  parse_duration (str (snd entry)) = Raise e \/
  exists minutes,
    parse_duration (str (snd entry)) = Ok minutes /\ minutes mod W <> 0 /\
    e = ValueError (DurationNotDivisible (fst entry) minutes W).

(** The minutes of a configured duration (0 when the text does not parse). *)
Definition minutes_of (entry : string * scalar) : Z :=
  match parse_duration (str (snd entry)) with
  | Ok minutes => minutes
  | Raise _ => 0
  end.

(** The number a string of decimal digits denotes. *)
Fixpoint decimal (acc : Z) (digits : string) : Z :=
  match digits with
  | EmptyString => acc
  | String c r => decimal (10 * acc + Py.digit_val c) r
  end.

(** The duration formats the specification lists, N, Nmin, Nh and NhMmin,
    read without regard to case or surrounding blanks: N and M are non-empty
    strings of digits. *)
Definition in_duration_formats (text : string) : Prop :=
  exists N M,
    Py.isdigit N = true /\ Py.isdigit M = true /\
    let t := Py.strip (Py.lower text) in
    (t = N \/ t = N ++ "min" \/ t = N ++ "h" \/ t = N ++ "h" ++ M ++ "min")%string.

(** ** Examples *)

(** The test scheduler of [test_csv_export.py]. *)
Definition test_panels : list (string * Z) :=
  [ ("Panel 1", 2); ("Panel 2", 2); ("Director", 1); ("Meet the team", 2);
    ("Lunch", 4); ("Presentation (45')", 3) ].

Definition test_availabilities : list (string * list (Z * Z)) :=
  [ ("Panel 1", [(0, 20)]); ("Panel 2", [(0, 20)]); ("Director", [(0, 20)]);
    ("Meet the team", [(0, 20)]); ("Lunch", [(8, 20)]);
    ("Presentation (45')", [(0, 20)]) ].

Definition test_scheduler : InterviewScheduler := {|
  num_candidates := 2;
  panels := test_panels;
  order := ["Panel 1"; "Panel 2"; "Director"; "Meet the team"; "Lunch";
            "Presentation (45')"];
  availabilities := test_availabilities;
  slots_per_day := 20;
  max_gap_minutes := 30;
  start_time_hour := 9;
  start_time_minute := 0;
  slot_duration_minutes := 15;
  position_constraints := [];
  panel_conflicts := [];
  max_gap_slots := 2;
  status := None;
  solver := None;
  solution_found := false
|}.

(** A scheduler whose panel "Team" has two availability windows that
    overlap on the slots 5 to 9. *)
Definition overlapping_windows_scheduler : InterviewScheduler := {|
  num_candidates := 1;
  panels := [("Team", 3)];
  order := ["Team"];
  availabilities := [("Team", [(0, 10); (5, 15)])];
  slots_per_day := 34;
  max_gap_minutes := 15;
  start_time_hour := 8;
  start_time_minute := 30;
  slot_duration_minutes := 15;
  position_constraints := [];
  panel_conflicts := [];
  max_gap_slots := 1;
  status := None;
  solver := None;
  solution_found := false
|}.

(** A configuration whose panel "Break" lasts 0 minutes. *)
Definition zero_duration_config : Config := {|
  cfg_num_candidates := 1;
  cfg_panels := [("Intro", YInt 30); ("Break", YStr "0min")];
  cfg_order := ["Intro"; "Break"];
  cfg_availabilities :=
    [("Intro", OneWindow "08:30-17:00"); ("Break", OneWindow "08:30-17:00")];
  cfg_start_time := None;
  cfg_end_time := None;
  cfg_slot_duration_minutes := None;
  cfg_max_gap_minutes := None;
  cfg_position_constraints := None;
  cfg_panel_conflicts := None
|}.

(** A small day: two candidates, three panels, "Lunch" pinned at position 2. *)
Definition small_day : InterviewScheduler := {|
  num_candidates := 2;
  panels := [("Intro", 2); ("HR", 1); ("Lunch", 2)];
  order := ["Intro"; "HR"];
  availabilities := [("Intro", [(0, 12)]); ("HR", [(0, 12)]); ("Lunch", [(0, 12)])];
  slots_per_day := 12;
  max_gap_minutes := 15;
  start_time_hour := 8;
  start_time_minute := 30;
  slot_duration_minutes := 15;
  position_constraints := [("Lunch", PosInt 2)];
  panel_conflicts := [];
  max_gap_slots := 1;
  status := None;
  solver := None;
  solution_found := false
|}.

(** A timetable for [small_day]: candidate 0 has Intro at 0, HR at 2 and
    Lunch at 3; candidate 1 has HR at 0, Intro at 2 and Lunch at 4. *)
Definition small_day_values : assignment := fun v =>
  match v with
  | Start c p =>
      if c =? 0 then
        if String.eqb p "Intro" then 0 else if String.eqb p "HR" then 2 else 3
      else
        if String.eqb p "Intro" then 2 else if String.eqb p "HR" then 0 else 4
  | Avail _ _ _ => 1
  | Follows c p1 p2 =>
      if c =? 0 then
        if (String.eqb p1 "Intro" && String.eqb p2 "HR")
           || (String.eqb p1 "HR" && String.eqb p2 "Lunch") then 1 else 0
      else
        if (String.eqb p1 "HR" && String.eqb p2 "Intro")
           || (String.eqb p1 "Intro" && String.eqb p2 "Lunch") then 1 else 0
  | Before c p1 p2 p3 => if String.eqb p2 "Lunch" then 1 else 0
  | After c p1 p2 p3 => if String.eqb p3 "Lunch" then 1 else 0
  | PanelBefore _ _ _ => 1
  | Break c _ => if c =? 0 then 0 else 1
  | NumBreaks => 1
  | Makespan => 6
  end.

(** Another timetable for [small_day], one slot longer, in which both
    candidates follow the preferred order: candidate 1 has Intro at 2, HR at
    4 and Lunch at 5. *)
Definition small_day_in_order : assignment := fun v =>
  match v with
  | Start c p =>
      if c =? 0 then
        if String.eqb p "Intro" then 0 else if String.eqb p "HR" then 2 else 3
      else
        if String.eqb p "Intro" then 2 else if String.eqb p "HR" then 4 else 5
  | Avail _ _ _ => 1
  | Follows c p1 p2 =>
      if (String.eqb p1 "Intro" && String.eqb p2 "HR")
         || (String.eqb p1 "HR" && String.eqb p2 "Lunch") then 1 else 0
  | Before c p1 p2 p3 => if String.eqb p2 "Lunch" then 1 else 0
  | After c p1 p2 p3 => if String.eqb p3 "Lunch" then 1 else 0
  | PanelBefore _ _ _ => 1
  | Break _ _ => 0
  | NumBreaks => 0
  | Makespan => 7
  end.

(** A configuration with two panels of 0 minutes: a badge and a photo at
    the start of the day, and an interview at 11:00. *)
Definition badge_config : Config := {|
  cfg_num_candidates := 1;
  cfg_panels := [("Badge", YStr "0min"); ("Photo", YInt 0); ("Interview", YStr "30min")];
  cfg_order := [];
  cfg_availabilities :=
    [ ("Badge", OneWindow "08:30-08:45"); ("Photo", OneWindow "08:30-08:45");
      ("Interview", OneWindow "11:00-11:30") ];
  cfg_start_time := Some "08:30";
  cfg_end_time := Some "17:00";
  cfg_slot_duration_minutes := Some 15;
  cfg_max_gap_minutes := Some 15;
  cfg_position_constraints := None;
  cfg_panel_conflicts := None
|}.

(** The scheduler [create_scheduler_from_config] builds from it. *)
Definition badge_day : InterviewScheduler := {|
  num_candidates := 1;
  panels := [("Badge", 0); ("Photo", 0); ("Interview", 2)];
  order := [];
  availabilities := [("Badge", [(0, 1)]); ("Photo", [(0, 1)]); ("Interview", [(10, 12)])];
  slots_per_day := 34;
  max_gap_minutes := 15;
  start_time_hour := 8;
  start_time_minute := 30;
  slot_duration_minutes := 15;
  position_constraints := [];
  panel_conflicts := [];
  max_gap_slots := 1;
  status := None;
  solver := None;
  solution_found := false
|}.

(** An assignment for [badge_day]: badge and photo at slot 0, each
    following the other, and the interview at slot 10. *)
Definition badge_values : assignment := fun v =>
  match v with
  | Start _ p => if String.eqb p "Interview" then 10 else 0
  | Avail _ _ _ => 1
  | Follows _ p1 p2 =>
      if (String.eqb p1 "Badge" && String.eqb p2 "Photo")
         || (String.eqb p1 "Photo" && String.eqb p2 "Badge") then 1 else 0
  | Before _ _ _ _ => 0
  | After _ _ _ _ => 1
  | PanelBefore _ _ _ => 0
  | Break _ _ => 0
  | NumBreaks => 0
  | Makespan => 12
  end.

(** ** Well-formed problems *)

(** What [_validate_parameters] checks, as a proposition. *)
Definition well_formed (self : InterviewScheduler) : Prop :=
  (forall p, In p (order self) -> In p (Py.keys (panels self))) /\
  (forall p, In p (Py.keys (panels self)) -> In p (Py.keys (availabilities self))) /\
  (forall p ws lo hi,
     In (p, ws) (availabilities self) -> In (lo, hi) ws ->
     0 <= lo /\ lo < hi /\ hi <= slots_per_day self) /\
  (forall p pos,
     In (p, pos) (position_constraints self) ->
     In p (Py.keys (panels self)) /\
     match pos with
     | PosStr s => s = "first" \/ s = "last"
     | PosInt k => 0 <= k < len (panels self)
     | PosOther => False
     end) /\
  (forall group,
     In group (panel_conflicts self) ->
     2 <= len group /\
     (forall p, In p group -> In p (Py.keys (panels self))) /\
     NoDup group).

(** A day like [small_day] in which "Intro" is pinned first and "Lunch"
    last, and "Intro" and "HR" share a room. *)
Definition pinned_day : InterviewScheduler := {|
  num_candidates := 2;
  panels := [("Intro", 2); ("HR", 1); ("Lunch", 2)];
  order := ["Intro"; "HR"];
  availabilities := [("Intro", [(0, 12)]); ("HR", [(0, 12)]); ("Lunch", [(0, 12)])];
  slots_per_day := 12;
  max_gap_minutes := 15;
  start_time_hour := 8;
  start_time_minute := 30;
  slot_duration_minutes := 15;
  position_constraints := [("Intro", PosStr "first"); ("Lunch", PosStr "last")];
  panel_conflicts := [["Intro"; "HR"]];
  max_gap_slots := 1;
  status := None;
  solver := None;
  solution_found := false
|}.

(** A timetable for [pinned_day]: candidate 0 has Intro at 0, HR at 2 and
    Lunch at 3; candidate 1 has Intro at 3, HR at 5 and Lunch at 6. *)
Definition pinned_day_values : assignment := fun v =>
  match v with
  | Start c p =>
      if c =? 0 then
        if String.eqb p "Intro" then 0 else if String.eqb p "HR" then 2 else 3
      else
        if String.eqb p "Intro" then 3 else if String.eqb p "HR" then 5 else 6
  | Avail _ _ _ => 1
  | Follows c p1 p2 =>
      if (String.eqb p1 "Intro" && String.eqb p2 "HR")
         || (String.eqb p1 "HR" && String.eqb p2 "Lunch") then 1 else 0
  | Before c p1 p2 p3 => if String.eqb p2 "Lunch" then 1 else 0
  | After c p1 p2 p3 => if String.eqb p3 "Lunch" then 1 else 0
  | PanelBefore _ _ _ => 1
  | Break _ _ => 0
  | NumBreaks => 0
  | Makespan => 8
  end.

(** A day without candidates, and the answer of the solver for it. *)
Definition empty_day : InterviewScheduler := {|
  num_candidates := 0;
  panels := [("Intro", 2)];
  order := ["Intro"];
  availabilities := [("Intro", [(0, 12)])];
  slots_per_day := 12;
  max_gap_minutes := 15;
  start_time_hour := 8;
  start_time_minute := 30;
  slot_duration_minutes := 15;
  position_constraints := [];
  panel_conflicts := [];
  max_gap_slots := 1;
  status := None;
  solver := None;
  solution_found := false
|}.

Definition empty_day_values : assignment := fun _ => 0.

(** ** The first script, [schedule.py] at the top of the repository *)

Module Legacy.

(** [t(h, m)]: clock time to slot, the day starting at 08:30. *)
Definition t (h m : Z) : Z := (h - 8) * 4 + (m - 30) / 15.

(** The hour and the minute [slot_to_time(s)] formats. *)
Definition slot_to_hour_minute (s : Z) : Z * Z :=
  let h := 8 + s / 4 in
  let m := 30 + 15 * (s mod 4) in
  if m >=? 60 then (h + 1, m - 60) else (h, m).

Definition slot_to_time (s : Z) : string :=
  let '(h, m) := slot_to_hour_minute s in
  String.append (Py.format_02d h) (String.append ":" (Py.format_02d m)).

End Legacy.

(** The helper [t] of [main] in [scheduler/schedule.py]. *)
Definition main_t (h m : Z) : Z := ((h - 8) * 60 + (m - 30)) / 15.

(** Is the parsed time the pair (h, m)? *)
Definition parses_to (r : result (Z * Z)) (h m : Z) : bool :=
  match r with
  | Ok (h', m') => (h' =? h) && (m' =? m)
  | Raise _ => false
  end.

(** ** The cells of the exported table *)

(** The session of candidate [c] with panel [p] occupies [slot]. *)
Definition occupies (self : InterviewScheduler) (values : assignment)
    (c : Z) (p : string) (slot : Z) : Prop :=
  values (Start c p) <= slot < values (Start c p) + duration self p.

(** The text of the first column of a row: the clock times of the slot. *)
Definition time_range (self : InterviewScheduler) (slot : Z) : string :=
  String.append (slot_to_time self slot)
                (String.append "-" (slot_to_time self (slot + 1))).

(** The assignments [schedule_matrix[slot][c] = panel] that [export_to_csv]
    performs, in order. *)
Definition cell_writes (self : InterviewScheduler) (values : assignment)
  : list (Z * Z * string) :=
  flat_map (fun c =>
    flat_map (fun pd : string * Z =>
      map (fun slot => (slot, c, fst pd))
          (filter (fun slot => slot <? slots_per_day self)
                  (Py.range2 (values (Start c (fst pd)))
                             (values (Start c (fst pd)) + snd pd))))
      (panels self))
    (candidates self).

(** What a cell holds after a list of assignments: the last value written
    to it, or the value it had. *)
Definition cell_after (writes : list (Z * Z * string)) (slot c : Z) (before : string)
  : string :=
  fold_left (fun acc w =>
               if (fst (fst w) =? slot) && (snd (fst w) =? c) then snd w else acc)
            writes before.

(** ** Assignments that differ in the makespan only *)

(** The assignment [a] with the makespan variable set to [m]. *)
Definition with_makespan (a : assignment) (m : Z) : assignment := fun v =>
  match v with
  | Makespan => m
  | _ => a v
  end.

Definition is_makespan (v : var) : bool :=
  match v with
  | Makespan => true
  | _ => false
  end.

(** The makespan variable does not occur in an expression, a literal, a
    constraint. *)
Definition expr_free (e : expr) : bool :=
  (fix free (e : expr) : bool :=
     match e with
     | Const _ => true
     | V v => negb (is_makespan v)
     | Plus e1 e2 => free e1 && free e2
     | Times e1 _ => free e1
     | Sum vs => forallb (fun v => negb (is_makespan v)) vs
     end) e.

Definition lit_free (l : lit) : bool :=
  match l with
  | Lit v => negb (is_makespan v)
  | Not v => negb (is_makespan v)
  end.

Definition constraint_free (c : constraint) : bool :=
  match c with
  | NewIntVar v _ _ => negb (is_makespan v)
  | NewBoolVar v => negb (is_makespan v)
  | Linear e1 _ e2 enf => expr_free e1 && expr_free e2 && forallb lit_free enf
  | BoolOr ls enf => forallb lit_free ls && forallb lit_free enf
  | NoOverlap ivs =>
      forallb (fun iv => expr_free (iv_start iv) && expr_free (iv_end iv)) ivs
  end.

(** The slot at which the last session of the day ends, 0 when there is no
    session. *)
Definition latest_end (self : InterviewScheduler) (values : assignment) : Z :=
  fold_right Z.max 0
    (flat_map (fun c => map (fun '(p, d) => values (Start c p) + d) (panels self))
              (candidates self)).

(** ** The web adapters: api/app.py and src/web/app.py

    The request handlers pass the scheduler's results on as JSON.  A
    session is the dictionary [get_candidate_schedule] builds, a solution
    the dictionary with keys "summary", "schedules" and "attempt".  An
    exception raised in a handler ends it with an error response, whatever
    the exception: the helpers of the handlers return an option, [None]
    standing for a raised exception. *)

Definition dict : Type := list (string * pyval).

(** The dictionary of a session, keys in insertion order; "gap_before" is
    set on every session of a schedule but the first. *)
Definition session_dict (s : session) : dict :=
  [ ("panel", PyStr (panel s));
    ("start_time", PyStr (start_time s));
    ("end_time", PyStr (end_time s));
    ("start_slot", PyInt (start_slot s));
    ("end_slot", PyInt (end_slot s));
    ("duration_minutes", PyInt (duration_minutes s)) ]
  ++ match gap_before s with
     | Some gap_minutes => [("gap_before", PyInt gap_minutes)]
     | None => []
     end.

Record solution_data : Type := {
  summary : dict;
  schedules : list (string * list dict);
  attempt : Z
}.

Definition raised {A : Type} (r : result A) : option A :=
  match r with
  | Ok a => Some a
  | Raise _ => None
  end.

Definition and_then {A B : Type} (o : option A) (k : A -> option B) : option B :=
  match o with
  | Some a => k a
  | None => None
  end.

Notation "x <-- o ;; k" := (and_then o (fun x => k))
  (at level 61, o at next level, right associativity).

(** A loop that threads a state and may raise. *)
Fixpoint fold_option {A S : Type} (body : S -> A -> option S) (l : list A) (s : S)
  : option S :=
  match l with
  | [] => Some s
  | x :: rest => s' <-- body s x ;; fold_option body rest s'
  end.

(** [candidate_schedules[f'candidate_{i+1}'] = scheduler.get_candidate_schedule(i)]
    for [i in range(scheduler.num_candidates)]. *)
Definition candidate_schedules (scheduler : InterviewScheduler)
  : result (list (string * list dict)) :=
  map_result (fun i =>
      sessions <- get_candidate_schedule scheduler i ;;
      Ok (String.append "candidate_" (Py.str_of_Z (i + 1)), map session_dict sessions))
    (Py.range (num_candidates scheduler)).

(** [hours, minutes = map(int, time_str.split(':'))], of both adapters:
    anything but two integer literals raises. *)
Definition hours_and_minutes (time_str : string) : option (Z * Z) :=
  match map Py.int (Py.split ":" time_str) with
  | [Ok hours; Ok minutes] => Some (hours, minutes)
  | _ => None
  end.

(** [total += session[key]] when [key in session]. *)
Definition add_if_present (key : string) (total : Z) (session : dict) : option Z :=
  if Py.mem key session then
    match Py.get session key with
    | Some (PyInt minutes) => Some (total + minutes)
    | _ => None
    end
  else Some total.

(** The loop of [schedule_multiple] (api/app.py) and of [upload_file]
    (src/web/app.py): up to [max_attempts] calls of [solve], each new
    solution kept unless it is similar to one kept before.  The two
    handlers differ in the similarity check and in where the bound on the
    number of solutions comes from.  [answers attempt] is what the solver
    answers in the given attempt. *)
Section Attempts.
Variable _solutions_are_similar : solution_data -> solution_data -> option bool.
Variable max_solutions : Z.
Variable answers : Z -> CpSat.status * assignment.

(** [is_different] after the loop over the solutions kept so far. *)
Fixpoint is_different (solution : solution_data) (solutions : list solution_data)
  : option bool :=
  match solutions with
  | [] => Some true
  | existing_solution :: rest =>
      similar <-- _solutions_are_similar solution existing_solution ;;
      if similar : bool then Some false else is_different solution rest
  end.

Fixpoint attempts (scheduler : InterviewScheduler) (todo : list Z)
    (solutions : list solution_data) : option (list solution_data) :=
  match todo with
  | [] => Some solutions
  | attempt :: rest =>
      if len solutions >=? max_solutions then Some solutions
      else
        let '(st, values) := answers attempt in
        let '(scheduler, success) := solve scheduler st values in
        if success : bool then
          summary <-- raised (get_solution_summary scheduler) ;;
          candidate_schedules <-- raised (candidate_schedules scheduler) ;;
          let solution := {| summary := summary;
                             schedules := candidate_schedules;
                             attempt := attempt + 1 |} in
          different <-- is_different solution solutions ;;
          if different : bool
          then attempts scheduler rest (solutions ++ [solution])
          else attempts scheduler rest solutions
        else attempts scheduler rest solutions
  end.
End Attempts.

Definition max_attempts : Z := 10.

Module Api.

Definition _parse_time_to_minutes (time_str : string) : option Z :=
  match hours_and_minutes time_str with
  | Some (hours, minutes) => Some (hours * 60 + minutes)
  | None => None
  end.

Definition _minutes_to_time_string (minutes : Z) : string :=
  let hours := minutes / 60 in
  let mins := minutes mod 60 in
  String.append (Py.format_02d hours) (String.append ":" (Py.format_02d mins)).

(** Every value of [schedules] is a list here, as [isinstance] asks. *)
Definition _calculate_total_idle_time (schedules : list (string * list dict))
  : option Z :=
  fold_option (fun total_idle candidate_schedule =>
                 fold_option (add_if_present "idle_time") candidate_schedule total_idle)
              (map snd schedules) 0.

(** The default [tolerance=0.1]. *)
Definition tolerance : QArith_base.Q := QArith_base.Qmake 1 10.

Definition _solutions_are_similar (sol1 sol2 : solution_data) : option bool :=
  idle1 <-- _calculate_total_idle_time (schedules sol1) ;;
  idle2 <-- _calculate_total_idle_time (schedules sol2) ;;
  Some (negb (QArith_base.Qle_bool tolerance
                (QArith_base.inject_Z (Z.abs (idle1 - idle2))))).

(** The solutions [schedule_multiple] has collected when its loop ends, for
    the scheduler made from the configuration of the request. *)
Definition schedule_multiple (scheduler : InterviewScheduler) (max_solutions : Z)
    (answers : Z -> CpSat.status * assignment) : option (list solution_data) :=
  attempts _solutions_are_similar max_solutions answers
           scheduler (Py.range max_attempts) [].

End Api.

Module Web.

Definition _parse_time_to_minutes (time_str : string) : option Z :=
  match hours_and_minutes time_str with
  | Some (hour, minute) => Some (hour * 60 + minute)
  | None => None
  end.

Definition _calculate_total_idle_time (schedules : list (string * list dict))
  : option Z :=
  fold_option (fun total_idle candidate_schedule =>
                 fold_option (add_if_present "gap_before") candidate_schedule total_idle)
              (map snd schedules) 0.

(** [sol['summary']['day_ends_at']] is split as a string and
    [sol['summary']['order_breaks']] subtracted as a number. *)
Definition day_ends_at (sol : solution_data) : option Z :=
  match Py.get (summary sol) "day_ends_at" with
  | Some (PyStr time_str) => _parse_time_to_minutes time_str
  | _ => None
  end.

Definition order_breaks (sol : solution_data) : option Z :=
  match Py.get (summary sol) "order_breaks" with
  | Some (PyInt breaks) => Some breaks
  | _ => None
  end.

Definition _solutions_are_similar (sol1 sol2 : solution_data) : option bool :=
  makespan1 <-- day_ends_at sol1 ;;
  makespan2 <-- day_ends_at sol2 ;;
  if Z.abs (makespan1 - makespan2) >? 30 then Some false
  else
    breaks1 <-- order_breaks sol1 ;;
    breaks2 <-- order_breaks sol2 ;;
    if Z.abs (breaks1 - breaks2) >? 0 then Some false
    else
      idle1 <-- _calculate_total_idle_time (schedules sol1) ;;
      idle2 <-- _calculate_total_idle_time (schedules sol2) ;;
      if Z.abs (idle1 - idle2) >? 60 then Some false
      else Some true.


End Web.

(** The schedules of the solution are those of a scheduler. *)
Definition from_scheduler (sol : solution_data) : Prop :=
  exists scheduler, candidate_schedules scheduler = Ok (schedules sol).

(** [later] was found different from [earlier]. *)
Definition kept_apart (similar : solution_data -> solution_data -> option bool)
    (earlier later : solution_data) : Prop :=
  similar later earlier = Some false.

(** The value of a decimal numeral read from the left, [acc] being the
    value of the digits read so far. *)
Fixpoint uint_value (acc : Z) (d : Decimal.uint) : Z :=
  match d with
  | Decimal.Nil => acc
  | Decimal.D0 d => uint_value (10 * acc + 0) d
  | Decimal.D1 d => uint_value (10 * acc + 1) d
  | Decimal.D2 d => uint_value (10 * acc + 2) d
  | Decimal.D3 d => uint_value (10 * acc + 3) d
  | Decimal.D4 d => uint_value (10 * acc + 4) d
  | Decimal.D5 d => uint_value (10 * acc + 5) d
  | Decimal.D6 d => uint_value (10 * acc + 6) d
  | Decimal.D7 d => uint_value (10 * acc + 7) d
  | Decimal.D8 d => uint_value (10 * acc + 8) d
  | Decimal.D9 d => uint_value (10 * acc + 9) d
  end.

(** The solution the adapters make of the timetable of [small_day]. *)
Definition small_day_solution : solution_data :=
  let scheduler := fst (solve small_day FEASIBLE small_day_values) in
  {| summary := match get_solution_summary scheduler with
                | Ok summary => summary
                | Raise _ => []
                end;
     schedules := match candidate_schedules scheduler with
                  | Ok made => made
                  | Raise _ => []
                  end;
     attempt := 1 |}.

(** * Properties *)

(** ** Exceptions, loops and construction *)

Lemma bind_Ok {A B : Type} (r : result A) (k : A -> result B) (b : B) :
  bind r k = Ok b -> exists a, r = Ok a /\ k a = Ok b.
Proof.
  destruct r as [a | e]; simpl; intros H; [exists a; auto | discriminate].
Qed.

Lemma raise_if_Ok (b : bool) (m : message) : raise_if b m = Ok tt -> b = false.
Proof. destruct b; simpl; [discriminate | reflexivity]. Qed.

Lemma for_each_Ok {A : Type} (l : list A) (body : A -> result unit) :
  for_each l body = Ok tt -> forall x, In x l -> body x = Ok tt.
Proof.
  induction l as [| y l IH]; simpl; intros H x Hx; [contradiction |].
  apply bind_Ok in H. destruct H as [[] [Hy Hrest]].
  destruct Hx as [-> | Hx]; auto.
Qed.

Lemma constructed_test_scheduler : constructed test_scheduler.
Proof. exists None, None. reflexivity. Qed.

Section Constructed.
Variable self : InterviewScheduler.
Hypothesis Hself : constructed self.

Lemma constructed_slot_duration : slot_duration_minutes self <> 0.
Proof.
  destruct Hself as (pc & cf & H). unfold __init__ in H.
  destruct (slot_duration_minutes self =? 0) eqn:E; [discriminate |].
  apply Z.eqb_neq in E. exact E.
Qed.

Lemma constructed_max_gap_slots :
  max_gap_slots self = max_gap_minutes self / slot_duration_minutes self.
Proof.
  destruct Hself as (pc & cf & H). unfold __init__ in H.
  destruct (slot_duration_minutes self =? 0); [discriminate |].
  apply bind_Ok in H. destruct H as (u & _ & H).
  injection H as H. rewrite <- H at 1. reflexivity.
Qed.

Lemma constructed_no_solution : solution_found self = false.
Proof.
  destruct Hself as (pc & cf & H). unfold __init__ in H.
  destruct (slot_duration_minutes self =? 0); [discriminate |].
  apply bind_Ok in H. destruct H as (u & _ & H).
  injection H as H. rewrite <- H. reflexivity.
Qed.

Lemma constructed_validated : _validate_parameters self = Ok tt.
Proof.
  destruct Hself as (pc & cf & H). unfold __init__ in H.
  destruct (slot_duration_minutes self =? 0); [discriminate |].
  apply bind_Ok in H. destruct H as ([] & Hv & H).
  injection H as H. rewrite H in Hv. exact Hv.
Qed.
End Constructed.

(** ** Timeline *)

(** C6, as the specification words it, does not hold: on the scheduler of
    [test_csv_export.py] (day from 09:00, 20 slots of 15 minutes) the
    conversion of 07:00 returns the negative slot -8 and the conversion of
    14:15 returns slot 21, beyond the 20 slots of the day; neither raises. *)
Lemma time_to_slot_returns_out_of_range :
  constructed test_scheduler /\
  time_to_slot test_scheduler 7 0 = Ok (-8) /\ -8 < 0 /\
  time_to_slot test_scheduler 14 15 = Ok 21 /\ 21 >= slots_per_day test_scheduler.
Proof.
  split; [exact constructed_test_scheduler |].
  repeat split; vm_compute; congruence.
Qed.

(** C6 (amended): on a constructed scheduler the conversion of a clock time
    to a slot never raises and performs no range check: for every (h, m) it
    returns the quotient ((h - H0) * 60 + (m - M0)) // W, negative or beyond
    the day as it may be; when the slot width is positive this is the one
    index k with k * W <= minutes from the start of day < (k + 1) * W. *)
Theorem time_to_slot_total (self : InterviewScheduler) (h m : Z) :
  constructed self ->
  let minutes := (h - start_time_hour self) * 60 + (m - start_time_minute self) in
  let W := slot_duration_minutes self in
  time_to_slot self h m = Ok (minutes / W) /\
  (0 < W -> (minutes / W) * W <= minutes < (minutes / W + 1) * W).
Proof.
  intros Hc minutes W. split.
  - unfold time_to_slot. fold W.
    destruct (W =? 0) eqn:E; [| reflexivity].
    apply Z.eqb_eq in E. exfalso. exact (constructed_slot_duration self Hc E).
  - intros HW.
    pose proof (Z.div_mod minutes W ltac:(lia)) as Hdm.
    pose proof (Z.mod_pos_bound minutes W HW) as Hb.
    nia.
Qed.

Lemma time_to_slot_total_witness :
  time_to_slot test_scheduler 7 0 = Ok (-8) /\
  -8 * 15 <= -120 < (-8 + 1) * 15.
Proof.
  destruct (time_to_slot_total test_scheduler 7 0 constructed_test_scheduler) as [H1 H2].
  split; [exact H1 | apply H2; reflexivity].
Defined.

(** C8: round trip between clock times and slots.  For every slot k in
    [0, S], the hour and minute [slot_to_time] computes for k convert back
    to k; and for every clock time (h, m) that is aligned on a slot boundary
    and whose slot is in range, the slot converts back to (h, m). *)
Theorem slot_time_round_trip (self : InterviewScheduler) :
  constructed self ->
  (forall k, 0 <= k <= slots_per_day self ->
     time_to_slot self (fst (slot_to_hour_minute self k))
                       (snd (slot_to_hour_minute self k)) = Ok k) /\
  (forall h m k,
     0 <= m < 60 ->
     ((h - start_time_hour self) * 60 + (m - start_time_minute self))
       mod slot_duration_minutes self = 0 ->
     time_to_slot self h m = Ok k ->
     0 <= k < slots_per_day self ->
     slot_to_hour_minute self k = (h, m)).
Proof.
  intros Hc. pose proof (constructed_slot_duration self Hc) as HW. split.
  - intros k _. unfold time_to_slot, slot_to_hour_minute; simpl.
    destruct (slot_duration_minutes self =? 0) eqn:E;
      [apply Z.eqb_eq in E; contradiction |].
    f_equal.
    set (t := k * slot_duration_minutes self + start_time_minute self).
    pose proof (Z.div_mod t 60 ltac:(lia)) as Ht.
    replace ((start_time_hour self + t / 60 - start_time_hour self) * 60
             + (t mod 60 - start_time_minute self))
      with (k * slot_duration_minutes self) by (unfold t in *; lia).
    apply Z.div_mul. exact HW.
  - intros h m k Hm Hal Hk _. unfold time_to_slot in Hk.
    destruct (slot_duration_minutes self =? 0); [discriminate |].
    injection Hk as Hk. unfold slot_to_hour_minute.
    set (d := (h - start_time_hour self) * 60 + (m - start_time_minute self)) in *.
    pose proof (Z.div_mod d (slot_duration_minutes self) HW) as Hd.
    rewrite Hal in Hd.
    assert (Ht : k * slot_duration_minutes self + start_time_minute self
                 = m + (h - start_time_hour self) * 60)
      by (subst k; unfold d in *; lia).
    rewrite Ht. rewrite Z.div_add by lia. rewrite Z.mod_add by lia.
    rewrite Z.div_small by lia. rewrite Z.mod_small by lia.
    f_equal. lia.
Qed.

Lemma slot_time_round_trip_witness :
  time_to_slot test_scheduler (fst (slot_to_hour_minute test_scheduler 13))
                              (snd (slot_to_hour_minute test_scheduler 13)) = Ok 13 /\
  slot_to_hour_minute test_scheduler 13 = (12, 15).
Proof.
  destruct (slot_time_round_trip test_scheduler constructed_test_scheduler) as [H1 H2].
  split.
  - apply H1. vm_compute. split; congruence.
  - apply (H2 12 15 13); vm_compute; try reflexivity; split; congruence.
Defined.

(** ** The no-solution state *)

(** C10: while [solution_found] is false, [get_candidate_schedule] returns
    the empty list for every candidate, [get_solution_summary] returns the
    record whose only field is the status "No solution found", and
    [export_to_csv] raises [ValueError], whatever a previous solve left in
    the scheduler.  A freshly constructed scheduler is in that state, and so
    is any scheduler after a solve whose status is neither OPTIMAL nor
    FEASIBLE. *)
Theorem no_solution_state (self : InterviewScheduler) :
  (solution_found self = false ->
     (forall candidate_id, get_candidate_schedule self candidate_id = Ok []) /\
     get_solution_summary self = Ok [("status", PyStr "No solution found")] /\
     (forall filename date,
        export_to_csv self filename date = Raise (ValueError NoSolutionFound))) /\
  (constructed self -> solution_found self = false) /\
  (forall st values,
     is_solution_status st = false ->
     snd (solve self st values) = false /\
     solution_found (fst (solve self st values)) = false).
Proof.
  split; [| split].
  - intros H. unfold get_candidate_schedule, get_solution_summary, export_to_csv.
    rewrite H. simpl. repeat split; reflexivity.
  - apply constructed_no_solution.
  - intros st values Hst. simpl. rewrite Hst. split; reflexivity.
Qed.

Lemma no_solution_state_witness :
  get_candidate_schedule (fst (solve test_scheduler INFEASIBLE (fun _ => 7))) 0 = Ok [] /\
  get_solution_summary (fst (solve test_scheduler INFEASIBLE (fun _ => 7)))
    = Ok [("status", PyStr "No solution found")] /\
  export_to_csv (fst (solve test_scheduler INFEASIBLE (fun _ => 7))) None "DATE"
    = Raise (ValueError NoSolutionFound).
Proof.
  pose (s := fst (solve test_scheduler INFEASIBLE (fun _ => 7))).
  destruct (no_solution_state test_scheduler) as (_ & _ & Hsolve).
  destruct (Hsolve INFEASIBLE (fun _ => 7) eq_refl) as [_ Hs].
  destruct (no_solution_state s) as (Hno & _).
  destruct (Hno Hs) as (H1 & H2 & H3).
  split; [apply H1 | split; [exact H2 | apply H3]].
Defined.

(** ** The objective *)

Lemma satisfies_In (a : assignment) (m : list constraint) (c : constraint) :
  satisfies a m = true -> In c m -> holds a c = true.
Proof. unfold satisfies. rewrite forallb_forall. auto. Qed.

Lemma In_set_objective (self : InterviewScheduler) (c : constraint) :
  In c (_set_objective self) -> In c (model self).
Proof. unfold model. intros H. do 6 (apply in_or_app; right). exact H. Qed.

(** C3: the objective is num_breaks * B + makespan with
    B = (slots_per_day + 1) * 1000; in every assignment that satisfies the
    model num_breaks is the sum of the break indicators and
    0 <= makespan <= slots_per_day; hence of two such assignments the one
    with strictly fewer breaks has the strictly smaller objective, whatever
    their makespans. *)
Theorem objective_lexicographic (self : InterviewScheduler) (a1 a2 : assignment) :
  satisfies a1 (model self) = true ->
  satisfies a2 (model self) = true ->
  (eval a1 (objective self)
     = a1 NumBreaks * ((slots_per_day self + 1) * 1000) + a1 Makespan /\
   a1 NumBreaks = Py.sum (map a1 (break_vars self)) /\
   0 <= a1 Makespan <= slots_per_day self) /\
  (a1 NumBreaks < a2 NumBreaks ->
   eval a1 (objective self) < eval a2 (objective self)).
Proof.
  intros H1 H2.
  assert (Hm : forall a, satisfies a (model self) = true ->
                         0 <= a Makespan <= slots_per_day self).
  { intros a Ha.
    pose proof (satisfies_In a _ (NewIntVar Makespan 0 (slots_per_day self)) Ha) as H.
    simpl in H. rewrite andb_true_iff, !Z.leb_le in H. apply H.
    apply In_set_objective. simpl. auto. }
  assert (Hb : a1 NumBreaks = Py.sum (map a1 (break_vars self))).
  { pose proof (satisfies_In a1 _
                  (Linear (V NumBreaks) Eq (Sum (break_vars self)) []) H1) as H.
    simpl in H. apply Z.eqb_eq. apply H.
    apply In_set_objective. simpl. auto. }
  split; [split; [reflexivity | split; [exact Hb | exact (Hm a1 H1)]] |].
  intros Hlt. simpl. unfold BIG.
  pose proof (Hm a1 H1). pose proof (Hm a2 H2). nia.
Qed.

Lemma objective_lexicographic_witness :
  eval small_day_in_order (objective small_day)
  < eval small_day_values (objective small_day).
Proof.
  refine (proj2 (objective_lexicographic small_day small_day_in_order small_day_values
                   _ _) _);
    vm_compute; reflexivity.
Defined.

(** ** Validation *)

(** C5, as the specification words it, does not hold:
    [_validate_parameters] accepts a scheduler whose panel "Team" has the
    windows (0, 10) and (5, 15), which overlap. *)
Lemma overlapping_windows_accepted :
  constructed overlapping_windows_scheduler /\
  Py.get (availabilities overlapping_windows_scheduler) "Team" = Some [(0, 10); (5, 15)] /\
  windows_overlap (0, 10) (5, 15) = true.
Proof.
  split; [exists None, None; reflexivity | split; reflexivity].
Qed.

(** C5 (amended): for every scheduler that passes validation, every
    availability window (lo, hi) of every panel satisfies
    0 <= lo < hi <= slots_per_day; the validator checks each window on its
    own and does not compare the windows of a panel with one another. *)
Theorem validated_windows_in_range (self : InterviewScheduler)
    (p : string) (ws : list (Z * Z)) (lo hi : Z) :
  constructed self ->
  In (p, ws) (availabilities self) ->
  In (lo, hi) ws ->
  0 <= lo /\ lo < hi /\ hi <= slots_per_day self.
Proof.
  intros Hc Hp Hw. pose proof (constructed_validated self Hc) as Hv.
  unfold _validate_parameters in Hv.
  apply bind_Ok in Hv. destruct Hv as ([] & _ & Hv).
  apply bind_Ok in Hv. destruct Hv as ([] & _ & Hv).
  apply bind_Ok in Hv. destruct Hv as ([] & Hv & _).
  pose proof (for_each_Ok _ _ Hv (p, ws) Hp) as H. simpl in H.
  pose proof (for_each_Ok _ _ H (lo, hi) Hw) as H'. simpl in H'.
  apply raise_if_Ok in H'.
  rewrite !orb_false_iff in H'. destruct H' as [[H1 H2] H3].
  apply Z.ltb_ge in H1.
  rewrite Z.gtb_ltb in H2. apply Z.ltb_ge in H2.
  rewrite Z.geb_leb in H3. apply Z.leb_gt in H3. lia.
Qed.

Lemma validated_windows_in_range_witness :
  0 <= 5 /\ 5 < 15 /\ 15 <= 34.
Proof.
  apply (validated_windows_in_range overlapping_windows_scheduler
           "Team" [(0, 10); (5, 15)] 5 15).
  - exists None, None; reflexivity.
  - simpl; auto.
  - simpl; auto.
Defined.

(** *** Durations *)

Section Durations.
Variable config : Config.
Let W := get_default (cfg_slot_duration_minutes config) 15.
Hypothesis HW : W <> 0.

Lemma parse_panel_cases (entry : string * scalar) :
  (duration_well_formed W entry /\
   parse_panel config entry = Ok (fst entry, minutes_of entry / W)) \/
  (~ duration_well_formed W entry /\
   exists e, duration_error W entry e /\ parse_panel config entry = Raise e).
Proof.
  destruct entry as [name d]. unfold parse_panel, minutes_of, duration_well_formed,
    duration_error. simpl. fold W.
  destruct (parse_duration (str d)) as [minutes | e] eqn:Hp; simpl.
  - destruct (W =? 0) eqn:E; [apply Z.eqb_eq in E; contradiction |].
    destruct (minutes mod W =? 0) eqn:Hm; simpl.
    + apply Z.eqb_eq in Hm. left. split; [exists minutes; auto | reflexivity].
    + apply Z.eqb_neq in Hm. right. split.
      * intros (m' & Hm' & Hz). injection Hm' as <-. contradiction.
      * eexists. split; [right; exists minutes; eauto | reflexivity].
  - right. split.
    + intros (m' & Hm' & _). discriminate.
    + exists e. split; [left; reflexivity | reflexivity].
Qed.

Lemma parse_panels_all_well_formed (l : list (string * scalar)) :
  Forall (duration_well_formed W) l ->
  map_result (parse_panel config) l
    = Ok (map (fun entry => (fst entry, minutes_of entry / W)) l).
Proof.
  induction 1 as [| x l Hx Hl IH]; simpl; [reflexivity |].
  destruct (parse_panel_cases x) as [[_ Hok] | [Hbad _]]; [| contradiction].
  rewrite Hok. simpl. rewrite IH. reflexivity.
Qed.

Lemma parse_panels_some_ill_formed (l : list (string * scalar)) :
  Exists (fun entry => ~ duration_well_formed W entry) l ->
  exists entry e,
    In entry l /\ duration_error W entry e /\
    map_result (parse_panel config) l = Raise e.
Proof.
  induction l as [| x l IH]; intros H; [inversion H |]. simpl.
  destruct (parse_panel_cases x) as [[Hwf Hok] | [_ (e & He & Hr)]].
  - inversion H as [? ? Hx | ? ? Hl]; subst; [contradiction |].
    destruct (IH Hl) as (entry & e & Hin & He & Hr).
    exists entry, e. rewrite Hok. simpl. rewrite Hr. auto.
  - exists x, e. rewrite Hr. auto.
Qed.
End Durations.

(** C7, as the specification words it, does not hold: a configuration
    whose panel "Break" lasts "0min" passes every check;
    [create_scheduler_from_config] returns a scheduler in which that panel
    has a duration of 0 slots, which is less than 1 slot. *)
Lemma zero_duration_accepted :
  exists self,
    create_scheduler_from_config zero_duration_config = Ok self /\
    panels self = [("Intro", 2); ("Break", 0)] /\
    duration self "Break" < 1.
Proof.
  eexists. split; [vm_compute; reflexivity |]. split; reflexivity.
Qed.

(** C7 (amended): [create_scheduler_from_config] checks the durations
    before anything else, hence before any solving.  With a slot width W
    other than 0: if the duration of every configured panel parses and its
    minutes are a multiple of W, the check succeeds and each panel gets
    minutes // W slots; otherwise the construction stops with the error of a
    panel whose duration does not parse or is not a multiple of W.  The
    number of slots is not compared with 1. *)
Theorem durations_checked_up_front (config : Config) :
  let W := get_default (cfg_slot_duration_minutes config) 15 in
  W <> 0 ->
  (Forall (duration_well_formed W) (cfg_panels config) ->
   parse_panels config
     = Ok (map (fun entry => (fst entry, minutes_of entry / W)) (cfg_panels config))) /\
  (Exists (fun entry => ~ duration_well_formed W entry) (cfg_panels config) ->
   exists entry e,
     In entry (cfg_panels config) /\ duration_error W entry e /\
     create_scheduler_from_config config = Raise e).
Proof.
  intros W HW. split.
  - apply parse_panels_all_well_formed. exact HW.
  - intros H.
    destruct (parse_panels_some_ill_formed config HW _ H) as (entry & e & Hin & He & Hr).
    exists entry, e. split; [exact Hin | split; [exact He |]].
    unfold create_scheduler_from_config, parse_panels. rewrite Hr. reflexivity.
Qed.

Lemma durations_checked_up_front_witness :
  parse_panels zero_duration_config = Ok [("Intro", 2); ("Break", 0)].
Proof.
  refine (proj1 (durations_checked_up_front zero_duration_config _) _).
  - vm_compute. discriminate.
  - repeat constructor; eexists; split; vm_compute; reflexivity.
Defined.

(** ** Durations as text *)

Section DigitStrings.
Local Open Scope string_scope.

Lemma append_empty_r (s : string) : s ++ "" = s.
Proof. induction s as [| c r IH]; simpl; [| rewrite IH]; reflexivity. Qed.

Lemma length_append (s t : string) :
  String.length (s ++ t) = (String.length s + String.length t)%nat.
Proof. induction s as [| c r IH]; simpl; [| rewrite IH]; reflexivity. Qed.

Lemma digit_not_space (c : ascii) : Py.is_digit c = true -> Py.is_space c = false.
Proof.
  unfold Py.is_digit, Py.is_space. generalize (nat_of_ascii c). intros n H.
  apply andb_true_iff in H. destruct H as [H1 H2].
  apply Nat.leb_le in H1.
  apply orb_false_iff. split; apply andb_false_iff.
  - right. apply Nat.leb_gt. lia.
  - right. apply Nat.leb_gt. lia.
Qed.

Lemma digit_neq (c d : ascii) :
  Py.is_digit c = true -> Py.is_digit d = false -> Ascii.eqb c d = false.
Proof.
  intros Hc Hd. apply Ascii.eqb_neq. intros ->. congruence.
Qed.

Lemma prefix_digit (c : ascii) (old s : string) (d : ascii) :
  Py.is_digit c = false -> Py.is_digit d = true ->
  String.prefix (String c old) (String d s) = false.
Proof.
  intros Hc Hd. simpl. destruct (ascii_dec c d) as [-> |]; [congruence | reflexivity].
Qed.

Lemma all_digits_append (s t : string) :
  Py.all_digits (s ++ t) = Py.all_digits s && Py.all_digits t.
Proof.
  induction s as [| c r IH]; simpl; [reflexivity |].
  rewrite IH. apply andb_assoc.
Qed.

Lemma isdigit_all_digits (s : string) : Py.isdigit s = true -> Py.all_digits s = true.
Proof. destruct s; [discriminate | auto]. Qed.

Lemma isdigit_cons (s : string) :
  Py.isdigit s = true ->
  exists c r, s = String c r /\ Py.is_digit c = true /\ Py.all_digits r = true.
Proof.
  destruct s as [| c r]; [discriminate |]. simpl. intros H.
  apply andb_true_iff in H. exists c, r. tauto.
Qed.

(** A non-empty string of digits followed by text that starts with
    another character is not a number. *)
Lemma isdigit_append (s t : string) :
  Py.isdigit s = true -> Py.isdigit (s ++ t) = Py.all_digits t.
Proof.
  intros H. destruct (isdigit_cons s H) as (c & r & -> & Hc & Hr).
  simpl. rewrite Hc, all_digits_append, Hr. reflexivity.
Qed.

Lemma lstrip_digits (s : string) : Py.isdigit s = true -> Py.lstrip s = s.
Proof.
  intros H. destruct (isdigit_cons s H) as (c & r & -> & Hc & _).
  simpl. rewrite (digit_not_space c Hc). reflexivity.
Qed.

Lemma rstrip_digits (s : string) : Py.all_digits s = true -> Py.rstrip s = s.
Proof.
  induction s as [| c r IH]; simpl; [reflexivity |].
  intros H. apply andb_true_iff in H. destruct H as [Hc Hr].
  rewrite (IH Hr). destruct r; [rewrite (digit_not_space c Hc) |]; reflexivity.
Qed.

Lemma strip_digits (s : string) : Py.isdigit s = true -> Py.strip s = s.
Proof.
  intros H. unfold Py.strip. rewrite (lstrip_digits s H).
  apply rstrip_digits, isdigit_all_digits, H.
Qed.

Lemma int_digits_decimal (s : string) :
  Py.all_digits s = true ->
  forall acc prev, (s <> "" \/ prev = true) ->
  Py.int_digits acc prev s = Some (decimal acc s).
Proof.
  induction s as [| c r IH]; simpl; intros H acc prev Hne.
  - destruct Hne as [Hne | ->]; [contradiction | reflexivity].
  - apply andb_true_iff in H. destruct H as [Hc Hr].
    rewrite Hc. apply IH; auto.
Qed.

(** [int] of a non-empty string of digits is the number it denotes. *)
Lemma int_digits_string (s : string) :
  Py.isdigit s = true -> Py.int s = Ok (decimal 0 s).
Proof.
  intros H. unfold Py.int. rewrite (strip_digits s H).
  destruct (isdigit_cons s H) as (c & r & -> & Hc & Hr).
  rewrite (digit_neq c "-" Hc eq_refl), (digit_neq c "+" Hc eq_refl).
  rewrite int_digits_decimal; [reflexivity | | left; discriminate].
  simpl. rewrite Hc, Hr. reflexivity.
Qed.

Lemma contains_head (c : ascii) (s : string) :
  Py.contains (String c "") (String c s) = true.
Proof.
  simpl. destruct (ascii_dec c c) as [_ | n]; [| contradiction].
  destruct s; reflexivity.
Qed.

Lemma split_not_empty (sep : ascii) (s : string) : Py.split sep s <> [].
Proof.
  destruct s as [| c r]; simpl; [discriminate |].
  destruct (Ascii.eqb c sep); [discriminate |].
  destruct (Py.split sep r); discriminate.
Qed.

Section AfterDigits.
Variables (c : ascii) (old : string).
Hypothesis Hc : Py.is_digit c = false.

Lemma contains_after_digits (s t : string) :
  Py.all_digits s = true ->
  Py.contains (String c old) (s ++ t) = Py.contains (String c old) t.
Proof.
  induction s as [| d r IH]; intros H; [reflexivity |].
  simpl in H. apply andb_true_iff in H. destruct H as [Hd Hr].
  change (Py.contains (String c old) (String d r ++ t))
    with (String.prefix (String c old) (String d (r ++ t))
          || Py.contains (String c old) (r ++ t)).
  rewrite (prefix_digit c old (r ++ t) d Hc Hd). simpl orb. auto.
Qed.

Lemma remove_fuel_after_digits (s t : string) :
  Py.all_digits s = true ->
  forall fuel, (String.length s + String.length t <= fuel)%nat ->
  Py.remove_fuel fuel (String c old) (s ++ t)
    = s ++ Py.remove_fuel (fuel - String.length s) (String c old) t.
Proof.
  induction s as [| d r IH]; intros H fuel Hf.
  - simpl. rewrite Nat.sub_0_r. reflexivity.
  - simpl in H. apply andb_true_iff in H. destruct H as [Hd Hr].
    destruct fuel as [| f]; [simpl in Hf; lia |].
    change (Py.remove_fuel (S f) (String c old) (String d r ++ t))
      with (if String.prefix (String c old) (String d (r ++ t))
            then Py.remove_fuel f (String c old)
                   (Py.drop (String.length (String c old)) (String d (r ++ t)))
            else String d (Py.remove_fuel f (String c old) (r ++ t))).
    rewrite (prefix_digit c old (r ++ t) d Hc Hd).
    rewrite IH by (simpl in Hf; auto; lia). reflexivity.
Qed.

Lemma remove_after_digits (s t : string) :
  Py.all_digits s = true ->
  Py.remove (String c old) (s ++ t)
    = s ++ Py.remove_fuel (String.length t) (String c old) t.
Proof.
  intros H. unfold Py.remove.
  rewrite remove_fuel_after_digits by (auto; rewrite length_append; lia).
  rewrite length_append. f_equal. f_equal. lia.
Qed.

Lemma split_after_digits (s t : string) :
  Py.all_digits s = true ->
  Py.split c (s ++ t)
    = match Py.split c t with
      | [] => [s]
      | h :: rest => (s ++ h) :: rest
      end.
Proof.
  induction s as [| d r IH]; intros H.
  - simpl. destruct (Py.split c t) eqn:E; [| reflexivity].
    exfalso. exact (split_not_empty c t E).
  - simpl in H. apply andb_true_iff in H. destruct H as [Hd Hr].
    simpl. rewrite (digit_neq d c Hd Hc). rewrite (IH Hr).
    destruct (Py.split c t); reflexivity.
Qed.
End AfterDigits.
End DigitStrings.

(** C9, as the specification words it, does not hold: the text "h2" is in
    none of the formats N, Nmin, Nh, NhMmin, and [parse_duration] accepts it
    and returns 120. *)
Lemma parse_duration_accepts_other_text :
  parse_duration "h2" = Ok 120 /\ ~ in_duration_formats "h2".
Proof.
  split; [reflexivity |].
  intros (N & M & HN & _ & Ht).
  destruct (isdigit_cons N HN) as (c & r & -> & Hc & _).
  change (Py.strip (Py.lower "h2")) with "h2"%string in Ht. simpl in Ht.
  assert (c = "h"%char) by (destruct Ht as [H | [H | [H | H]]]; congruence).
  subst c. discriminate.
Qed.

(** C9 (amended): [parse_duration] lowers the case of the text and strips
    the blanks around it; on each of the formats N, Nmin, Nh and NhMmin (N
    and M non-empty strings of digits) it returns the total of minutes, in
    particular 90 for "1h30min", 45 for "45min", 120 for "2h" and 30 for
    "30"; a text that is not a number and contains neither "h" nor "min"
    makes it raise [ValueError].  Other texts that contain "h" or "min" are
    not all rejected. *)
Theorem parse_duration_formats (text N M : string) :
  Py.isdigit N = true ->
  Py.isdigit M = true ->
  let t := Py.strip (Py.lower text) in
  ((t = N -> parse_duration text = Ok (decimal 0 N)) /\
   (t = N ++ "min" -> parse_duration text = Ok (decimal 0 N)) /\
   (t = N ++ "h" -> parse_duration text = Ok (decimal 0 N * 60)) /\
   (t = N ++ "h" ++ M ++ "min" ->
    parse_duration text = Ok (decimal 0 N * 60 + decimal 0 M)))%string /\
  (parse_duration "1h30min" = Ok 90 /\ parse_duration "45min" = Ok 45 /\
   parse_duration "2h" = Ok 120 /\ parse_duration "30" = Ok 30) /\
  (Py.isdigit t = false -> Py.contains "h" t = false -> Py.contains "min" t = false ->
   parse_duration text = Raise (ValueError (InvalidDurationFormat t))).
Proof.
  intros HN HM t. subst t.
  pose proof (isdigit_all_digits N HN) as HN'.
  pose proof (isdigit_all_digits M HM) as HM'.
  assert (Hh : Py.is_digit "h" = false) by reflexivity.
  assert (Hm : Py.is_digit "m" = false) by reflexivity.
  split; [split; [| split; [| split]] | split].
  - intros Ht. unfold parse_duration. rewrite Ht, HN.
    apply int_digits_string, HN.
  - intros Ht. unfold parse_duration. rewrite Ht.
    rewrite (isdigit_append N "min" HN).
    rewrite (contains_after_digits "h" "" Hh N "min" HN').
    rewrite (contains_after_digits "m" "in" Hm N "min" HN').
    rewrite (remove_after_digits "m" "in" Hm N "min" HN').
    change (Py.remove_fuel (String.length "min") "min" "min") with ""%string.
    rewrite append_empty_r. simpl. apply int_digits_string, HN.
  - intros Ht. unfold parse_duration. rewrite Ht.
    rewrite (isdigit_append N "h" HN).
    rewrite (contains_after_digits "h" "" Hh N "h" HN').
    rewrite (contains_after_digits "m" "in" Hm N "h" HN').
    rewrite (remove_after_digits "h" "" Hh N "h" HN').
    change (Py.remove_fuel (String.length "h") "h" "h") with ""%string.
    rewrite append_empty_r. simpl. rewrite (int_digits_string N HN). simpl.
    rewrite Z.add_0_r. reflexivity.
  - intros Ht. unfold parse_duration. rewrite Ht.
    rewrite (isdigit_append N _ HN).
    rewrite (contains_after_digits "h" "" Hh N _ HN').
    rewrite (contains_after_digits "m" "in" Hm N _ HN').
    rewrite (split_after_digits "h" Hh N _ HN').
    change ("h" ++ M ++ "min")%string with (String "h" (M ++ "min")).
    change (Py.all_digits (String "h" (M ++ "min"))) with false.
    rewrite (contains_head "h" (M ++ "min")).
    change (Py.contains "min" (String "h" (M ++ "min")))
      with (Py.contains "min" (M ++ "min")).
    rewrite (contains_after_digits "m" "in" Hm M "min" HM').
    change (Py.split "h" (String "h" (M ++ "min")))
      with (EmptyString :: Py.split "h" (M ++ "min")).
    rewrite (split_after_digits "h" Hh M "min" HM').
    change (Py.split "h" "min") with ["min"%string].
    rewrite append_empty_r. cbv iota beta.
    change (Py.contains "min" "min") with true. cbv iota.
    rewrite (int_digits_string N HN).
    rewrite (remove_after_digits "m" "in" Hm M "min" HM').
    change (Py.remove_fuel (String.length "min") "min" "min") with ""%string.
    rewrite append_empty_r, (strip_digits M HM).
    assert (HminM : match M with
                    | EmptyString => Ok 0
                    | String _ _ => Py.int M
                    end = Ok (decimal 0 M)).
    { destruct M; [discriminate HM | apply int_digits_string, HM]. }
    rewrite HminM. reflexivity.
  - repeat split; reflexivity.
  - intros H1 H2 H3. unfold parse_duration. rewrite H1, H2, H3. reflexivity.
Qed.

Lemma parse_duration_formats_witness :
  parse_duration "  2H15Min " = Ok (decimal 0 "2" * 60 + decimal 0 "15") /\
  parse_duration "soon" = Raise (ValueError (InvalidDurationFormat "soon")).
Proof.
  split.
  - destruct (parse_duration_formats "  2H15Min " "2" "15" eq_refl eq_refl)
      as ((_ & _ & _ & H) & _).
    apply H. reflexivity.
  - destruct (parse_duration_formats "soon" "2" "15" eq_refl eq_refl) as (_ & _ & H).
    apply H; reflexivity.
Defined.

(** ** Solutions of the model *)

Lemma solved_satisfies (self self' : InterviewScheduler) (values : assignment) :
  solved self self' values -> satisfies values (model self) = true.
Proof.
  intros (st & _ & (Hsat & _) & Hsolve).
  apply Hsat. unfold solve in Hsolve. injection Hsolve as _ Hst. exact Hst.
Qed.

Lemma solved_state (self self' : InterviewScheduler) (values : assignment) :
  solved self self' values ->
  solution_found self' = true /\ solver self' = Some values /\
  panels self' = panels self /\ num_candidates self' = num_candidates self /\
  slot_duration_minutes self' = slot_duration_minutes self.
Proof.
  intros (st & _ & _ & Hsolve). unfold solve in Hsolve.
  injection Hsolve as <- Hst. simpl. auto.
Qed.

Lemma solved_small_day :
  solved small_day (fst (solve small_day FEASIBLE small_day_values)) small_day_values.
Proof.
  exists FEASIBLE. split; [exists (Some [("Lunch", PosInt 2)]), None; reflexivity |].
  split; [| reflexivity]. split.
  - intros _. vm_compute. reflexivity.
  - discriminate.
Qed.

Lemma model_parts (self : InterviewScheduler) (c : constraint) :
  In c (start_vars self) \/ In c (_add_basic_constraints self) \/
  In c (_add_gap_constraints self) \/ In c (_add_position_constraints self) \/
  In c (_add_panel_conflict_constraints self) \/ In c (_add_order_constraints self) \/
  In c (_set_objective self) ->
  In c (model self).
Proof. unfold model. rewrite !in_app_iff. tauto. Qed.

Lemma disjoint_spec (i j : Z * Z) :
  disjoint i j = true <-> snd i <= fst j \/ snd j <= fst i.
Proof. unfold disjoint. rewrite orb_true_iff, !Z.leb_le. tauto. Qed.

Lemma pairwise_disjoint_map {A : Type} (f : A -> Z * Z) (l : list A) :
  pairwise_disjoint (map f l) = true ->
  forall x y, In x l -> In y l -> x <> y ->
  snd (f x) <= fst (f y) \/ snd (f y) <= fst (f x).
Proof.
  induction l as [| z l IH]; simpl; intros H x y Hx Hy Hne; [contradiction |].
  apply andb_true_iff in H. destruct H as [Hz Hl].
  rewrite forallb_forall in Hz.
  destruct Hx as [-> | Hx], Hy as [-> | Hy].
  - contradiction.
  - apply disjoint_spec, Hz, in_map, Hy.
  - apply or_comm, disjoint_spec, Hz, in_map, Hx.
  - apply IH; assumption.
Qed.

(** ** Panels do not overlap, Lunch apart *)

(** C2: in every solution returned by a successful solve, for each panel
    other than those of the shared set, which is exactly "Lunch", the
    sessions of two different candidates do not overlap: one ends before the
    other starts.  Panels of the shared set are exempt: for the day
    [small_day] a successful solve can return the timetable
    [small_day_values], in which the Lunch sessions of both candidates
    cover slot 4. *)
Theorem panel_sessions_disjoint :
  (forall self self' values p c1 c2,
     solved self self' values ->
     In p (Py.keys (panels self)) ->
     Py.in_list p lunch_like_panels = false ->
     In c1 (candidates self) -> In c2 (candidates self) -> c1 <> c2 ->
     session_end self values c1 p <= session_start values c2 p \/
     session_end self values c2 p <= session_start values c1 p) /\
  lunch_like_panels = ["Lunch"] /\
  (exists self',
     solved small_day self' small_day_values /\
     In "Lunch" (Py.keys (panels small_day)) /\
     In 0 (candidates small_day) /\ In 1 (candidates small_day) /\
     session_start small_day_values 0 "Lunch" <= 4
       < session_end small_day small_day_values 0 "Lunch" /\
     session_start small_day_values 1 "Lunch" <= 4
       < session_end small_day small_day_values 1 "Lunch").
Proof.
  split; [| split; [reflexivity |]].
  - intros self self' values p c1 c2 Hs Hp Hl Hc1 Hc2 Hne.
    pose proof (solved_satisfies _ _ _ Hs) as Hsat.
    assert (Hin : In (NoOverlap (map (fun c => interval_vars self c p) (candidates self)))
                     (model self)).
    { apply model_parts. right; left. unfold _add_basic_constraints.
      rewrite !in_app_iff. right; left. apply in_flat_map.
      exists p. split; [exact Hp |]. rewrite Hl. simpl. auto. }
    pose proof (satisfies_In _ _ _ Hsat Hin) as H. simpl in H.
    rewrite map_map in H.
    exact (pairwise_disjoint_map _ _ H c1 c2 Hc1 Hc2 Hne).
  - eexists. split; [exact solved_small_day |].
    simpl. repeat split; auto; vm_compute; congruence.
Qed.

Lemma panel_sessions_disjoint_witness :
  session_end small_day small_day_values 0 "HR" <= session_start small_day_values 1 "HR" \/
  session_end small_day small_day_values 1 "HR" <= session_start small_day_values 0 "HR".
Proof.
  apply (proj1 panel_sessions_disjoint small_day _ small_day_values "HR" 0 1
           solved_small_day).
  - simpl; auto.
  - reflexivity.
  - simpl; auto.
  - simpl; auto.
  - discriminate.
Defined.

(** ** Pinned positions *)

(** The sum of indicator variables counts those that are set. *)
Lemma sum_indicators {A : Type} (a : assignment) (g : A -> var) (test : A -> bool)
    (l : list A) :
  (forall x, In x l -> a (g x) = if test x then 1 else 0) ->
  Py.sum (map a (map g l)) = len (filter test l).
Proof.
  unfold len. induction l as [| x l IH]; intros H; [reflexivity |].
  change (a (g x) + Py.sum (map a (map g l))
          = Z.of_nat (List.length (if test x then x :: filter test l else filter test l))).
  rewrite IH by (intros y Hy; apply H; right; exact Hy).
  rewrite (H x (or_introl eq_refl)).
  destruct (test x); simpl List.length; lia.
Qed.

Lemma In_position_int (self : InterviewScheduler) (c : Z) (pinned : string) (k : Z)
    (c0 : constraint) :
  In c (candidates self) ->
  In (pinned, PosInt k) (position_constraints self) ->
  In c0 (flat_map (fun other_panel =>
           [ NewBoolVar (PanelBefore c other_panel pinned);
             Linear (Plus (V (Start c other_panel)) (Const (duration self other_panel))) Le
                    (V (Start c pinned)) [Lit (PanelBefore c other_panel pinned)];
             Linear (V (Start c pinned)) Lt
                    (Plus (V (Start c other_panel)) (Const (duration self other_panel)))
                    [Not (PanelBefore c other_panel pinned)] ])
           (others (Py.keys (panels self)) pinned)
         ++ [ Linear (Sum (map (fun other_panel => PanelBefore c other_panel pinned)
                               (others (Py.keys (panels self)) pinned)))
                     Eq (Const k) [] ]) ->
  In c0 (model self).
Proof.
  intros Hc Hp H. apply model_parts. do 3 right; left.
  unfold _add_position_constraints. apply in_flat_map.
  exists c. split; [exact Hc |]. apply in_flat_map.
  exists (pinned, PosInt k). split; [exact Hp | exact H].
Qed.

(** C4: for every panel pinned at an integer position k and every
    candidate, in every solution returned by a successful solve exactly k of
    the candidate's other panels have ended (end slot <= start slot of the
    pinned panel) when the pinned panel starts. *)
Theorem integer_position_count (self self' : InterviewScheduler) (values : assignment)
    (pinned : string) (k c : Z) :
  solved self self' values ->
  In (pinned, PosInt k) (position_constraints self) ->
  In c (candidates self) ->
  len (filter (fun other =>
                 session_end self values c other <=? session_start values c pinned)
              (others (Py.keys (panels self)) pinned)) = k.
Proof.
  intros Hs Hp Hc. pose proof (solved_satisfies _ _ _ Hs) as Hsat.
  pose proof (fun c0 H => satisfies_In _ _ c0 Hsat (In_position_int self c pinned k c0 Hc Hp H))
    as Hholds.
  rewrite <- (sum_indicators values (fun other => PanelBefore c other pinned)).
  - assert (H := Hholds (Linear (Sum (map (fun other_panel => PanelBefore c other_panel pinned)
                                         (others (Py.keys (panels self)) pinned)))
                                Eq (Const k) [])).
    simpl in H. apply Z.eqb_eq, H. apply in_or_app. right. simpl. auto.
  - intros other Ho.
    assert (Hin : forall c0,
              In c0 [ NewBoolVar (PanelBefore c other pinned);
                      Linear (Plus (V (Start c other)) (Const (duration self other))) Le
                             (V (Start c pinned)) [Lit (PanelBefore c other pinned)];
                      Linear (V (Start c pinned)) Lt
                             (Plus (V (Start c other)) (Const (duration self other)))
                             [Not (PanelBefore c other pinned)] ] ->
              holds values c0 = true).
    { intros c0 H0. apply Hholds. apply in_or_app. left. apply in_flat_map.
      exists other. split; [exact Ho | exact H0]. }
    pose proof (Hin _ (or_introl eq_refl)) as Hb.
    pose proof (Hin _ (or_intror (or_introl eq_refl))) as Hle.
    pose proof (Hin _ (or_intror (or_intror (or_introl eq_refl)))) as Hlt.
    simpl in Hb, Hle, Hlt. unfold session_end, session_start.
    destruct (values (PanelBefore c other pinned) =? 1) eqn:E1;
      destruct (values (PanelBefore c other pinned) =? 0) eqn:E0;
      simpl in Hb, Hle, Hlt; try discriminate.
    + apply Z.eqb_eq in E1. apply Z.eqb_eq in E0. lia.
    + rewrite Hle. apply Z.eqb_eq, E1.
    + apply Z.ltb_lt in Hlt. apply Z.eqb_eq in E0.
      destruct (values (Start c other) + duration self other <=? values (Start c pinned))
        eqn:E2; [apply Z.leb_le in E2; lia | exact E0].
Qed.

Lemma integer_position_count_witness :
  len (filter (fun other =>
                 session_end small_day small_day_values 1 other
                   <=? session_start small_day_values 1 "Lunch")
              (others (Py.keys (panels small_day)) "Lunch")) = 2.
Proof.
  apply (integer_position_count small_day _ small_day_values "Lunch" 2 1 solved_small_day).
  - simpl; auto.
  - simpl; auto.
Defined.

(** ** The chain of a candidate's sessions *)

Lemma In_ordered_pairs (l : list string) (p q : string) :
  In (p, q) (ordered_pairs l) <-> In p l /\ In q l /\ p <> q.
Proof.
  unfold ordered_pairs. rewrite in_flat_map. split.
  - intros (p1 & Hp1 & H). apply in_flat_map in H. destruct H as (p2 & Hp2 & H).
    destruct (String.eqb p1 p2) eqn:E; simpl in H; [contradiction |].
    destruct H as [H | []]. injection H as <- <-.
    apply String.eqb_neq in E. auto.
  - intros (Hp & Hq & Hne). exists p. split; [exact Hp |].
    apply in_flat_map. exists q. split; [exact Hq |].
    apply String.eqb_neq in Hne. rewrite Hne. simpl. auto.
Qed.

Lemma NoDup_pairs_with (p1 : string) (l2 : list string) :
  NoDup l2 ->
  NoDup (flat_map (fun p2 => if negb (String.eqb p1 p2) then [(p1, p2)] else []) l2).
Proof.
  induction 1 as [| x l2 Hx H2 IH]; simpl; [constructor |].
  apply NoDup_app; [| exact IH |].
  - destruct (negb (String.eqb p1 x)); repeat constructor; simpl; tauto.
  - intros a Ha Hin. apply in_flat_map in Hin. destruct Hin as (y & Hy & Hin).
    destruct (negb (String.eqb p1 x)); [| contradiction].
    destruct Ha as [<- | []].
    destruct (negb (String.eqb p1 y)); [| contradiction].
    destruct Hin as [Hin | []]. injection Hin as ->. contradiction.
Qed.

Lemma NoDup_pairs_of (l1 l2 : list string) :
  NoDup l1 -> NoDup l2 ->
  NoDup (flat_map (fun p1 =>
           flat_map (fun p2 => if negb (String.eqb p1 p2) then [(p1, p2)] else []) l2) l1).
Proof.
  intros H1 H2. induction H1 as [| x l1 Hx H1 IH]; simpl; [constructor |].
  apply NoDup_app; [apply NoDup_pairs_with, H2 | exact IH |].
  intros [p q] Ha Hin.
  apply in_flat_map in Ha. destruct Ha as (y & _ & Ha).
  destruct (negb (String.eqb x y)); [| contradiction].
  destruct Ha as [Ha | []]. injection Ha as <- <-.
  apply in_flat_map in Hin. destruct Hin as (p1 & Hp1 & Hin).
  apply in_flat_map in Hin. destruct Hin as (p2 & _ & Hin).
  destruct (negb (String.eqb p1 p2)); [| contradiction].
  destruct Hin as [Hin | []]. injection Hin as -> _. contradiction.
Qed.

Lemma NoDup_ordered_pairs (l : list string) : NoDup l -> NoDup (ordered_pairs l).
Proof. intros H. apply NoDup_pairs_of; exact H. Qed.

Lemma consecutive_length {A : Type} (l : list A) :
  List.length (consecutive l) = (List.length l - 1)%nat.
Proof.
  induction l as [| x [| y l] IH]; try reflexivity.
  change (S (List.length (consecutive (y :: l))) = (List.length (x :: y :: l) - 1)%nat).
  rewrite IH. simpl. lia.
Qed.

Lemma consecutive_cons {A : Type} (a : A) (l : list A) (xy : A * A) :
  In xy (consecutive l) -> In xy (consecutive (a :: l)).
Proof. destruct l as [| b l]; [contradiction | intros H; right; exact H]. Qed.

Lemma consecutive_In {A : Type} (l : list A) (x y : A) :
  In (x, y) (consecutive l) -> In x l /\ In y l.
Proof.
  induction l as [| a [| b l] IH]; try contradiction.
  intros [H | H].
  - injection H as <- <-. simpl; auto.
  - destruct (IH H). simpl in *; tauto.
Qed.

Lemma consecutive_map {A B : Type} (g : A -> B) (l : list A) (x y : A) :
  In (x, y) (consecutive l) -> In (g x, g y) (consecutive (map g l)).
Proof.
  induction l as [| a [| b l] IH]; try contradiction.
  intros [H | H].
  - injection H as <- <-. left. reflexivity.
  - right. exact (IH H).
Qed.

(** In a strongly sorted list the first of two neighbours is related to the
    second. *)
Lemma consecutive_sorted {A : Type} (R : A -> A -> Prop) (l : list A) (x y : A) :
  StronglySorted R l -> In (x, y) (consecutive l) -> R x y.
Proof.
  induction l as [| a [| b l] IH]; try contradiction.
  intros Hs [H | H].
  - injection H as <- <-. apply StronglySorted_inv in Hs. destruct Hs as [_ Hf].
    inversion Hf; assumption.
  - apply IH; [| exact H]. apply StronglySorted_inv in Hs. tauto.
Qed.

(** Two elements of a strictly sorted list with no element strictly between
    them are neighbours. *)
Lemma neighbours_in_sorted {A : Type} (key : A -> Z) (l : list A) :
  StronglySorted (fun x y => key x < key y) l ->
  forall p q, In p l -> In q l -> key p < key q ->
  (forall r, In r l -> ~ (key p < key r < key q)) ->
  In (p, q) (consecutive l).
Proof.
  induction l as [| a l IH]; intros Hs p q Hp Hq Hlt Hnone; [contradiction |].
  apply StronglySorted_inv in Hs. destruct Hs as [Hs Ha].
  rewrite Forall_forall in Ha.
  destruct Hp as [<- | Hp].
  - destruct Hq as [<- | Hq]; [lia |].
    destruct l as [| b l]; [contradiction |].
    destruct Hq as [<- | Hq]; [left; reflexivity |].
    exfalso. apply (Hnone b); [simpl; auto |].
    apply StronglySorted_inv in Hs. destruct Hs as [_ Hb].
    rewrite Forall_forall in Hb.
    split; [apply Ha; simpl; auto | apply Hb, Hq].
  - destruct Hq as [<- | Hq]; [pose proof (Ha p Hp); lia |].
    apply consecutive_cons. apply IH; auto.
    intros r Hr. apply Hnone. right. exact Hr.
Qed.

(** The argument behind the gap constraints, for one candidate: [P] are the
    panels, [s] and [d] the start and the duration of each, [f p q] the
    value of the variable "q follows p", and [L] the panels sorted by
    start. *)
Section Chain.
Variable P : list string.
Variables s d : string -> Z.
Variable f : string -> string -> Z.
Variable G : Z.

Hypothesis P_nodup : NoDup P.
Hypothesis d_pos : forall p, In p P -> 1 <= d p.
Hypothesis no_overlap :
  forall p q, In p P -> In q P -> p <> q -> s p + d p <= s q \/ s q + d q <= s p.
Hypothesis f_after :
  forall p q, In (p, q) (ordered_pairs P) -> f p q = 1 -> s p + d p <= s q.
Hypothesis f_gap :
  forall p q, In (p, q) (ordered_pairs P) -> f p q = 1 -> s q <= s p + d p + G.
Hypothesis f_between :
  forall p q r, In (p, q) (ordered_pairs P) -> In r P -> r <> p -> r <> q ->
                f p q = 1 -> s r < s p + d p \/ s q <= s r.
Hypothesis f_count :
  len (filter (fun pq => f (fst pq) (snd pq) =? 1) (ordered_pairs P)) = len P - 1.

Variable L : list string.
Hypothesis L_perm : Permutation L P.
Hypothesis L_sorted : StronglySorted (fun p q => s p <= s q) L.

Lemma chain_In (p : string) : In p L <-> In p P.
Proof.
  split; apply Permutation_in; [exact L_perm | apply Permutation_sym, L_perm].
Qed.

Lemma chain_strict : StronglySorted (fun p q => s p < s q) L.
Proof.
  assert (HL : NoDup L) by (apply (Permutation_NoDup (Permutation_sym L_perm)), P_nodup).
  assert (Hin : forall p, In p L -> In p P) by (intros p; apply chain_In).
  clear L_perm. induction L as [| a l IH]; [constructor |].
  apply StronglySorted_inv in L_sorted. destruct L_sorted as [Hs Ha].
  inversion HL as [| ? ? Hna Hl]; subst.
  constructor.
  - apply IH; auto. intros p Hp. apply Hin. right. exact Hp.
  - rewrite Forall_forall in Ha |- *. intros q Hq.
    assert (a <> q) by (intros ->; contradiction).
    pose proof (Ha q Hq).
    pose proof (d_pos a (Hin a (or_introl eq_refl))).
    pose proof (d_pos q (Hin q (or_intror Hq))).
    destruct (no_overlap a q (Hin a (or_introl eq_refl)) (Hin q (or_intror Hq)) H); lia.
Qed.

(** Every "follows" edge that is set joins two neighbours of the sorted
    sequence. *)
Lemma chain_edges_are_neighbours (p q : string) :
  In (p, q) (ordered_pairs P) -> f p q = 1 -> In (p, q) (consecutive L).
Proof.
  intros Hpq Hf. pose proof Hpq as Hpq'.
  apply In_ordered_pairs in Hpq'. destruct Hpq' as (Hp & Hq & Hne).
  pose proof (f_after p q Hpq Hf) as Hafter.
  pose proof (d_pos p Hp) as Hdp.
  apply (neighbours_in_sorted s L chain_strict).
  - apply chain_In, Hp.
  - apply chain_In, Hq.
  - lia.
  - intros r Hr [H1 H2]. apply chain_In in Hr.
    assert (r <> p) by (intros ->; lia).
    assert (r <> q) by (intros ->; lia).
    pose proof (d_pos r Hr).
    destruct (f_between p q r Hpq Hr H H0 Hf); [| lia].
    destruct (no_overlap p r Hp Hr (not_eq_sym H)); lia.
Qed.

(** There are as many edges as pairs of neighbours, so every pair of
    neighbours is an edge. *)
Lemma chain_neighbours_are_edges (p q : string) :
  In (p, q) (consecutive L) -> In (p, q) (ordered_pairs P) /\ f p q = 1.
Proof.
  intros H.
  set (E := filter (fun pq => f (fst pq) (snd pq) =? 1) (ordered_pairs P)).
  assert (HE : incl (consecutive L) E).
  { apply NoDup_length_incl.
    - apply NoDup_filter, NoDup_ordered_pairs, P_nodup.
    - rewrite consecutive_length, (Permutation_length L_perm).
      unfold len in f_count. fold E in f_count. lia.
    - intros [x y] Hxy. apply filter_In in Hxy. destruct Hxy as [Hin Hf].
      apply Z.eqb_eq in Hf. apply chain_edges_are_neighbours; assumption. }
  apply HE in H. apply filter_In in H. destruct H as [Hin Hf].
  apply Z.eqb_eq in Hf. auto.
Qed.

(** Between two neighbours of the sorted sequence the gap is between 0
    and [G]. *)
Lemma chain_gaps (p q : string) :
  In (p, q) (consecutive L) -> 0 <= s q - (s p + d p) <= G.
Proof.
  intros H. destruct (chain_neighbours_are_edges p q H) as [Hpq Hf].
  pose proof (f_after p q Hpq Hf). pose proof (f_gap p q Hpq Hf). lia.
Qed.
End Chain.

(** *** What a solution says about one candidate *)

Section CandidateChain.
Variables (self : InterviewScheduler) (values : assignment) (c : Z).
Hypothesis Hsat : satisfies values (model self) = true.
Hypothesis Hc : In c (candidates self).

Let P := Py.keys (panels self).

Lemma gap_constraint_holds (c0 : constraint) :
  In c0 (gap_constraints_of self c) -> holds values c0 = true.
Proof.
  intros H. apply (satisfies_In _ _ _ Hsat). apply model_parts. do 2 right; left.
  unfold _add_gap_constraints. apply in_flat_map. exists c. auto.
Qed.

Lemma follows_constraint_holds (p q : string) (c0 : constraint) :
  In (p, q) (ordered_pairs P) ->
  In c0 (follows_constraints self c p q) -> holds values c0 = true.
Proof.
  intros Hpq H. apply gap_constraint_holds. unfold gap_constraints_of.
  rewrite !in_app_iff. right; left. apply in_flat_map. exists (p, q). auto.
Qed.

Lemma solution_no_overlap (p q : string) :
  In p P -> In q P -> p <> q ->
  values (Start c p) + duration self p <= values (Start c q) \/
  values (Start c q) + duration self q <= values (Start c p).
Proof.
  intros Hp Hq Hne.
  assert (Hin : In (NoOverlap (map (interval_vars self c) P)) (model self)).
  { apply model_parts. right; left. unfold _add_basic_constraints.
    rewrite !in_app_iff. left. apply in_map_iff. exists c. auto. }
  pose proof (satisfies_In _ _ _ Hsat Hin) as H. simpl in H. rewrite map_map in H.
  exact (pairwise_disjoint_map _ _ H p q Hp Hq Hne).
Qed.

Lemma solution_follows_after (p q : string) :
  In (p, q) (ordered_pairs P) -> values (Follows c p q) = 1 ->
  values (Start c p) + duration self p <= values (Start c q).
Proof.
  intros Hpq Hf.
  pose proof (follows_constraint_holds p q _ Hpq (or_introl eq_refl)) as H.
  simpl in H. rewrite Hf in H. simpl in H. apply Z.geb_le in H. exact H.
Qed.

Lemma solution_follows_gap (p q : string) :
  In (p, q) (ordered_pairs P) -> values (Follows c p q) = 1 ->
  values (Start c q) <= values (Start c p) + duration self p + max_gap_slots self.
Proof.
  intros Hpq Hf.
  pose proof (follows_constraint_holds p q _ Hpq (or_intror (or_introl eq_refl))) as H.
  simpl in H. rewrite Hf in H. simpl in H. apply Z.leb_le in H. exact H.
Qed.

Lemma solution_follows_between (p q r : string) :
  In (p, q) (ordered_pairs P) -> In r P -> r <> p -> r <> q ->
  values (Follows c p q) = 1 ->
  values (Start c r) < values (Start c p) + duration self p \/
  values (Start c q) <= values (Start c r).
Proof.
  intros Hpq Hr Hrp Hrq Hf.
  assert (Hin : forall c0,
            In c0 [ NewBoolVar (Before c p q r);
                    NewBoolVar (After c p q r);
                    Linear (V (Start c r)) Lt
                           (Plus (V (Start c p)) (Const (duration self p)))
                           [Lit (Follows c p q); Lit (Before c p q r)];
                    Linear (V (Start c r)) Ge (V (Start c q))
                           [Lit (Follows c p q); Lit (After c p q r)];
                    BoolOr [Lit (Before c p q r); Lit (After c p q r)]
                           [Lit (Follows c p q)] ] ->
            holds values c0 = true).
  { intros c0 H0. apply (follows_constraint_holds p q _ Hpq).
    unfold follows_constraints. apply in_or_app. right. apply in_flat_map.
    exists r. split; [exact Hr |].
    apply String.eqb_neq in Hrp. apply String.eqb_neq in Hrq.
    rewrite Hrp, Hrq. exact H0. }
  pose proof (Hin _ (or_intror (or_intror (or_introl eq_refl)))) as Hb.
  pose proof (Hin _ (or_intror (or_intror (or_intror (or_introl eq_refl))))) as Ha.
  pose proof (Hin _ (or_intror (or_intror (or_intror (or_intror (or_introl eq_refl))))))
    as Hor.
  simpl in Hb, Ha, Hor. rewrite Hf in Hb, Ha, Hor. simpl in Hb, Ha, Hor.
  destruct (values (Before c p q r) =? 1); simpl in Hb, Hor.
  - left. apply Z.ltb_lt, Hb.
  - rewrite orb_false_r in Hor. rewrite Hor in Ha. simpl in Ha.
    right. apply Z.geb_le, Ha.
Qed.

Lemma solution_follows_count :
  len (filter (fun pq => values (Follows c (fst pq) (snd pq)) =? 1) (ordered_pairs P))
  = len P - 1.
Proof.
  rewrite <- (sum_indicators values (fun pq => Follows c (fst pq) (snd pq))).
  - assert (H : holds values
                  (Linear (Sum (map (fun '(p1, p2) => Follows c p1 p2) (ordered_pairs P)))
                          Eq (Const (len P - 1)) []) = true).
    { apply gap_constraint_holds. unfold gap_constraints_of.
      rewrite !in_app_iff. do 3 right. simpl. auto. }
    simpl in H. apply Z.eqb_eq in H. rewrite <- H. f_equal. f_equal.
    apply map_ext. intros [p q]. reflexivity.
  - intros [p q] Hpq. simpl.
    assert (H : holds values (NewBoolVar (Follows c p q)) = true).
    { apply gap_constraint_holds. unfold gap_constraints_of.
      rewrite !in_app_iff. left. apply in_map_iff. exists (p, q). auto. }
    simpl in H. destruct (values (Follows c p q) =? 1) eqn:E.
    + apply Z.eqb_eq, E.
    + rewrite orb_false_r in H. apply Z.eqb_eq, H.
Qed.

(** The gaps of the candidate, for any list [L] of the panels sorted by
    start. *)
Lemma solution_gaps (L : list string) (p q : string) :
  NoDup P ->
  (forall x, In x P -> 1 <= duration self x) ->
  Permutation L P ->
  StronglySorted (fun x y => values (Start c x) <= values (Start c y)) L ->
  In (p, q) (consecutive L) ->
  0 <= values (Start c q) - (values (Start c p) + duration self p) <= max_gap_slots self.
Proof.
  intros Hnd Hpos Hperm Hsorted Hpq.
  exact (chain_gaps P (fun x => values (Start c x)) (duration self)
           (fun x y => values (Follows c x y)) (max_gap_slots self)
           Hnd Hpos solution_no_overlap solution_follows_after solution_follows_gap
           solution_follows_between solution_follows_count L Hperm Hsorted p q Hpq).
Qed.
End CandidateChain.

(** *** The schedule of a candidate *)

Lemma map_result_Ok {A B : Type} (body : A -> result B) (g : A -> B) (l : list A) :
  (forall x, In x l -> body x = Ok (g x)) -> map_result body l = Ok (map g l).
Proof.
  induction l as [| x l IH]; intros H; [reflexivity |].
  simpl. rewrite (H x (or_introl eq_refl)). simpl.
  rewrite IH by (intros y Hy; apply H; right; exact Hy). reflexivity.
Qed.

Lemma mem_keys {V : Type} (d : list (string * V)) (k : string) :
  In k (Py.keys d) -> Py.mem k d = true.
Proof.
  unfold Py.mem. induction d as [| [k' v] d IH]; simpl; [contradiction |].
  intros [-> | H].
  - rewrite String.eqb_refl. reflexivity.
  - destruct (String.eqb k' k); [reflexivity | exact (IH H)].
Qed.

Lemma insert_by_start_perm (x : session) (l : list session) :
  Permutation (insert_by_start x l) (x :: l).
Proof.
  induction l as [| y l IH]; simpl; [reflexivity |].
  destruct (start_slot x <=? start_slot y); [reflexivity |].
  rewrite IH. apply perm_swap.
Qed.

Lemma sort_by_start_perm (l : list session) : Permutation (sort_by_start l) l.
Proof.
  induction l as [| x l IH]; simpl; [constructor |].
  rewrite insert_by_start_perm. constructor. exact IH.
Qed.

Lemma insert_by_start_sorted (x : session) (l : list session) :
  StronglySorted (fun a b => start_slot a <= start_slot b) l ->
  StronglySorted (fun a b => start_slot a <= start_slot b) (insert_by_start x l).
Proof.
  induction l as [| y l IH]; simpl; intros Hs; [repeat constructor |].
  pose proof (StronglySorted_inv Hs) as [Hl Hy].
  destruct (start_slot x <=? start_slot y) eqn:E.
  - apply Z.leb_le in E. constructor; [exact Hs |].
    constructor; [exact E |].
    rewrite Forall_forall in Hy |- *. intros z Hz. pose proof (Hy z Hz). lia.
  - apply Z.leb_gt in E. constructor; [exact (IH Hl) |].
    apply (Permutation_Forall (Permutation_sym (insert_by_start_perm x l))).
    constructor; [lia | exact Hy].
Qed.

Lemma sort_by_start_sorted (l : list session) :
  StronglySorted (fun a b => start_slot a <= start_slot b) (sort_by_start l).
Proof.
  induction l as [| x l IH]; simpl; [constructor |].
  apply insert_by_start_sorted, IH.
Qed.

Lemma StronglySorted_map {A B : Type} (R : A -> A -> Prop) (R' : B -> B -> Prop)
    (g : A -> B) (l : list A) :
  (forall x y, In x l -> In y l -> R x y -> R' (g x) (g y)) ->
  StronglySorted R l -> StronglySorted R' (map g l).
Proof.
  induction l as [| a l IH]; intros H Hs; [constructor |].
  apply StronglySorted_inv in Hs. destruct Hs as [Hl Ha]. simpl. constructor.
  - apply IH; [| exact Hl]. intros x y Hx Hy. apply H; right; assumption.
  - rewrite Forall_forall in Ha. apply Forall_forall. intros b Hb.
    apply in_map_iff in Hb. destruct Hb as (y & <- & Hy).
    apply H; simpl; auto.
Qed.

(** Adding the gaps changes neither the panels nor the slots, so two
    neighbours of the result are two neighbours of the sorted list. *)
Lemma add_gaps_consecutive (self : InterviewScheduler) (l : list session) :
  forall (previous a a' x y : session),
    panel a' = panel a -> start_slot a' = start_slot a -> end_slot a' = end_slot a ->
    In (x, y) (consecutive (a' :: add_gaps self previous l)) ->
    exists x' y',
      In (x', y') (consecutive (a :: l)) /\
      panel x = panel x' /\ end_slot x = end_slot x' /\
      panel y = panel y' /\ start_slot y = start_slot y'.
Proof.
  induction l as [| b l IH]; intros previous a a' x y Hp Hs He H; [contradiction |].
  set (b' := with_gap b ((start_slot b - end_slot previous) * slot_duration_minutes self)).
  change (In (x, y) ((a', b') :: consecutive (b' :: add_gaps self b l))) in H.
  destruct H as [H | H].
  - injection H as <- <-. exists a, b. simpl. auto 10.
  - destruct (IH b b b' x y eq_refl eq_refl eq_refl H) as (x' & y' & Hin & Hrest).
    exists x', y'. split; [right; exact Hin | exact Hrest].
Qed.

Section SolvedSchedule.
Variables (self self' : InterviewScheduler) (values : assignment) (c : Z).
Hypothesis Hsolved : solved self self' values.
Hypothesis Hc : In c (candidates self).

(** After a successful solve [get_candidate_schedule] returns, for a
    candidate of the problem, the sessions of all panels sorted by start,
    each with the start the solver gave it. *)
Lemma get_candidate_schedule_solved :
  exists sorted,
    get_candidate_schedule self' c
      = Ok match sorted with
           | [] => []
           | first :: rest => first :: add_gaps self' first rest
           end /\
    Permutation (map panel sorted) (Py.keys (panels self)) /\
    StronglySorted (fun a b => start_slot a <= start_slot b) sorted /\
    (forall x, In x sorted ->
       start_slot x = values (Start c (panel x)) /\
       end_slot x = values (Start c (panel x)) + duration self (panel x)).
Proof.
  destruct (solved_state _ _ _ Hsolved) as (Hfound & Hsolver & Hpanels & Hn & _).
  assert (Hdur : forall p, duration self' p = duration self p)
    by (intros p; unfold duration; rewrite Hpanels; reflexivity).
  set (mk := fun p =>
         {| panel := p;
            start_time := slot_to_time self' (values (Start c p));
            end_time := slot_to_time self' (values (Start c p) + duration self' p);
            start_slot := values (Start c p);
            end_slot := values (Start c p) + duration self' p;
            duration_minutes := duration self' p * slot_duration_minutes self';
            gap_before := None |}).
  exists (sort_by_start (map mk (Py.keys (panels self)))).
  split; [| split; [| split]].
  - unfold get_candidate_schedule. rewrite Hfound, Hpanels. simpl negb. cbv iota.
    rewrite (map_result_Ok _ mk).
    + simpl bind. destruct (sort_by_start (map mk (Py.keys (panels self))));
        reflexivity.
    + intros p Hp. unfold Value_start. rewrite Hsolver.
      unfold candidates. rewrite Hn, Hpanels. fold (candidates self).
      rewrite (mem_keys _ _ Hp), andb_true_r.
      assert (E : existsb (Z.eqb c) (candidates self) = true)
        by (apply existsb_exists; exists c; split; [exact Hc | apply Z.eqb_refl]).
      rewrite E. reflexivity.
  - rewrite (Permutation_map panel (sort_by_start_perm _)).
    rewrite map_map. simpl. rewrite map_id. reflexivity.
  - apply sort_by_start_sorted.
  - intros x Hx. apply (Permutation_in _ (sort_by_start_perm _)) in Hx.
    apply in_map_iff in Hx. destruct Hx as (p & <- & _). simpl.
    rewrite Hdur. auto.
Qed.
End SolvedSchedule.

(** *** Availability windows *)

Lemma sum_one_indicator {A : Type} (a : assignment) (g : A -> var) (l : list A) :
  (forall x, In x l -> a (g x) = 0 \/ a (g x) = 1) ->
  Py.sum (map a (map g l)) = 1 ->
  exists x, In x l /\ a (g x) = 1.
Proof.
  induction l as [| x l IH]; intros Hb Hs; [discriminate |].
  change (a (g x) + Py.sum (map a (map g l)) = 1) in Hs.
  destruct (Hb x (or_introl eq_refl)) as [H0 | H1].
  - destruct IH as (y & Hy & H); [intros; apply Hb; right; assumption | lia |].
    exists y. split; [right; exact Hy | exact H].
  - exists x. split; [left; reflexivity | exact H1].
Qed.

(** In every assignment that satisfies the model each session lies inside
    one of the availability windows of its panel. *)
Lemma solution_in_window (self : InterviewScheduler) (values : assignment)
    (c : Z) (p : string) :
  satisfies values (model self) = true ->
  In c (candidates self) -> In p (Py.keys (panels self)) ->
  exists lo hi,
    In (lo, hi) (windows self p) /\
    lo <= values (Start c p) /\ values (Start c p) + duration self p <= hi.
Proof.
  intros Hsat Hc Hp.
  assert (Hholds : forall c0,
            In c0 (flat_map (fun '(i, (start_slot, end_slot)) =>
                     [ NewBoolVar (Avail c p i);
                       Linear (V (Start c p)) Ge (Const start_slot) [Lit (Avail c p i)];
                       Linear (Plus (V (Start c p)) (Const (duration self p))) Le
                              (Const end_slot) [Lit (Avail c p i)] ])
                     (enumerate (windows self p))
                   ++ [Linear (Sum (availability_options self c p)) Eq (Const 1) []]) ->
            holds values c0 = true).
  { intros c0 H. apply (satisfies_In _ _ _ Hsat). apply model_parts. right; left.
    unfold _add_basic_constraints. rewrite !in_app_iff. do 2 right.
    apply in_flat_map. exists c. split; [exact Hc |].
    apply in_flat_map. exists p. split; [exact Hp | exact H]. }
  assert (Hw : forall i lo hi c0,
            In (i, (lo, hi)) (enumerate (windows self p)) ->
            In c0 [ NewBoolVar (Avail c p i);
                    Linear (V (Start c p)) Ge (Const lo) [Lit (Avail c p i)];
                    Linear (Plus (V (Start c p)) (Const (duration self p))) Le
                           (Const hi) [Lit (Avail c p i)] ] ->
            holds values c0 = true).
  { intros i lo hi c0 Hi H. apply Hholds. apply in_or_app. left.
    apply in_flat_map. exists (i, (lo, hi)). auto. }
  destruct (sum_one_indicator values (fun iw : Z * (Z * Z) => Avail c p (fst iw))
              (enumerate (windows self p))) as ([i [lo hi]] & Hi & H1).
  - intros [i [lo hi]] Hi. simpl.
    pose proof (Hw i lo hi _ Hi (or_introl eq_refl)) as H. simpl in H.
    apply orb_true_iff in H. rewrite !Z.eqb_eq in H. exact H.
  - assert (H : holds values (Linear (Sum (availability_options self c p)) Eq (Const 1) [])
                = true) by (apply Hholds, in_or_app; right; simpl; auto).
    simpl in H. apply Z.eqb_eq in H. rewrite <- H. unfold availability_options.
    f_equal. f_equal. apply map_ext. intros [i [lo hi]]. reflexivity.
  - simpl in H1. exists lo, hi.
    pose proof (Hw i lo hi _ Hi (or_intror (or_introl eq_refl))) as Hlo.
    pose proof (Hw i lo hi _ Hi (or_intror (or_intror (or_introl eq_refl)))) as Hhi.
    simpl in Hlo, Hhi. rewrite H1 in Hlo, Hhi. simpl in Hlo, Hhi.
    apply Z.geb_le in Hlo. apply Z.leb_le in Hhi.
    split; [| split; assumption].
    unfold enumerate in Hi. apply in_combine_r in Hi. exact Hi.
Qed.

(** ** The gap bound *)

(** X26: when every panel lasts at least one slot, the schedule
    [get_candidate_schedule] returns after a successful solve has all its
    gaps between 0 and [max_gap_slots], the quotient of [max_gap_minutes] by
    the slot width. *)
Theorem gaps_bounded (self self' : InterviewScheduler) (values : assignment) (c : Z) :
  solved self self' values ->
  NoDup (Py.keys (panels self)) ->
  (forall p, In p (Py.keys (panels self)) -> 1 <= duration self p) ->
  In c (candidates self) ->
  max_gap_slots self = max_gap_minutes self / slot_duration_minutes self /\
  exists sessions,
    get_candidate_schedule self' c = Ok sessions /\
    forall x y, In (x, y) (consecutive sessions) ->
                0 <= start_slot y - end_slot x <= max_gap_slots self.
Proof.
  intros Hs Hnd Hpos Hc. split.
  - destruct Hs as (st & Hcons & _). apply constructed_max_gap_slots, Hcons.
  - destruct (get_candidate_schedule_solved _ _ _ c Hs Hc)
      as (sorted & Hget & Hperm & Hsorted & Hslots).
    eexists. split; [exact Hget |].
    intros x y Hxy. destruct sorted as [| first rest]; [contradiction |].
    destruct (add_gaps_consecutive self' rest first first first x y
                eq_refl eq_refl eq_refl Hxy)
      as (x' & y' & Hin & _ & Hex & _ & Hsy).
    destruct (consecutive_In _ _ _ Hin) as [Hx' Hy'].
    destruct (Hslots x' Hx') as [_ Hx'e]. destruct (Hslots y' Hy') as [Hy's _].
    rewrite Hex, Hsy, Hx'e, Hy's.
    apply (solution_gaps self values c (solved_satisfies _ _ _ Hs) Hc
             (map panel (first :: rest))); auto.
    + apply (StronglySorted_map (fun a b => start_slot a <= start_slot b));
        [| exact Hsorted].
      intros a b Ha Hb Hab.
      destruct (Hslots a Ha) as [<- _]. destruct (Hslots b Hb) as [<- _]. exact Hab.
    + apply consecutive_map. exact Hin.
Qed.

Lemma gaps_bounded_small_day :
  exists sessions,
    get_candidate_schedule (fst (solve small_day FEASIBLE small_day_values)) 1 = Ok sessions /\
    forall x y, In (x, y) (consecutive sessions) -> 0 <= start_slot y - end_slot x <= 1.
Proof.
  refine (proj2 (gaps_bounded small_day _ small_day_values 1 solved_small_day _ _ _)).
  - repeat constructor; simpl; intuition discriminate.
  - intros p [<- | [<- | [<- | []]]]; vm_compute; discriminate.
  - simpl; auto.
Defined.

(** *** Panels of zero slots *)

Lemma constructed_badge_day : constructed badge_day.
Proof. exists (Some []), (Some []). reflexivity. Qed.

(** Whatever the solver answers for [badge_day], the interview starts at
    slot 10 while badge and photo end at slot 1 at the latest. *)
Lemma badge_day_solutions (values : assignment) :
  satisfies values (model badge_day) = true ->
  values (Start 0 "Interview") = 10 /\
  (forall p, In p ["Badge"; "Photo"] ->
             values (Start 0 p) + duration badge_day p <= 1).
Proof.
  intros Hsat.
  assert (Hc : In 0 (candidates badge_day)) by (simpl; auto).
  split.
  - destruct (solution_in_window badge_day values 0 "Interview" Hsat Hc)
      as (lo & hi & Hw & Hlo & Hhi); [simpl; auto |].
    destruct Hw as [Hw | []]. injection Hw as <- <-.
    change (duration badge_day "Interview") with 2 in Hhi. lia.
  - intros p Hp.
    destruct (solution_in_window badge_day values 0 p Hsat Hc)
      as (lo & hi & Hw & Hlo & Hhi);
      [destruct Hp as [<- | [<- | []]]; simpl; auto |].
    destruct Hp as [<- | [<- | []]];
      (destruct Hw as [Hw | []]; injection Hw as <- <-; exact Hhi).
Qed.

Lemma solved_badge_day :
  solved badge_day (fst (solve badge_day OPTIMAL badge_values)) badge_values.
Proof.
  exists OPTIMAL. split; [exact constructed_badge_day |].
  split; [| reflexivity]. split.
  - intros _. vm_compute. reflexivity.
  - intros _ other Hother.
    destruct (badge_day_solutions other Hother) as [Hi _].
    assert (Hm : holds other (Linear (V Makespan) Ge
                                (Plus (V (Start 0 "Interview")) (Const 2)) []) = true).
    { apply (satisfies_In _ _ _ Hother). apply model_parts. do 6 right.
      simpl. auto 10. }
    assert (Hn : holds other (NewIntVar NumBreaks 0 (len (break_vars badge_day))) = true).
    { apply (satisfies_In _ _ _ Hother). apply model_parts. do 6 right.
      simpl. auto. }
    simpl in Hm, Hn. apply Z.geb_le in Hm. apply andb_true_iff in Hn.
    destruct Hn as [Hn _]. apply Z.leb_le in Hn.
    change (eval badge_values (objective badge_day)) with 12.
    change (eval other (objective badge_day))
      with (other NumBreaks * 35000 + other Makespan).
    lia.
Qed.

(** C1 at a problem with panels of zero slots.  The configuration
    [badge_config] passes every check and gives the scheduler [badge_day],
    whose maximum gap is 1 slot.  The assignment [badge_values] satisfies
    the model and is optimal, so a successful solve can return it; the
    schedule of candidate 0 is then badge, photo, interview, and the
    interview starts 10 slots (150 minutes) after the photo ends.  No other
    answer of the solver does better: in every assignment that satisfies the
    model the interview starts at least 9 slots after the end of badge and
    photo. *)
Theorem zero_duration_gap_exceeds_bound :
  create_scheduler_from_config badge_config = Ok badge_day /\
  max_gap_slots badge_day = 1 /\
  solved badge_day (fst (solve badge_day OPTIMAL badge_values)) badge_values /\
  (exists badge photo interview,
     get_candidate_schedule (fst (solve badge_day OPTIMAL badge_values)) 0
       = Ok [badge; photo; interview] /\
     panel photo = "Photo" /\ panel interview = "Interview" /\
     start_slot interview - end_slot photo = 10 /\
     gap_before interview = Some 150) /\
  (forall values p,
     satisfies values (model badge_day) = true ->
     In p ["Badge"; "Photo"] ->
     values (Start 0 "Interview") - (values (Start 0 p) + duration badge_day p)
       > max_gap_slots badge_day).
Proof.
  split; [reflexivity |]. split; [reflexivity |].
  split; [exact solved_badge_day |]. split.
  - do 3 eexists. split; [vm_compute; reflexivity |].
    repeat split; reflexivity.
  - intros values p Hsat Hp.
    destruct (badge_day_solutions values Hsat) as [Hi Hp'].
    pose proof (Hp' p Hp). change (max_gap_slots badge_day) with 1. lia.
Qed.

Lemma zero_duration_gap_exceeds_bound_witness :
  badge_values (Start 0 "Interview")
    - (badge_values (Start 0 "Photo") + duration badge_day "Photo")
  > max_gap_slots badge_day.
Proof.
  destruct zero_duration_gap_exceeds_bound as (_ & _ & _ & _ & H).
  apply (H badge_values "Photo").
  - vm_compute. reflexivity.
  - simpl; auto.
Defined.

(** * Further properties of the model and of its readers *)

(** ** What validation guarantees *)

Lemma In_enumerate {A : Type} (l : list A) (x : A) :
  In x l -> exists i, In (i, x) (enumerate l).
Proof.
  unfold enumerate, len, Py.range. rewrite Nat2Z.id. generalize 0%nat.
  induction l as [| y l IH]; intros n Hx; [contradiction |]. simpl.
  destruct Hx as [-> | Hx]; [eexists; left; reflexivity |].
  destruct (IH (S n) Hx) as (i & Hi). exists i. right. exact Hi.
Qed.

Section Validated.
Variable self : InterviewScheduler.
Hypothesis Hself : constructed self.

Lemma validated_order_known (p : string) :
  In p (order self) -> Py.mem p (panels self) = true.
Proof.
  intros Hp. pose proof (constructed_validated self Hself) as Hv.
  unfold _validate_parameters in Hv.
  apply bind_Ok in Hv. destruct Hv as ([] & Hv & _).
  pose proof (for_each_Ok _ _ Hv p Hp) as H. apply raise_if_Ok in H.
  apply negb_false_iff in H. exact H.
Qed.

Lemma validated_has_windows (p : string) :
  In p (Py.keys (panels self)) -> Py.mem p (availabilities self) = true.
Proof.
  intros Hp. pose proof (constructed_validated self Hself) as Hv.
  unfold _validate_parameters in Hv.
  apply bind_Ok in Hv. destruct Hv as ([] & _ & Hv).
  apply bind_Ok in Hv. destruct Hv as ([] & Hv & _).
  pose proof (for_each_Ok _ _ Hv p Hp) as H. apply raise_if_Ok in H.
  apply negb_false_iff in H. exact H.
Qed.

Lemma validated_window_bounds (p : string) (ws : list (Z * Z)) (lo hi : Z) :
  In (p, ws) (availabilities self) -> In (lo, hi) ws ->
  0 <= lo /\ lo < hi /\ hi <= slots_per_day self.
Proof.
  intros Hp Hw. pose proof (constructed_validated self Hself) as Hv.
  unfold _validate_parameters in Hv.
  apply bind_Ok in Hv. destruct Hv as ([] & _ & Hv).
  apply bind_Ok in Hv. destruct Hv as ([] & _ & Hv).
  apply bind_Ok in Hv. destruct Hv as ([] & Hv & _).
  pose proof (for_each_Ok _ _ Hv (p, ws) Hp) as H. simpl in H.
  pose proof (for_each_Ok _ _ H (lo, hi) Hw) as H'. simpl in H'.
  apply raise_if_Ok in H'.
  rewrite !orb_false_iff in H'. destruct H' as [[H1 H2] H3].
  apply Z.ltb_ge in H1. rewrite Z.gtb_ltb in H2. apply Z.ltb_ge in H2.
  rewrite Z.geb_leb in H3. apply Z.leb_gt in H3. lia.
Qed.

Lemma validated_position (p : string) (pos : position) :
  In (p, pos) (position_constraints self) ->
  Py.mem p (panels self) = true /\
  match pos with
  | PosStr s => s = "first" \/ s = "last"
  | PosInt k => 0 <= k < len (panels self)
  | PosOther => False
  end.
Proof.
  intros Hp. pose proof (constructed_validated self Hself) as Hv.
  unfold _validate_parameters in Hv.
  apply bind_Ok in Hv. destruct Hv as ([] & _ & Hv).
  apply bind_Ok in Hv. destruct Hv as ([] & _ & Hv).
  apply bind_Ok in Hv. destruct Hv as ([] & _ & Hv).
  apply bind_Ok in Hv. destruct Hv as ([] & Hv & _).
  pose proof (for_each_Ok _ _ Hv (p, pos) Hp) as H. simpl in H.
  apply bind_Ok in H. destruct H as ([] & Hm & H).
  apply raise_if_Ok, negb_false_iff in Hm. split; [exact Hm |].
  destruct pos as [s | k |].
  - apply raise_if_Ok, negb_false_iff in H. simpl in H.
    rewrite orb_false_r in H. apply orb_true_iff in H.
    rewrite !String.eqb_eq in H. exact H.
  - apply raise_if_Ok, negb_false_iff, andb_true_iff in H.
    rewrite Z.leb_le, Z.ltb_lt in H. exact H.
  - discriminate.
Qed.

Lemma validated_conflict_group (group : list string) :
  In group (panel_conflicts self) ->
  2 <= len group /\
  (forall p, In p group -> Py.mem p (panels self) = true) /\
  len (Py.distinct group) = len group.
Proof.
  intros Hg. pose proof (constructed_validated self Hself) as Hv.
  unfold _validate_parameters in Hv.
  apply bind_Ok in Hv. destruct Hv as ([] & _ & Hv).
  apply bind_Ok in Hv. destruct Hv as ([] & _ & Hv).
  apply bind_Ok in Hv. destruct Hv as ([] & _ & Hv).
  apply bind_Ok in Hv. destruct Hv as ([] & _ & Hv).
  destruct (In_enumerate _ _ Hg) as (i & Hi).
  pose proof (for_each_Ok _ _ Hv (i, group) Hi) as H. simpl in H.
  apply bind_Ok in H. destruct H as ([] & H1 & H).
  apply bind_Ok in H. destruct H as ([] & H2 & H3).
  apply raise_if_Ok in H1. apply Z.ltb_ge in H1.
  apply raise_if_Ok, negb_false_iff, Z.eqb_eq in H3.
  split; [exact H1 | split; [| exact H3]].
  intros p Hp. pose proof (for_each_Ok _ _ H2 p Hp) as H.
  apply raise_if_Ok, negb_false_iff in H. exact H.
Qed.
End Validated.

Lemma for_each_all_Ok {A : Type} (l : list A) (body : A -> result unit) :
  (forall x, In x l -> body x = Ok tt) -> for_each l body = Ok tt.
Proof.
  induction l as [| y l IH]; intros H; [reflexivity |]. simpl.
  rewrite (H y (or_introl eq_refl)). simpl. apply IH.
  intros x Hx. apply H. right. exact Hx.
Qed.

Lemma keys_mem {V : Type} (d : list (string * V)) (k : string) :
  Py.mem k d = true -> In k (Py.keys d).
Proof.
  unfold Py.mem. induction d as [| [k' v] d IH]; simpl; [discriminate |].
  destruct (String.eqb k' k) eqn:E.
  - apply String.eqb_eq in E. auto.
  - intros H. right. exact (IH H).
Qed.

Lemma in_list_In (x : string) (l : list string) : Py.in_list x l = true <-> In x l.
Proof.
  unfold Py.in_list. rewrite existsb_exists. split.
  - intros (y & Hy & E). apply String.eqb_eq in E. subst. exact Hy.
  - intros H. exists x. split; [exact H | apply String.eqb_refl].
Qed.

Lemma distinct_incl (l : list string) (x : string) : In x (Py.distinct l) -> In x l.
Proof.
  induction l as [| y l IH]; simpl; [auto |].
  destruct (Py.in_list y l); simpl; intuition.
Qed.

Lemma distinct_length (l : list string) :
  (List.length (Py.distinct l) <= List.length l)%nat.
Proof.
  induction l as [| y l IH]; simpl; [lia |].
  destruct (Py.in_list y l); simpl; lia.
Qed.

(** [len(set(l)) == len(l)] says that [l] has no duplicates. *)
Lemma distinct_NoDup (l : list string) :
  len (Py.distinct l) = len l <-> NoDup l.
Proof.
  unfold len. induction l as [| y l IH]; simpl.
  - split; [constructor | reflexivity].
  - destruct (Py.in_list y l) eqn:E.
    + split.
      * intros H. pose proof (distinct_length l). lia.
      * intros H. inversion H as [| ? ? Hn _]; subst.
        apply in_list_In in E. contradiction.
    + simpl List.length. rewrite !Nat2Z.inj_succ. split.
      * intros H. constructor.
        -- intros Hy. apply in_list_In in Hy. congruence.
        -- apply IH. lia.
      * intros H. inversion H as [| ? ? _ Hl]; subst.
        apply IH in Hl. lia.
Qed.

(** X1: [_validate_parameters] accepts exactly the well-formed problems:
    every panel of the preferred order is a panel; every panel has an
    entry of availability windows; every window (lo, hi) has
    0 <= lo < hi <= slots_per_day; every pinned panel is a panel and its
    position is "first", "last" or an integer in [0, number of panels);
    every conflict group has at least two panels, all of them known and no
    two equal. *)
Theorem validation_exact (self : InterviewScheduler) :
  _validate_parameters self = Ok tt <-> well_formed self.
Proof.
  unfold _validate_parameters, well_formed. split.
  - intros Hv.
    apply bind_Ok in Hv. destruct Hv as ([] & H1 & Hv).
    apply bind_Ok in Hv. destruct Hv as ([] & H2 & Hv).
    apply bind_Ok in Hv. destruct Hv as ([] & H3 & Hv).
    apply bind_Ok in Hv. destruct Hv as ([] & H4 & H5).
    split; [| split; [| split; [| split]]].
    + intros p Hp. apply keys_mem.
      pose proof (for_each_Ok _ _ H1 p Hp) as H.
      apply raise_if_Ok, negb_false_iff in H. exact H.
    + intros p Hp. apply keys_mem.
      pose proof (for_each_Ok _ _ H2 p Hp) as H.
      apply raise_if_Ok, negb_false_iff in H. exact H.
    + intros p ws lo hi Hp Hw.
      pose proof (for_each_Ok _ _ H3 (p, ws) Hp) as H. simpl in H.
      pose proof (for_each_Ok _ _ H (lo, hi) Hw) as H'. simpl in H'.
      apply raise_if_Ok in H'.
      rewrite !orb_false_iff in H'. destruct H' as [[Ha Hb] Hc].
      apply Z.ltb_ge in Ha. rewrite Z.gtb_ltb in Hb. apply Z.ltb_ge in Hb.
      rewrite Z.geb_leb in Hc. apply Z.leb_gt in Hc. lia.
    + intros p pos Hp.
      pose proof (for_each_Ok _ _ H4 (p, pos) Hp) as H. simpl in H.
      apply bind_Ok in H. destruct H as ([] & Hm & H).
      apply raise_if_Ok, negb_false_iff in Hm. split; [apply keys_mem, Hm |].
      destruct pos as [s | k |].
      * apply raise_if_Ok, negb_false_iff in H. simpl in H.
        rewrite orb_false_r in H. apply orb_true_iff in H.
        rewrite !String.eqb_eq in H. exact H.
      * apply raise_if_Ok, negb_false_iff, andb_true_iff in H.
        rewrite Z.leb_le, Z.ltb_lt in H. exact H.
      * discriminate.
    + intros group Hg. destruct (In_enumerate _ _ Hg) as (i & Hi).
      pose proof (for_each_Ok _ _ H5 (i, group) Hi) as H. simpl in H.
      apply bind_Ok in H. destruct H as ([] & Ha & H).
      apply bind_Ok in H. destruct H as ([] & Hb & Hc).
      apply raise_if_Ok in Ha. apply Z.ltb_ge in Ha.
      apply raise_if_Ok, negb_false_iff, Z.eqb_eq in Hc.
      split; [exact Ha | split; [| apply distinct_NoDup, Hc]].
      intros p Hp. apply keys_mem. pose proof (for_each_Ok _ _ Hb p Hp) as H.
      apply raise_if_Ok, negb_false_iff in H. exact H.
  - intros (H1 & H2 & H3 & H4 & H5).
    rewrite for_each_all_Ok; [simpl |].
    2:{ intros p Hp. rewrite (mem_keys _ _ (H1 p Hp)). reflexivity. }
    rewrite for_each_all_Ok; [simpl |].
    2:{ intros p Hp. rewrite (mem_keys _ _ (H2 p Hp)). reflexivity. }
    rewrite for_each_all_Ok; [simpl |].
    2:{ intros [p ws] Hp. apply for_each_all_Ok. intros [lo hi] Hw.
        destruct (H3 p ws lo hi Hp Hw) as (Ha & Hb & Hc).
        apply Z.ltb_ge in Ha. rewrite Ha. simpl.
        assert (E1 : (hi >? slots_per_day self) = false)
          by (rewrite Z.gtb_ltb; apply Z.ltb_ge; exact Hc).
        assert (E2 : (lo >=? hi) = false)
          by (rewrite Z.geb_leb; apply Z.leb_gt; exact Hb).
        rewrite E1, E2. reflexivity. }
    rewrite for_each_all_Ok; [simpl |].
    2:{ intros [p pos] Hp. destruct (H4 p pos Hp) as [Hm Hpos].
        rewrite (mem_keys _ _ Hm). simpl.
        destruct pos as [s | k |]; [| | contradiction].
        - destruct Hpos as [-> | ->]; reflexivity.
        - destruct Hpos as [Ha Hb]. apply Z.leb_le in Ha. apply Z.ltb_lt in Hb.
          rewrite Ha, Hb. reflexivity. }
    apply for_each_all_Ok. intros [i group] Hi.
    unfold enumerate in Hi. apply in_combine_r in Hi.
    destruct (H5 group Hi) as (Ha & Hb & Hc).
    apply Z.ltb_ge in Ha. rewrite Ha. simpl.
    rewrite for_each_all_Ok; [simpl |].
    2:{ intros p Hp. rewrite (mem_keys _ _ (Hb p Hp)). reflexivity. }
    apply distinct_NoDup in Hc. rewrite Hc, Z.eqb_refl. reflexivity.
Qed.

Lemma validation_exact_witness : _validate_parameters small_day = Ok tt.
Proof.
  apply (proj2 (validation_exact small_day)). unfold well_formed. simpl.
  split; [| split; [| split; [| split]]].
  - intuition.
  - intuition.
  - intros p ws lo hi [H | [H | [H | []]]] Hw; injection H as <- <-;
      destruct Hw as [Hw | []]; injection Hw as <- <-; lia.
  - intros p pos [H | []]. injection H as <- <-. split; [auto | vm_compute; split; congruence].
  - intros group [].
Defined.

(** ** What every returned solution satisfies *)

Lemma solved_constructed (self self' : InterviewScheduler) (values : assignment) :
  solved self self' values -> constructed self.
Proof. intros (st & H & _). exact H. Qed.

Lemma get_keys {V : Type} (d : list (string * V)) (k : string) :
  In k (Py.keys d) -> exists v, Py.get d k = Some v /\ In (k, v) d.
Proof.
  induction d as [| [k' v] d IH]; simpl; [contradiction |].
  intros H. destruct (String.eqb k' k) eqn:E.
  - apply String.eqb_eq in E. subst. exists v. auto.
  - destruct H as [H | H]; [apply String.eqb_neq in E; contradiction |].
    destruct (IH H) as (v' & Hg & Hin). exists v'. auto.
Qed.

(** X2: in every solution returned by a successful solve, every session
    lies inside one availability window of its panel, and that window lies
    inside the day: lo <= start, end <= hi and 0 <= lo < hi <= slots_per_day
    for one window (lo, hi) of the panel. *)
Theorem sessions_inside_windows (self self' : InterviewScheduler) (values : assignment)
    (c : Z) (p : string) :
  solved self self' values ->
  In c (candidates self) -> In p (Py.keys (panels self)) ->
  exists ws lo hi,
    Py.get (availabilities self) p = Some ws /\ In (lo, hi) ws /\
    lo <= session_start values c p /\ session_end self values c p <= hi /\
    0 <= lo /\ lo < hi /\ hi <= slots_per_day self.
Proof.
  intros Hs Hc Hp.
  destruct (solution_in_window self values c p (solved_satisfies _ _ _ Hs) Hc Hp)
    as (lo & hi & Hw & Hlo & Hhi).
  unfold windows in Hw.
  pose proof (validated_has_windows self (solved_constructed _ _ _ Hs) p Hp) as Hm.
  destruct (get_keys _ _ (keys_mem _ _ Hm)) as (ws & Hg & Hin).
  rewrite Hg in Hw. exists ws, lo, hi.
  pose proof (validated_window_bounds self (solved_constructed _ _ _ Hs) p ws lo hi Hin Hw).
  unfold session_start, session_end. tauto.
Qed.

Lemma sessions_inside_windows_witness :
  exists ws lo hi,
    Py.get (availabilities small_day) "HR" = Some ws /\ In (lo, hi) ws /\
    lo <= session_start small_day_values 1 "HR" /\
    session_end small_day small_day_values 1 "HR" <= hi /\
    0 <= lo /\ lo < hi /\ hi <= slots_per_day small_day.
Proof.
  apply (sessions_inside_windows small_day _ small_day_values 1 "HR" solved_small_day);
    simpl; auto.
Defined.

(** X3: in every solution returned by a successful solve, the sessions of
    one candidate with two different panels do not overlap: one ends before
    the other starts. *)
Theorem candidate_sessions_disjoint (self self' : InterviewScheduler)
    (values : assignment) (c : Z) (p q : string) :
  solved self self' values ->
  In c (candidates self) ->
  In p (Py.keys (panels self)) -> In q (Py.keys (panels self)) -> p <> q ->
  session_end self values c p <= session_start values c q \/
  session_end self values c q <= session_start values c p.
Proof.
  intros Hs Hc Hp Hq Hne.
  exact (solution_no_overlap self values c (solved_satisfies _ _ _ Hs) Hc p q Hp Hq Hne).
Qed.

Lemma candidate_sessions_disjoint_witness :
  session_end small_day small_day_values 1 "HR" <= session_start small_day_values 1 "Intro" \/
  session_end small_day small_day_values 1 "Intro" <= session_start small_day_values 1 "HR".
Proof.
  apply (candidate_sessions_disjoint small_day _ small_day_values 1 "HR" "Intro"
           solved_small_day); simpl; auto. discriminate.
Defined.

(** X4: in every solution returned by a successful solve, every session
    starts at slot 0 or later and ends no later than the makespan variable,
    which is at most slots_per_day: no session leaves the day. *)
Theorem sessions_within_day (self self' : InterviewScheduler) (values : assignment)
    (c : Z) (p : string) (d : Z) :
  solved self self' values ->
  In c (candidates self) -> In (p, d) (panels self) ->
  0 <= values (Start c p) /\
  values (Start c p) + d <= values Makespan /\
  values Makespan <= slots_per_day self.
Proof.
  intros Hs Hc Hp. pose proof (solved_satisfies _ _ _ Hs) as Hsat.
  assert (H1 : holds values (NewIntVar (Start c p) 0 (slots_per_day self - d)) = true).
  { apply (satisfies_In _ _ _ Hsat), model_parts. left. unfold start_vars.
    apply in_flat_map. exists c. split; [exact Hc |].
    apply in_map_iff. exists (p, d). auto. }
  assert (H2 : holds values (Linear (V Makespan) Ge (Plus (V (Start c p)) (Const d)) [])
               = true).
  { apply (satisfies_In _ _ _ Hsat), In_set_objective. unfold _set_objective.
    apply in_or_app. right. apply in_flat_map. exists c. split; [exact Hc |].
    apply in_map_iff. exists (p, d). auto. }
  assert (H3 : holds values (NewIntVar Makespan 0 (slots_per_day self)) = true).
  { apply (satisfies_In _ _ _ Hsat), In_set_objective. simpl. auto. }
  simpl in H1, H2, H3.
  apply andb_true_iff in H1. apply andb_true_iff in H3.
  rewrite !Z.leb_le in H1, H3. apply Z.geb_le in H2. lia.
Qed.

Lemma sessions_within_day_witness :
  0 <= small_day_values (Start 1 "Lunch") /\
  small_day_values (Start 1 "Lunch") + 2 <= small_day_values Makespan /\
  small_day_values Makespan <= slots_per_day small_day.
Proof.
  apply (sessions_within_day small_day _ small_day_values 1 "Lunch" 2 solved_small_day);
    simpl; auto.
Defined.

Lemma solved_pinned_day :
  solved pinned_day (fst (solve pinned_day FEASIBLE pinned_day_values)) pinned_day_values.
Proof.
  exists FEASIBLE. split.
  - exists (Some [("Intro", PosStr "first"); ("Lunch", PosStr "last")]),
           (Some [["Intro"; "HR"]]). reflexivity.
  - split; [| reflexivity]. split; [intros _; vm_compute; reflexivity | discriminate].
Qed.

(** X5: in every solution returned by a successful solve, all sessions of
    the panels of one conflict group, across all candidates, are pairwise
    non-overlapping: two sessions that differ in the panel or in the
    candidate never share a slot. *)
Theorem conflict_group_sessions_disjoint (self self' : InterviewScheduler)
    (values : assignment) (group : list string) (p q : string) (c1 c2 : Z) :
  solved self self' values ->
  In group (panel_conflicts self) ->
  In p group -> In q group ->
  In c1 (candidates self) -> In c2 (candidates self) ->
  (p, c1) <> (q, c2) ->
  session_end self values c1 p <= session_start values c2 q \/
  session_end self values c2 q <= session_start values c1 p.
Proof.
  intros Hs Hg Hp Hq Hc1 Hc2 Hne. pose proof (solved_satisfies _ _ _ Hs) as Hsat.
  set (pairs := flat_map (fun x => map (fun c => (x, c)) (candidates self)) group).
  assert (Hin : In (NoOverlap (map (fun xc => interval_vars self (snd xc) (fst xc)) pairs))
                   (model self)).
  { apply model_parts. do 4 right; left. unfold _add_panel_conflict_constraints.
    apply in_map_iff. exists group. split; [| exact Hg]. f_equal.
    unfold pairs. clear. induction group as [| x g IH]; [reflexivity |].
    simpl. rewrite map_app, map_map, IH. reflexivity. }
  pose proof (satisfies_In _ _ _ Hsat Hin) as H. simpl in H. rewrite map_map in H.
  assert (Hpairs : forall x c, In x group -> In c (candidates self) -> In (x, c) pairs).
  { intros x c Hx Hc. unfold pairs. apply in_flat_map. exists x. split; [exact Hx |].
    apply in_map. exact Hc. }
  exact (pairwise_disjoint_map _ _ H (p, c1) (q, c2) (Hpairs p c1 Hp Hc1)
           (Hpairs q c2 Hq Hc2) Hne).
Qed.

Lemma conflict_group_sessions_disjoint_witness :
  session_end pinned_day pinned_day_values 0 "HR"
    <= session_start pinned_day_values 1 "Intro" \/
  session_end pinned_day pinned_day_values 1 "Intro"
    <= session_start pinned_day_values 0 "HR".
Proof.
  apply (conflict_group_sessions_disjoint pinned_day _ pinned_day_values
           ["Intro"; "HR"] "HR" "Intro" 0 1 solved_pinned_day); simpl; auto.
  discriminate.
Defined.

(** X6: in every solution returned by a successful solve and for every
    candidate, a panel pinned "first" starts no later than every other
    panel, and a panel pinned "last" starts no earlier than every other
    panel ends. *)
Theorem pinned_first_and_last (self self' : InterviewScheduler) (values : assignment)
    (pinned other : string) (c : Z) :
  solved self self' values ->
  In c (candidates self) ->
  In other (Py.keys (panels self)) -> other <> pinned ->
  (In (pinned, PosStr "first") (position_constraints self) ->
   session_start values c pinned <= session_start values c other) /\
  (In (pinned, PosStr "last") (position_constraints self) ->
   session_end self values c other <= session_start values c pinned).
Proof.
  intros Hs Hc Ho Hne. pose proof (solved_satisfies _ _ _ Hs) as Hsat.
  assert (Hothers : In other (others (Py.keys (panels self)) pinned)).
  { unfold others. apply filter_In. split; [exact Ho |].
    apply String.eqb_neq in Hne. rewrite Hne. reflexivity. }
  split; intros Hp.
  - assert (Hin : In (Linear (V (Start c pinned)) Le (V (Start c other)) []) (model self)).
    { apply model_parts. do 3 right; left. unfold _add_position_constraints.
      apply in_flat_map. exists c. split; [exact Hc |].
      apply in_flat_map. exists (pinned, PosStr "first"). split; [exact Hp |].
      apply in_map_iff. exists other. auto. }
    pose proof (satisfies_In _ _ _ Hsat Hin) as H. simpl in H. apply Z.leb_le, H.
  - assert (Hin : In (Linear (V (Start c pinned)) Ge
                        (Plus (V (Start c other)) (Const (duration self other))) [])
                     (model self)).
    { apply model_parts. do 3 right; left. unfold _add_position_constraints.
      apply in_flat_map. exists c. split; [exact Hc |].
      apply in_flat_map. exists (pinned, PosStr "last"). split; [exact Hp |].
      apply in_map_iff. exists other. auto. }
    pose proof (satisfies_In _ _ _ Hsat Hin) as H. simpl in H.
    unfold session_end, session_start. apply Z.geb_le, H.
Qed.

Lemma pinned_first_and_last_witness :
  session_start pinned_day_values 1 "Intro" <= session_start pinned_day_values 1 "HR" /\
  session_end pinned_day pinned_day_values 1 "HR" <= session_start pinned_day_values 1 "Lunch".
Proof.
  split.
  - apply (pinned_first_and_last pinned_day _ pinned_day_values "Intro" "HR" 1
             solved_pinned_day); simpl; auto. discriminate.
  - apply (pinned_first_and_last pinned_day _ pinned_day_values "Lunch" "HR" 1
             solved_pinned_day); simpl; auto. discriminate.
Defined.

Lemma In_range (n i : Z) : In i (Py.range n) <-> 0 <= i < n.
Proof.
  unfold Py.range. rewrite in_map_iff. split.
  - intros (k & <- & Hk). apply in_seq in Hk. lia.
  - intros H. exists (Z.to_nat i). split; [lia | apply in_seq; lia].
Qed.

Lemma order_at_In (self : InterviewScheduler) (i : Z) :
  0 <= i < len (order self) -> In (order_at self i) (order self).
Proof.
  intros H. unfold order_at. apply nth_In. unfold len in H. lia.
Qed.

Lemma order_constraint_holds (self : InterviewScheduler) (values : assignment)
    (c i : Z) (c0 : constraint) :
  satisfies values (model self) = true ->
  In c (candidates self) -> 0 <= i < len (order self) - 1 ->
  In c0 [ NewBoolVar (Break c i);
          Linear (Plus (V (Start c (order_at self i)))
                       (Const (duration self (order_at self i))))
                 Le (V (Start c (order_at self (i + 1)))) [Not (Break c i)];
          Linear (Plus (V (Start c (order_at self (i + 1))))
                       (Const (duration self (order_at self (i + 1)))))
                 Le (V (Start c (order_at self i))) [Lit (Break c i)] ] ->
  holds values c0 = true.
Proof.
  intros Hsat Hc Hi H. apply (satisfies_In _ _ _ Hsat), model_parts.
  do 5 right; left. unfold _add_order_constraints.
  apply in_flat_map. exists c. split; [exact Hc |].
  apply in_flat_map. exists i. split; [apply In_range, Hi | exact H].
Qed.

Lemma solution_break_cases (self : InterviewScheduler) (values : assignment) (c i : Z) :
  satisfies values (model self) = true ->
  In c (candidates self) -> 0 <= i < len (order self) - 1 ->
  (values (Break c i) = 0 /\
   values (Start c (order_at self i)) + duration self (order_at self i)
     <= values (Start c (order_at self (i + 1)))) \/
  (values (Break c i) = 1 /\
   values (Start c (order_at self (i + 1))) + duration self (order_at self (i + 1))
     <= values (Start c (order_at self i))).
Proof.
  intros Hsat Hc Hi.
  pose proof (order_constraint_holds self values c i _ Hsat Hc Hi (or_introl eq_refl)) as Hb.
  pose proof (order_constraint_holds self values c i _ Hsat Hc Hi
                (or_intror (or_introl eq_refl))) as H0.
  pose proof (order_constraint_holds self values c i _ Hsat Hc Hi
                (or_intror (or_intror (or_introl eq_refl)))) as H1.
  simpl in Hb, H0, H1.
  destruct (values (Break c i) =? 0) eqn:E0; destruct (values (Break c i) =? 1) eqn:E1;
    simpl in Hb, H0, H1; try discriminate.
  - apply Z.eqb_eq in E0. apply Z.eqb_eq in E1. lia.
  - left. apply Z.eqb_eq in E0. apply Z.leb_le in H0. auto.
  - right. apply Z.eqb_eq in E1. apply Z.leb_le in H1. auto.
Qed.

(** X7: in every solution returned by a successful solve, for every
    candidate and every pair of neighbours (q_i, q_{i+1}) of the preferred
    order, the break indicator tells which of the two comes first: either it
    is 0 and q_i ends before q_{i+1} starts, or it is 1 and q_{i+1} ends
    before q_i starts. *)
Theorem order_break_indicator (self self' : InterviewScheduler) (values : assignment)
    (c i : Z) :
  solved self self' values ->
  In c (candidates self) -> 0 <= i < len (order self) - 1 ->
  (values (Break c i) = 0 /\
   session_end self values c (order_at self i)
     <= session_start values c (order_at self (i + 1))) \/
  (values (Break c i) = 1 /\
   session_end self values c (order_at self (i + 1))
     <= session_start values c (order_at self i)).
Proof.
  intros Hs Hc Hi.
  exact (solution_break_cases self values c i (solved_satisfies _ _ _ Hs) Hc Hi).
Qed.

Lemma order_break_indicator_witness :
  (small_day_values (Break 1 0) = 0 /\
   session_end small_day small_day_values 1 "Intro"
     <= session_start small_day_values 1 "HR") \/
  (small_day_values (Break 1 0) = 1 /\
   session_end small_day small_day_values 1 "HR"
     <= session_start small_day_values 1 "Intro").
Proof.
  apply (order_break_indicator small_day _ small_day_values 1 0 solved_small_day).
  - simpl; auto.
  - vm_compute. split; congruence.
Defined.

(** X8: when every panel lasts at least one slot, in every solution
    returned by a successful solve the variable "q follows p" of a candidate
    is set exactly when q is that candidate's next session after p: q starts
    after p and no panel starts strictly between the two. *)
Theorem follows_marks_next_session (self self' : InterviewScheduler)
    (values : assignment) (c : Z) (p q : string) :
  solved self self' values ->
  NoDup (Py.keys (panels self)) ->
  (forall x, In x (Py.keys (panels self)) -> 1 <= duration self x) ->
  In c (candidates self) ->
  In p (Py.keys (panels self)) -> In q (Py.keys (panels self)) -> p <> q ->
  (values (Follows c p q) = 1 <->
   session_start values c p < session_start values c q /\
   forall r, In r (Py.keys (panels self)) ->
             ~ (session_start values c p < session_start values c r
                < session_start values c q)).
Proof.
  intros Hs Hnd Hpos Hc Hp Hq Hne. pose proof (solved_satisfies _ _ _ Hs) as Hsat.
  assert (Hpq : In (p, q) (ordered_pairs (Py.keys (panels self))))
    by (apply In_ordered_pairs; auto).
  unfold session_start. split.
  - intros Hf.
    pose proof (solution_follows_after self values c Hsat Hc p q Hpq Hf) as Hafter.
    pose proof (Hpos p Hp). split; [lia |].
    intros r Hr [H1 H2].
    assert (r <> p) by (intros ->; lia).
    assert (r <> q) by (intros ->; lia).
    destruct (solution_follows_between self values c Hsat Hc p q r Hpq Hr H0 H3 Hf);
      [| lia].
    pose proof (Hpos r Hr).
    destruct (solution_no_overlap self values c Hsat Hc p r Hp Hr (not_eq_sym H0)); lia.
  - intros [Hlt Hnone].
    destruct (get_candidate_schedule_solved _ _ _ c Hs Hc)
      as (sorted & _ & Hperm & Hsorted & Hslots).
    assert (HL : StronglySorted (fun x y => values (Start c x) <= values (Start c y))
                   (map panel sorted)).
    { apply (StronglySorted_map (fun a b => start_slot a <= start_slot b));
        [| exact Hsorted].
      intros a b Ha Hb Hab.
      destruct (Hslots a Ha) as [<- _]. destruct (Hslots b Hb) as [<- _]. exact Hab. }
    pose proof (chain_strict _ (fun x => values (Start c x)) (duration self) Hnd Hpos
                  (solution_no_overlap self values c Hsat Hc) _ Hperm HL) as Hstrict.
    assert (Hin : In (p, q) (consecutive (map panel sorted))).
    { apply (neighbours_in_sorted (fun x => values (Start c x)) _ Hstrict).
      - apply (Permutation_in _ (Permutation_sym Hperm)), Hp.
      - apply (Permutation_in _ (Permutation_sym Hperm)), Hq.
      - exact Hlt.
      - intros r Hr. apply Hnone. apply (Permutation_in _ Hperm), Hr. }
    apply (chain_neighbours_are_edges _ (fun x => values (Start c x)) (duration self)
             (fun x y => values (Follows c x y)) Hnd Hpos
             (solution_no_overlap self values c Hsat Hc)
             (solution_follows_after self values c Hsat Hc)
             (solution_follows_between self values c Hsat Hc)
             (solution_follows_count self values c Hsat Hc) _ Hperm HL p q Hin).
Qed.

Lemma follows_marks_next_session_witness :
  small_day_values (Follows 1 "HR" "Intro") = 1 <->
  session_start small_day_values 1 "HR" < session_start small_day_values 1 "Intro" /\
  forall r, In r (Py.keys (panels small_day)) ->
            ~ (session_start small_day_values 1 "HR" < session_start small_day_values 1 r
               < session_start small_day_values 1 "Intro").
Proof.
  apply (follows_marks_next_session small_day _ small_day_values 1 "HR" "Intro"
           solved_small_day).
  - repeat constructor; simpl; intuition discriminate.
  - intros x [<- | [<- | [<- | []]]]; vm_compute; discriminate.
  - simpl; auto.
  - simpl; auto.
  - simpl; auto.
  - discriminate.
Defined.

(** ** The schedule and the summary read from a solution *)

Lemma add_gaps_fields (self : InterviewScheduler) (l : list session) (previous : session) :
  map panel (add_gaps self previous l) = map panel l /\
  map start_slot (add_gaps self previous l) = map start_slot l /\
  map end_slot (add_gaps self previous l) = map end_slot l.
Proof.
  revert previous. induction l as [| s l IH]; intros previous; [auto |].
  destruct (IH s) as (H1 & H2 & H3). simpl. rewrite H1, H2, H3. auto.
Qed.

Lemma add_gaps_gap (self : InterviewScheduler) (l : list session) :
  forall (previous a' x y : session),
    end_slot a' = end_slot previous ->
    In (x, y) (consecutive (a' :: add_gaps self previous l)) ->
    gap_before y = Some ((start_slot y - end_slot x) * slot_duration_minutes self).
Proof.
  induction l as [| b l IH]; intros previous a' x y He H; [contradiction |].
  set (b' := with_gap b ((start_slot b - end_slot previous) * slot_duration_minutes self)).
  change (In (x, y) ((a', b') :: consecutive (b' :: add_gaps self b l))) in H.
  destruct H as [H | H].
  - injection H as <- <-. simpl. rewrite He. reflexivity.
  - apply (IH b b' x y); [reflexivity | exact H].
Qed.

Lemma sorted_by_key {A : Type} (key : A -> Z) (l : list A) :
  StronglySorted (fun a b => key a <= key b) l <-> StronglySorted Z.le (map key l).
Proof.
  induction l as [| a l IH]; simpl; [split; constructor |]. split; intros H.
  - apply StronglySorted_inv in H. destruct H as [Hl Ha]. constructor; [apply IH, Hl |].
    rewrite Forall_forall in Ha |- *. intros z Hz.
    apply in_map_iff in Hz. destruct Hz as (b & <- & Hb). exact (Ha b Hb).
  - apply StronglySorted_inv in H. destruct H as [Hl Ha]. constructor; [apply IH, Hl |].
    rewrite Forall_forall in Ha |- *. intros b Hb. apply Ha, in_map, Hb.
Qed.

(** X9: after a successful solve [get_candidate_schedule] returns, for a
    candidate of the problem, one session for each panel, sorted by start
    slot; each session starts where the solver put it and ends a panel's
    duration later; the first session has no gap_before and every later one
    has gap_before = (its start slot - the previous end slot) * slot width,
    in minutes. *)
Theorem candidate_schedule_shape (self self' : InterviewScheduler) (values : assignment)
    (c : Z) :
  solved self self' values ->
  In c (candidates self) ->
  exists sessions,
    get_candidate_schedule self' c = Ok sessions /\
    Permutation (map panel sessions) (Py.keys (panels self)) /\
    StronglySorted (fun a b => start_slot a <= start_slot b) sessions /\
    (forall x, In x sessions ->
       start_slot x = values (Start c (panel x)) /\
       end_slot x = start_slot x + duration self (panel x)) /\
    (forall first rest, sessions = first :: rest -> gap_before first = None) /\
    (forall x y, In (x, y) (consecutive sessions) ->
       gap_before y
       = Some ((start_slot y - end_slot x) * slot_duration_minutes self)).
Proof.
  intros Hs Hc.
  destruct (get_candidate_schedule_solved _ _ _ c Hs Hc)
    as (sorted & Hget & Hperm & Hsorted & Hslots).
  destruct (solved_state _ _ _ Hs) as (_ & _ & _ & _ & HW).
  eexists. split; [exact Hget |].
  destruct sorted as [| first rest].
  - split; [exact Hperm |]. split; [constructor |].
    split; [intros x [] |]. split; [discriminate |]. intros x y [].
  - destruct (add_gaps_fields self' rest first) as (Hp & Hst & Hen).
    assert (Hfirst : gap_before first = None).
    { assert (Hin : In first (first :: rest)) by (left; reflexivity).
      destruct Hs as (st & _ & _ & Hsolve).
      unfold get_candidate_schedule in Hget.
      destruct (negb (solution_found self')); [discriminate |].
      apply bind_Ok in Hget. destruct Hget as (sessions & Hm & Hget).
      assert (Hnone : forall x, In x sessions -> gap_before x = None).
      { clear Hget. revert sessions Hm.
        induction (Py.keys (panels self')) as [| p l IH]; intros sessions Hm x Hx.
        - injection Hm as <-. contradiction.
        - simpl in Hm. apply bind_Ok in Hm. destruct Hm as (y & Hy & Hm).
          apply bind_Ok in Hm. destruct Hm as (ys & Hys & Hm). injection Hm as <-.
          destruct Hx as [<- | Hx]; [| exact (IH ys Hys x Hx)].
          apply bind_Ok in Hy. destruct Hy as (z & _ & Hy). injection Hy as <-.
          reflexivity. }
      destruct (sort_by_start sessions) as [| f r] eqn:E; [discriminate |].
      injection Hget as -> _. apply Hnone.
      apply (Permutation_in _ (sort_by_start_perm sessions)). rewrite E. left. reflexivity. }
    split; [| split; [| split; [| split]]].
    + simpl. rewrite Hp. exact Hperm.
    + apply (sorted_by_key start_slot). simpl. rewrite Hst.
      apply (sorted_by_key start_slot (first :: rest)), Hsorted.
    + intros x Hx.
      assert (Hx' : exists x', In x' (first :: rest) /\ panel x = panel x' /\
                               start_slot x = start_slot x' /\ end_slot x = end_slot x').
      { destruct Hx as [<- | Hx]; [exists first; simpl; auto |].
        clear - Hx. revert Hx. generalize first at 1 as prev.
        induction rest as [| b l IH]; intros prev Hx; [contradiction |].
        destruct Hx as [<- | Hx]; [exists b; simpl; auto |].
        destruct (IH b Hx) as (x' & Hin & H). exists x'. simpl in *. tauto. }
      destruct Hx' as (x' & Hin & E1 & E2 & E3).
      destruct (Hslots x' Hin) as [H1 H2]. rewrite E1, E2, E3, H1, H2. auto.
    + intros f r E. injection E as <- _. exact Hfirst.
    + intros x y Hxy. rewrite <- HW.
      apply (add_gaps_gap self' rest first first x y eq_refl Hxy).
Qed.

Lemma candidate_schedule_shape_witness :
  exists sessions,
    get_candidate_schedule (fst (solve small_day FEASIBLE small_day_values)) 1
      = Ok sessions /\
    Permutation (map panel sessions) ["Intro"; "HR"; "Lunch"] /\
    StronglySorted (fun a b => start_slot a <= start_slot b) sessions.
Proof.
  destruct (candidate_schedule_shape small_day _ small_day_values 1 solved_small_day)
    as (sessions & H1 & H2 & H3 & _); [simpl; auto |].
  exists sessions. auto.
Defined.

Lemma solved_explicit (self self' : InterviewScheduler) (values : assignment) :
  solved self self' values ->
  exists st, is_solution_status st = true /\ self' = fst (solve self st values).
Proof.
  intros (st & _ & _ & Hsolve). exists st. unfold solve in Hsolve |- *.
  injection Hsolve as <- Hst. simpl. auto.
Qed.

Lemma Value_start_solved (self self' : InterviewScheduler) (values : assignment)
    (c : Z) (p : string) :
  solved self self' values ->
  In c (candidates self) -> In p (Py.keys (panels self)) ->
  Value_start self' c p = Ok (values (Start c p)).
Proof.
  intros Hs Hc Hp. destruct (solved_explicit _ _ _ Hs) as (st & _ & ->).
  unfold Value_start.
  change (solver (fst (solve self st values))) with (Some values).
  change (candidates (fst (solve self st values))) with (candidates self).
  change (panels (fst (solve self st values))) with (panels self).
  rewrite (mem_keys _ _ Hp), andb_true_r.
  assert (E : existsb (Z.eqb c) (candidates self) = true)
    by (apply existsb_exists; exists c; split; [exact Hc | apply Z.eqb_refl]).
  rewrite E. reflexivity.
Qed.

Lemma max_of_spec (l : list Z) :
  l <> [] -> exists m, max_of l = Ok m /\ In m l /\ forall x, In x l -> x <= m.
Proof.
  destruct l as [| a l]; [congruence |]. intros _. simpl.
  exists (fold_left Z.max l a). split; [reflexivity |].
  revert a. induction l as [| b l IH]; intros a; simpl.
  - split; [auto |]. intros x [<- | []]. lia.
  - destruct (IH (Z.max a b)) as [Hin Hle]. split.
    + destruct Hin as [Hin | Hin]; [| auto].
      rewrite <- Hin. destruct (Z.max_spec a b) as [[_ ->] | [_ ->]]; auto.
    + intros x [<- | [<- | Hx]].
      * pose proof (Hle (Z.max a b) (or_introl eq_refl)). lia.
      * pose proof (Hle (Z.max a b) (or_introl eq_refl)). lia.
      * apply Hle. right. exact Hx.
Qed.

Lemma solution_end_bound (self : InterviewScheduler) (values : assignment)
    (c : Z) (p : string) :
  satisfies values (model self) = true ->
  In c (candidates self) -> In p (Py.keys (panels self)) ->
  0 <= values (Start c p) /\
  values (Start c p) + duration self p <= values Makespan /\
  values Makespan <= slots_per_day self.
Proof.
  intros Hsat Hc Hp. destruct (get_keys _ _ Hp) as (d & Hg & Hin).
  unfold duration. rewrite Hg.
  assert (H1 : holds values (NewIntVar (Start c p) 0 (slots_per_day self - d)) = true).
  { apply (satisfies_In _ _ _ Hsat), model_parts. left. unfold start_vars.
    apply in_flat_map. exists c. split; [exact Hc |].
    apply in_map_iff. exists (p, d). auto. }
  assert (H2 : holds values (Linear (V Makespan) Ge (Plus (V (Start c p)) (Const d)) [])
               = true).
  { apply (satisfies_In _ _ _ Hsat), In_set_objective. unfold _set_objective.
    apply in_or_app. right. apply in_flat_map. exists c. split; [exact Hc |].
    apply in_map_iff. exists (p, d). auto. }
  assert (H3 : holds values (NewIntVar Makespan 0 (slots_per_day self)) = true).
  { apply (satisfies_In _ _ _ Hsat), In_set_objective. simpl. auto. }
  simpl in H1, H2, H3.
  apply andb_true_iff in H1. apply andb_true_iff in H3.
  rewrite !Z.leb_le in H1, H3. apply Z.geb_le in H2. lia.
Qed.

(** A solved problem with a candidate has a panel: the model asks for
    (number of panels - 1) follows edges. *)
Lemma solution_has_panel (self : InterviewScheduler) (values : assignment) (c : Z) :
  satisfies values (model self) = true ->
  In c (candidates self) -> Py.keys (panels self) <> [].
Proof.
  intros Hsat Hc E. pose proof (solution_follows_count self values c Hsat Hc) as H.
  rewrite E in H. vm_compute in H. discriminate.
Qed.

Lemma is_order_broken_solved (self self' : InterviewScheduler) (values : assignment)
    (c i : Z) :
  solved self self' values ->
  (forall p, In p (Py.keys (panels self)) -> 1 <= duration self p) ->
  In c (candidates self) -> 0 <= i < len (order self) - 1 ->
  _is_order_broken self' c i = Ok (values (Break c i) =? 1).
Proof.
  intros Hs Hpos Hc Hi.
  pose proof (solved_constructed _ _ _ Hs) as Hcons.
  assert (H1 : In (order_at self i) (Py.keys (panels self)))
    by (apply keys_mem, (validated_order_known self Hcons), order_at_In; lia).
  assert (H2 : In (order_at self (i + 1)) (Py.keys (panels self)))
    by (apply keys_mem, (validated_order_known self Hcons), order_at_In; lia).
  pose proof (Value_start_solved _ _ _ c _ Hs Hc H1) as V1.
  pose proof (Value_start_solved _ _ _ c _ Hs Hc H2) as V2.
  destruct (solved_explicit _ _ _ Hs) as (st & _ & E).
  unfold _is_order_broken.
  replace (order_at self' i) with (order_at self i) by (rewrite E; reflexivity).
  replace (order_at self' (i + 1)) with (order_at self (i + 1))
    by (rewrite E; reflexivity).
  replace (duration self' (order_at self i)) with (duration self (order_at self i))
    by (rewrite E; reflexivity).
  rewrite V1, V2. simpl. f_equal.
  pose proof (Hpos _ H1). pose proof (Hpos _ H2).
  destruct (solution_break_cases self values c i (solved_satisfies _ _ _ Hs) Hc Hi)
    as [[Hb Hle] | [Hb Hle]]; rewrite Hb.
  - rewrite Z.gtb_ltb. apply Z.ltb_ge. lia.
  - rewrite Z.gtb_ltb. apply Z.ltb_lt. lia.
Qed.

Lemma filter_map_length {A : Type} (test : A -> bool) (l : list A) :
  List.length (filter (fun b : bool => b) (map test l)) = List.length (filter test l).
Proof.
  induction l as [| x l IH]; [reflexivity |]. simpl.
  destruct (test x); simpl; rewrite IH; reflexivity.
Qed.

Lemma flat_map_map {A B C : Type} (g : B -> C) (f : A -> list B) (l : list A) :
  map g (flat_map f l) = flat_map (fun x => map g (f x)) l.
Proof.
  induction l as [| x l IH]; [reflexivity |]. simpl. rewrite map_app, IH. reflexivity.
Qed.

Lemma solved_fields (self self' : InterviewScheduler) (values : assignment) :
  solved self self' values ->
  candidates self' = candidates self /\ order self' = order self /\
  panels self' = panels self /\ max_gap_minutes self' = max_gap_minutes self /\
  slots_per_day self' = slots_per_day self /\
  (forall p, duration self' p = duration self p) /\
  (forall k, slot_to_time self' k = slot_to_time self k) /\
  (status self' = Some OPTIMAL \/ status self' = Some FEASIBLE).
Proof.
  intros Hs. destruct (solved_explicit _ _ _ Hs) as (st & Hst & ->).
  repeat split; try reflexivity.
  destruct st; try discriminate; simpl; auto.
Qed.

(** X10: after a successful solve on a problem with at least one candidate
    and panels of at least one slot each, [get_solution_summary] reports the
    solver's status name, as order_breaks the value of the num_breaks
    variable the objective counts, and as day_ends_at the clock time of the
    latest end slot of any session, which is within the day. *)
Theorem solution_summary_solved (self self' : InterviewScheduler) (values : assignment) :
  solved self self' values ->
  (forall p, In p (Py.keys (panels self)) -> 1 <= duration self p) ->
  1 <= num_candidates self ->
  exists name latest,
    get_solution_summary self'
      = Ok [ ("status", PyStr name);
             ("order_breaks", PyInt (values NumBreaks));
             ("day_ends_at", PyStr (slot_to_time self latest));
             ("max_gap_enforced",
              PyStr (String.append (Py.str_of_Z (max_gap_minutes self)) " minutes")) ] /\
    (name = "OPTIMAL" \/ name = "FEASIBLE") /\
    (exists c p, In c (candidates self) /\ In p (Py.keys (panels self)) /\
                 latest = session_end self values c p) /\
    (forall c p, In c (candidates self) -> In p (Py.keys (panels self)) ->
                 session_end self values c p <= latest) /\
    latest <= slots_per_day self.
Proof.
  intros Hs Hpos Hn. pose proof (solved_satisfies _ _ _ Hs) as Hsat.
  destruct (solved_state _ _ _ Hs) as (Hfound & _).
  destruct (solved_fields _ _ _ Hs) as (Hc & Ho & Hp & Hg & _ & Hd & Ht & Hst).
  assert (H0 : In 0 (candidates self)) by (apply In_range; lia).
  set (pairs := flat_map (fun c => map (fun i => (c, i)) (Py.range (len (order self) - 1)))
                         (candidates self)).
  set (cps := flat_map (fun c => map (fun p => (c, p)) (Py.keys (panels self)))
                       (candidates self)).
  set (ends := map (fun cp : Z * string =>
                      values (Start (fst cp) (snd cp)) + duration self (snd cp)) cps).
  assert (Hends : ends <> []).
  { pose proof (solution_has_panel self values 0 Hsat H0) as Hk.
    unfold ends, cps. destruct (candidates self) as [| c0 l]; [contradiction |].
    destruct (Py.keys (panels self)) as [| p0 k]; [congruence |]. discriminate. }
  destruct (max_of_spec ends Hends) as (latest & Hmax & Hin & Hle).
  exists (StatusName (status self')), latest. split; [| split; [| split; [| split]]].
  - unfold get_solution_summary. rewrite Hfound. simpl negb. cbv iota.
    rewrite Hc, Ho, Hp. fold pairs. fold cps.
    rewrite (map_result_Ok _ (fun ci : Z * Z => values (Break (fst ci) (snd ci)) =? 1)).
    2:{ intros [c i] Hci. unfold pairs in Hci. apply in_flat_map in Hci.
        destruct Hci as (c' & Hc' & Hci). apply in_map_iff in Hci.
        destruct Hci as (i' & E & Hi'). injection E as <- <-.
        apply In_range in Hi'.
        apply (is_order_broken_solved self self' values c' i' Hs Hpos Hc' Hi'). }
    simpl bind.
    rewrite (map_result_Ok _ (fun cp : Z * string =>
                                values (Start (fst cp) (snd cp)) + duration self (snd cp))).
    2:{ intros [c p] Hcp. unfold cps in Hcp. apply in_flat_map in Hcp.
        destruct Hcp as (c' & Hc' & Hcp). apply in_map_iff in Hcp.
        destruct Hcp as (p' & E & Hp'). injection E as <- <-.
        rewrite (Value_start_solved _ _ _ c' p' Hs Hc' Hp'). simpl. rewrite Hd.
        reflexivity. }
    simpl bind. fold ends. rewrite Hmax. simpl bind. rewrite Ht, Hg.
    f_equal. f_equal. f_equal. f_equal. f_equal.
    unfold len. rewrite filter_map_length.
    change (Z.of_nat (List.length
              (filter (fun ci : Z * Z => values (Break (fst ci) (snd ci)) =? 1) pairs)))
      with (len (filter (fun ci : Z * Z => values (Break (fst ci) (snd ci)) =? 1) pairs)).
    rewrite <- (sum_indicators values (fun ci : Z * Z => Break (fst ci) (snd ci))).
    + assert (Hb : holds values (Linear (V NumBreaks) Eq (Sum (break_vars self)) []) = true)
        by (apply (satisfies_In _ _ _ Hsat), In_set_objective; simpl; auto).
      simpl in Hb. apply Z.eqb_eq in Hb. rewrite Hb. f_equal. f_equal.
      unfold break_vars, pairs. rewrite flat_map_map.
      apply flat_map_ext. intros c. rewrite map_map. reflexivity.
    + intros [c i] Hci. unfold pairs in Hci. apply in_flat_map in Hci.
      destruct Hci as (c' & Hc' & Hci). apply in_map_iff in Hci.
      destruct Hci as (i' & E & Hi'). injection E as <- <-.
      apply In_range in Hi'. simpl.
      destruct (solution_break_cases self values c' i' Hsat Hc' Hi')
        as [[Hb _] | [Hb _]]; rewrite Hb; reflexivity.
  - destruct Hst as [-> | ->]; simpl; auto.
  - unfold ends in Hin. apply in_map_iff in Hin. destruct Hin as ([c p] & E & Hcp).
    unfold cps in Hcp. apply in_flat_map in Hcp. destruct Hcp as (c' & Hc' & Hcp).
    apply in_map_iff in Hcp. destruct Hcp as (p' & E' & Hp'). injection E' as <- <-.
    exists c', p'. unfold session_end. simpl in E. auto.
  - intros c p Hc' Hp'. apply Hle. unfold ends. apply in_map_iff.
    exists (c, p). split; [reflexivity |].
    unfold cps. apply in_flat_map. exists c. split; [exact Hc' |].
    apply in_map. exact Hp'.
  - unfold ends in Hin. apply in_map_iff in Hin. destruct Hin as ([c p] & E & Hcp).
    unfold cps in Hcp. apply in_flat_map in Hcp. destruct Hcp as (c' & Hc' & Hcp).
    apply in_map_iff in Hcp. destruct Hcp as (p' & E' & Hp'). injection E' as <- <-.
    simpl in E. pose proof (solution_end_bound self values c' p' Hsat Hc' Hp'). lia.
Qed.

Lemma solution_summary_solved_witness :
  exists name latest,
    get_solution_summary (fst (solve small_day FEASIBLE small_day_values))
      = Ok [ ("status", PyStr name);
             ("order_breaks", PyInt (small_day_values NumBreaks));
             ("day_ends_at", PyStr (slot_to_time small_day latest));
             ("max_gap_enforced", PyStr "15 minutes") ].
Proof.
  destruct (solution_summary_solved small_day _ small_day_values solved_small_day)
    as (name & latest & H & _).
  - intros p [<- | [<- | [<- | []]]]; vm_compute; discriminate.
  - vm_compute. discriminate.
  - exists name, latest. exact H.
Defined.

(** X11: with no candidate (num_candidates <= 0) the model has no session
    and a solve can succeed; [get_solution_summary] then raises
    [ValueError], because it takes the maximum of an empty sequence of end
    slots. *)
Theorem solution_summary_without_candidates (self self' : InterviewScheduler)
    (values : assignment) :
  solved self self' values ->
  num_candidates self <= 0 ->
  get_solution_summary self' = Raise (ValueError MaxOfEmptySequence).
Proof.
  intros Hs Hn. destruct (solved_state _ _ _ Hs) as (Hfound & _).
  destruct (solved_fields _ _ _ Hs) as (Hc & _).
  unfold get_solution_summary. rewrite Hfound, Hc. unfold candidates, Py.range.
  replace (Z.to_nat (num_candidates self)) with 0%nat by lia. reflexivity.
Qed.

Lemma solved_empty_day :
  solved empty_day (fst (solve empty_day OPTIMAL empty_day_values)) empty_day_values.
Proof.
  exists OPTIMAL. split; [exists None, None; reflexivity |].
  split; [| reflexivity]. split; [intros _; vm_compute; reflexivity |].
  intros _ other Hother.
  assert (Hm : holds other (NewIntVar Makespan 0 (slots_per_day empty_day)) = true)
    by (apply (satisfies_In _ _ _ Hother), In_set_objective; simpl; auto).
  assert (Hn : holds other (NewIntVar NumBreaks 0 (len (break_vars empty_day))) = true)
    by (apply (satisfies_In _ _ _ Hother), In_set_objective; simpl; auto).
  simpl in Hm, Hn. apply andb_true_iff in Hm. apply andb_true_iff in Hn.
  rewrite !Z.leb_le in Hm, Hn.
  change (eval empty_day_values (objective empty_day)) with 0.
  change (eval other (objective empty_day)) with (other NumBreaks * 13000 + other Makespan).
  lia.
Qed.

Lemma solution_summary_without_candidates_witness :
  get_solution_summary (fst (solve empty_day OPTIMAL empty_day_values))
  = Raise (ValueError MaxOfEmptySequence).
Proof.
  apply (solution_summary_without_candidates empty_day _ empty_day_values solved_empty_day).
  vm_compute. discriminate.
Defined.

(** X12: after a successful solve on a problem with at least one panel,
    [get_candidate_schedule] raises [KeyError] for an identifier that is not
    a candidate of the problem (not in range(num_candidates)). *)
Theorem candidate_schedule_unknown_candidate (self self' : InterviewScheduler)
    (values : assignment) (candidate_id : Z) :
  solved self self' values ->
  ~ In candidate_id (candidates self) ->
  panels self <> [] ->
  exists key, get_candidate_schedule self' candidate_id = Raise (KeyError key).
Proof.
  intros Hs Hc Hp. destruct (solved_state _ _ _ Hs) as (Hfound & Hsolver & Hpanels & _).
  destruct (solved_fields _ _ _ Hs) as (Hcands & _).
  unfold get_candidate_schedule. rewrite Hfound, Hpanels. simpl negb. cbv iota.
  destruct (panels self) as [| [p d] l]; [congruence |].
  exists p. simpl. unfold Value_start. rewrite Hsolver, Hcands.
  assert (E : existsb (Z.eqb candidate_id) (candidates self) = false).
  { destruct (existsb (Z.eqb candidate_id) (candidates self)) eqn:E; [| reflexivity].
    apply existsb_exists in E. destruct E as (x & Hx & E).
    apply Z.eqb_eq in E. subst. contradiction. }
  rewrite E. reflexivity.
Qed.

Lemma candidate_schedule_unknown_candidate_witness :
  exists key,
    get_candidate_schedule (fst (solve small_day FEASIBLE small_day_values)) 2
    = Raise (KeyError key).
Proof.
  apply (candidate_schedule_unknown_candidate small_day _ small_day_values 2
           solved_small_day).
  - simpl. intuition discriminate.
  - discriminate.
Defined.

(** ** More on the timeline *)

(** X13: on a scheduler with a positive slot width the conversion of
    clock times to slots is monotone: a clock time that is not
    earlier gets a slot that is not smaller. *)
Theorem time_to_slot_monotone (self : InterviewScheduler) (h1 m1 h2 m2 k1 k2 : Z) :
  0 < slot_duration_minutes self ->
  h1 * 60 + m1 <= h2 * 60 + m2 ->
  time_to_slot self h1 m1 = Ok k1 ->
  time_to_slot self h2 m2 = Ok k2 ->
  k1 <= k2.
Proof.
  intros HW Hle H1 H2. unfold time_to_slot in H1, H2.
  destruct (slot_duration_minutes self =? 0); [discriminate |].
  injection H1 as <-. injection H2 as <-.
  apply Z.div_le_mono; lia.
Qed.

Lemma time_to_slot_monotone_witness : 1 <= 13.
Proof.
  apply (time_to_slot_monotone test_scheduler 9 15 12 15 1 13); reflexivity || (vm_compute; congruence).
Defined.

Lemma parse_formatted_time (h m : Z) :
  0 <= h <= 23 -> 0 <= m <= 59 ->
  parse_time_to_minutes
    (String.append (Py.format_02d h) (String.append ":" (Py.format_02d m)))
  = Ok (h, m).
Proof.
  intros Hh Hm.
  assert (Hall : forallb (fun h =>
            forallb (fun m =>
              parses_to (parse_time_to_minutes
                           (String.append (Py.format_02d h)
                              (String.append ":" (Py.format_02d m)))) h m)
              (Py.range 60)) (Py.range 24) = true) by (vm_compute; reflexivity).
  rewrite forallb_forall in Hall.
  pose proof (Hall h (proj2 (In_range 24 h) ltac:(lia))) as Hrow.
  rewrite forallb_forall in Hrow.
  pose proof (Hrow m (proj2 (In_range 60 m) ltac:(lia))) as H.
  unfold parses_to in H.
  destruct (parse_time_to_minutes _) as [[h' m'] | e]; [| discriminate].
  apply andb_true_iff in H. rewrite !Z.eqb_eq in H. destruct H as [-> ->]. reflexivity.
Qed.

(** X14: the text [slot_to_time] writes reads back: for every slot whose
    hour is between 0 and 23, [parse_time_to_minutes] applied to
    [slot_to_time] of the slot returns the hour and minute of the slot, and
    [time_to_slot] of these is the slot again. *)
Theorem slot_text_round_trip (self : InterviewScheduler) (k : Z) :
  constructed self ->
  0 <= fst (slot_to_hour_minute self k) <= 23 ->
  parse_time_to_minutes (slot_to_time self k) = Ok (slot_to_hour_minute self k) /\
  (hm <- parse_time_to_minutes (slot_to_time self k) ;;
   time_to_slot self (fst hm) (snd hm)) = Ok k.
Proof.
  intros Hc Hh. pose proof (constructed_slot_duration self Hc) as HW.
  assert (Hp : parse_time_to_minutes (slot_to_time self k) = Ok (slot_to_hour_minute self k)).
  { unfold slot_to_time. destruct (slot_to_hour_minute self k) as [h m] eqn:E.
    change (Py.format_02d h ++ ":" ++ Py.format_02d m)%string
      with (String.append (Py.format_02d h) (String.append ":" (Py.format_02d m))).
    apply parse_formatted_time; [exact Hh |].
    unfold slot_to_hour_minute in E. injection E as _ <-.
    pose proof (Z.mod_pos_bound (k * slot_duration_minutes self + start_time_minute self)
                  60 ltac:(lia)). lia. }
  split; [exact Hp |]. rewrite Hp. simpl bind.
  unfold time_to_slot, slot_to_hour_minute; simpl.
  destruct (slot_duration_minutes self =? 0) eqn:E;
    [apply Z.eqb_eq in E; contradiction |].
  f_equal.
  set (t := k * slot_duration_minutes self + start_time_minute self).
  pose proof (Z.div_mod t 60 ltac:(lia)) as Ht.
  replace ((start_time_hour self + t / 60 - start_time_hour self) * 60
           + (t mod 60 - start_time_minute self))
    with (k * slot_duration_minutes self) by (unfold t in *; lia).
  apply Z.div_mul. exact HW.
Qed.

Lemma slot_text_round_trip_witness :
  parse_time_to_minutes (slot_to_time test_scheduler 13) = Ok (12, 15) /\
  (hm <- parse_time_to_minutes (slot_to_time test_scheduler 13) ;;
   time_to_slot test_scheduler (fst hm) (snd hm)) = Ok 13.
Proof.
  apply (slot_text_round_trip test_scheduler 13 constructed_test_scheduler).
  vm_compute. split; congruence.
Defined.

(** X15: the first script and [main] use the same timeline as the class
    with its default day (start 08:30, slots of 15 minutes): for all
    integers h, m and s, [t(h, m)] of the script, [t(h, m)] of [main] and
    [time_to_slot] agree, and so do the two [slot_to_time]. *)
Theorem legacy_timeline_agrees (self : InterviewScheduler) (h m s : Z) :
  start_time_hour self = 8 -> start_time_minute self = 30 ->
  slot_duration_minutes self = 15 ->
  time_to_slot self h m = Ok (Legacy.t h m) /\
  main_t h m = Legacy.t h m /\
  slot_to_hour_minute self s = Legacy.slot_to_hour_minute s /\
  slot_to_time self s = Legacy.slot_to_time s.
Proof.
  intros HH HM HW.
  assert (Ht : main_t h m = Legacy.t h m).
  { unfold main_t, Legacy.t.
    replace ((h - 8) * 60 + (m - 30)) with ((m - 30) + (h - 8) * 4 * 15) by lia.
    rewrite Z.div_add by lia. lia. }
  assert (Hs : slot_to_hour_minute self s = Legacy.slot_to_hour_minute s).
  { unfold slot_to_hour_minute, Legacy.slot_to_hour_minute. rewrite HH, HM, HW.
    pose proof (Z.div_mod s 4 ltac:(lia)) as Hs.
    pose proof (Z.mod_pos_bound s 4 ltac:(lia)) as Hb.
    assert (E : s * 15 + 30 = (15 * (s mod 4) + 30) + (s / 4) * 60) by lia.
    rewrite E. rewrite Z.div_add, Z.mod_add by lia.
    destruct (30 + 15 * (s mod 4) >=? 60) eqn:Hge.
    - rewrite Z.geb_leb in Hge. apply Z.leb_le in Hge.
      assert (E2 : 15 * (s mod 4) + 30 = (15 * (s mod 4) - 30) + 1 * 60) by lia.
      rewrite E2. rewrite Z.div_add, Z.mod_add by lia.
      rewrite Z.div_small, Z.mod_small by lia. f_equal; lia.
    - rewrite Z.geb_leb in Hge. apply Z.leb_gt in Hge.
      rewrite Z.div_small, Z.mod_small by lia. f_equal; lia. }
  split; [| split; [exact Ht | split; [exact Hs |]]].
  - unfold time_to_slot. rewrite HH, HM, HW. simpl. f_equal. exact Ht.
  - unfold slot_to_time, Legacy.slot_to_time. rewrite Hs. reflexivity.
Qed.

Lemma legacy_timeline_agrees_witness :
  time_to_slot badge_day 11 45 = Ok (Legacy.t 11 45) /\
  main_t 11 45 = Legacy.t 11 45 /\
  slot_to_hour_minute badge_day 13 = Legacy.slot_to_hour_minute 13 /\
  slot_to_time badge_day 13 = Legacy.slot_to_time 13.
Proof.
  apply (legacy_timeline_agrees badge_day 11 45 13); reflexivity.
Defined.

(** ** The command-line front end *)

Lemma int_raises_ValueError (s : string) (e : exn) :
  Py.int s = Raise e -> e = ValueError (InvalidLiteral s).
Proof.
  unfold Py.int. destruct (match Py.strip s with
                           | EmptyString => None
                           | String c r => _
                           end); [discriminate |].
  intros H. injection H as <-. reflexivity.
Qed.

(** X16: [parse_time_to_minutes] returns only clock times, an hour in
    [0, 23] with a minute in [0, 59], and when it fails it raises a
    [ValueError] that names the text it was given and wraps the cause. *)
Theorem parse_time_to_minutes_result (time_str : string) :
  (forall h m, parse_time_to_minutes time_str = Ok (h, m) ->
               0 <= h <= 23 /\ 0 <= m <= 59) /\
  (forall e, parse_time_to_minutes time_str = Raise e ->
             exists cause, e = ValueError (ErrorParsingTime time_str cause)).
Proof.
  unfold parse_time_to_minutes.
  destruct (Py.split ":" time_str) as [| p0 [| p1 [| p2 rest]]];
    try (split; [discriminate | intros e H; injection H as <-; eexists; reflexivity]).
  destruct (Py.int p0) as [hour | e0] eqn:E0; simpl.
  2:{ rewrite (int_raises_ValueError _ _ E0). simpl.
      split; [discriminate | intros e H; injection H as <-; eexists; reflexivity]. }
  destruct (Py.int p1) as [minute | e1] eqn:E1; simpl.
  2:{ rewrite (int_raises_ValueError _ _ E1). simpl.
      split; [discriminate | intros e H; injection H as <-; eexists; reflexivity]. }
  destruct ((0 <=? hour) && (hour <=? 23)) eqn:Hh; simpl.
  2:{ split; [discriminate | intros e H; injection H as <-; eexists; reflexivity]. }
  destruct ((0 <=? minute) && (minute <=? 59)) eqn:Hm; simpl.
  2:{ split; [discriminate | intros e H; injection H as <-; eexists; reflexivity]. }
  split; [| discriminate].
  intros h m H. injection H as <- <-.
  apply andb_true_iff in Hh. apply andb_true_iff in Hm.
  rewrite !Z.leb_le in Hh, Hm. auto.
Qed.

Lemma parse_time_to_minutes_result_witness :
  0 <= 12 <= 23 /\ 0 <= 15 <= 59.
Proof.
  apply (proj1 (parse_time_to_minutes_result "12:15") 12 15). reflexivity.
Defined.

Lemma map_result_Forall2 {A B : Type} (body : A -> result B) (l : list A) (ys : list B) :
  map_result body l = Ok ys -> Forall2 (fun x y => body x = Ok y) l ys.
Proof.
  revert ys. induction l as [| x l IH]; simpl; intros ys H.
  - injection H as <-. constructor.
  - apply bind_Ok in H. destruct H as (y & Hy & H).
    apply bind_Ok in H. destruct H as (ys' & Hys & H). injection H as <-.
    constructor; [exact Hy | exact (IH ys' Hys)].
Qed.

Lemma Forall2_In_r {A B : Type} (R : A -> B -> Prop) (l : list A) (l' : list B) (y : B) :
  Forall2 R l l' -> In y l' -> exists x, In x l /\ R x y.
Proof.
  induction 1 as [| a b l l' Hab H IH]; intros Hy; [contradiction |].
  destruct Hy as [<- | Hy]; [exists a; simpl; auto |].
  destruct (IH Hy) as (x & Hx & Hr). exists x. simpl; auto.
Qed.

Lemma Forall2_map_fst {A B C : Type} (f : A -> C) (g : B -> C) (l : list A) (l' : list B) :
  Forall2 (fun x y => f x = g y) l l' -> map f l = map g l'.
Proof. induction 1; simpl; congruence. Qed.

Lemma parse_panel_Ok (config : Config) (name : string) (d : scalar) (n : string) (slots : Z) :
  parse_panel config (name, d) = Ok (n, slots) ->
  n = name /\
  parse_duration (str d)
    = Ok (slots * get_default (cfg_slot_duration_minutes config) 15).
Proof.
  unfold parse_panel. intros H.
  apply bind_Ok in H. destruct H as (minutes & Hm & H).
  set (W := get_default (cfg_slot_duration_minutes config) 15) in *.
  destruct (W =? 0) eqn:E0; [discriminate |].
  destruct (minutes mod W =? 0) eqn:Em; simpl in H; [| discriminate].
  injection H as <- <-. split; [reflexivity |].
  apply Z.eqb_neq in E0. apply Z.eqb_eq in Em.
  rewrite Hm. f_equal. pose proof (Z.div_mod minutes W E0). lia.
Qed.

(** X17: every window [parse_availability_windows] returns is non-empty,
    start slot < end slot, and it returns one window for each text, in the
    order given. *)
Theorem parsed_windows_not_empty (windows : list string) (scheduler : TempScheduler)
    (ws : list (Z * Z)) :
  parse_availability_windows windows scheduler = Ok ws ->
  List.length ws = List.length windows /\
  forall lo hi, In (lo, hi) ws -> lo < hi.
Proof.
  intros H. apply map_result_Forall2 in H. split.
  - symmetry. exact (Forall2_length H).
  - intros lo hi Hin. destruct (Forall2_In_r _ _ _ _ H Hin) as (w & _ & Hw).
    destruct (negb (Py.contains "-" w)); [discriminate |].
    destruct (split_once "-" w) as [start_str end_str].
    apply bind_Ok in Hw. destruct Hw as (start & _ & Hw).
    apply bind_Ok in Hw. destruct Hw as (stop & _ & Hw).
    apply bind_Ok in Hw. destruct Hw as (s & _ & Hw).
    apply bind_Ok in Hw. destruct Hw as (e & _ & Hw).
    destruct (s >=? e) eqn:E; [discriminate |].
    injection Hw as <- <-. rewrite Z.geb_leb in E. apply Z.leb_gt in E. exact E.
Qed.

Lemma parsed_windows_not_empty_witness :
  List.length [(0, 6); (14, 22)] = List.length ["08:30-10:00"; "12:00 - 14:00"] /\
  forall lo hi, In (lo, hi) [(0, 6); (14, 22)] -> lo < hi.
Proof.
  apply (parsed_windows_not_empty ["08:30-10:00"; "12:00 - 14:00"]
           {| temp_start_time_hour := 8; temp_start_time_minute := 30;
              temp_slot_duration_minutes := 15 |}).
  reflexivity.
Defined.

(** X18: a scheduler [create_scheduler_from_config] returns has passed
    validation and has no solution yet; its slot width and maximum gap are
    the configured ones (15 minutes each by default), it has the configured
    panels in the configured order, each with exactly the configured minutes
    (slots * slot width = minutes, nothing rounded), and its day starts at
    the configured start time (08:30 by default) and has as many slots as
    fit before the end time (17:00 by default). *)
Theorem scheduler_from_config (config : Config) (self : InterviewScheduler) :
  create_scheduler_from_config config = Ok self ->
  let W := get_default (cfg_slot_duration_minutes config) 15 in
  constructed self /\ solution_found self = false /\
  num_candidates self = cfg_num_candidates config /\
  order self = cfg_order config /\
  slot_duration_minutes self = W /\
  max_gap_minutes self = get_default (cfg_max_gap_minutes config) 15 /\
  Py.keys (panels self) = Py.keys (cfg_panels config) /\
  (forall name slots, In (name, slots) (panels self) ->
     exists d, In (name, d) (cfg_panels config) /\
               parse_duration (str d) = Ok (slots * W)) /\
  Py.keys (availabilities self) = Py.keys (cfg_availabilities config) /\
  exists start_hour start_minute end_hour end_minute,
    parse_time_to_minutes (get_default (cfg_start_time config) "08:30")
      = Ok (start_hour, start_minute) /\
    parse_time_to_minutes (get_default (cfg_end_time config) "17:00")
      = Ok (end_hour, end_minute) /\
    start_time_hour self = start_hour /\ start_time_minute self = start_minute /\
    slots_per_day self
      = ((end_hour - start_hour) * 60 + (end_minute - start_minute)) / W.
Proof.
  intros H W. unfold create_scheduler_from_config in H.
  apply bind_Ok in H. destruct H as (ps & Hps & H).
  apply bind_Ok in H. destruct H as ([sh sm] & Hstart & H).
  apply bind_Ok in H. destruct H as ([eh em] & Hend & H).
  fold W in H. destruct (W =? 0) eqn:E0; [discriminate |].
  apply bind_Ok in H. destruct H as (av & Hav & H).
  assert (Hc : constructed self).
  { pose proof H as H'. unfold __init__ in H'.
    destruct (W =? 0); [discriminate |].
    apply bind_Ok in H'. destruct H' as (u & _ & H'). injection H' as <-.
    eexists _, _. exact H. }
  unfold __init__ in H. rewrite E0 in H.
  apply bind_Ok in H. destruct H as (u & _ & H). injection H as <-. simpl.
  apply map_result_Forall2 in Hps. apply map_result_Forall2 in Hav.
  split; [exact Hc |]. repeat (split; [reflexivity |]).
  split; [| split; [| split]].
  - symmetry. unfold Py.keys. apply Forall2_map_fst.
    eapply Forall2_impl; [| exact Hps]. intros [name d] [n slots] Hp.
    apply parse_panel_Ok in Hp. simpl. symmetry. tauto.
  - intros name slots Hin. destruct (Forall2_In_r _ _ _ _ Hps Hin) as ([n d] & Hn & Hp).
    apply parse_panel_Ok in Hp. destruct Hp as [-> Hp]. exists d. auto.
  - symmetry. unfold Py.keys. apply Forall2_map_fst.
    eapply Forall2_impl; [| exact Hav]. intros [name w] [n parsed] Hp.
    apply bind_Ok in Hp. destruct Hp as (pw & _ & Hp). injection Hp as <- _. reflexivity.
  - exists sh, sm, eh, em. auto.
Qed.

Lemma scheduler_from_config_witness :
  constructed badge_day /\ solution_found badge_day = false /\
  slots_per_day badge_day = 34.
Proof.
  destruct (scheduler_from_config badge_config badge_day eq_refl)
    as (H1 & H2 & _ & _ & _ & _ & _ & _ & _ & sh & sm & eh & em & Hs & He & _ & _ & H3).
  split; [exact H1 | split; [exact H2 |]].
  rewrite H3. injection Hs as <- <-. injection He as <- <-. reflexivity.
Defined.

(** ** The exported table *)

Lemma zget_zset {V : Type} (d : list (Z * V)) (k k' : Z) (v : V) :
  zget (zset d k v) k' = if k =? k' then Some v else zget d k'.
Proof.
  induction d as [| [k0 v0] d IH]; simpl.
  - destruct (k =? k'); reflexivity.
  - destruct (k0 =? k) eqn:E; simpl.
    + apply Z.eqb_eq in E. subst k0. destruct (k =? k'); reflexivity.
    + rewrite IH. destruct (k0 =? k') eqn:E'; [| reflexivity].
      apply Z.eqb_eq in E'. subst k0. rewrite (Z.eqb_sym k k'), E. reflexivity.
Qed.

Lemma zget_fill {V : Type} (v : V) (l : list Z) :
  forall (m : list (Z * V)) (k : Z),
    zget (fold_left (fun m k => zset m k v) l m) k
    = if existsb (Z.eqb k) l then Some v else zget m k.
Proof.
  induction l as [| a l IH]; intros m k; [reflexivity |]. simpl.
  rewrite IH, zget_zset, (Z.eqb_sym a k).
  destruct (k =? a), (existsb (Z.eqb k) l); reflexivity.
Qed.

Lemma zget_row (cands : list Z) (c : Z) :
  In c cands -> zget (map (fun c => (c, "")) cands) c = Some "".
Proof.
  induction cands as [| a l IH]; [contradiction |]. simpl.
  destruct (a =? c) eqn:E; [reflexivity |].
  intros [-> | H]; [rewrite Z.eqb_refl in E; discriminate | exact (IH H)].
Qed.

(** The cell [slot], [c] of a matrix. *)
Lemma get_cell_set_cell (m m' : schedule_matrix) (slot c slot' c' : Z) (p : string) :
  set_cell m slot c p = Ok m' ->
  get_cell m' slot' c'
  = if (slot =? slot') && (c =? c') then Ok p else get_cell m slot' c'.
Proof.
  unfold set_cell, get_cell. destruct (zget m slot) as [row |] eqn:E; [| discriminate].
  intros H. injection H as <-. rewrite zget_zset.
  destruct (slot =? slot') eqn:Es; simpl.
  - apply Z.eqb_eq in Es. subst slot'. rewrite E, zget_zset.
    destruct (c =? c'); reflexivity.
  - reflexivity.
Qed.

Lemma set_cell_rows (m m' : schedule_matrix) (slot c slot' : Z) (p : string) :
  set_cell m slot c p = Ok m' ->
  (zget m' slot' = None <-> zget m slot' = None).
Proof.
  unfold set_cell. destruct (zget m slot) as [row |] eqn:E; [| discriminate].
  intros H. injection H as <-. rewrite zget_zset.
  destruct (slot =? slot') eqn:Es; [| tauto].
  apply Z.eqb_eq in Es. subst slot'. rewrite E. split; discriminate.
Qed.

(** Writing to rows that exist never fails, and each cell then holds the
    last value written to it. *)
Lemma fold_set_cell (writes : list (Z * Z * string)) :
  forall m : schedule_matrix,
    (forall w, In w writes -> zget m (fst (fst w)) <> None) ->
    exists m',
      fold_result (fun m (w : Z * Z * string) =>
                     set_cell m (fst (fst w)) (snd (fst w)) (snd w)) writes m = Ok m' /\
      (forall slot, zget m' slot = None <-> zget m slot = None) /\
      (forall slot c default,
         get_cell m slot c = Ok default ->
         get_cell m' slot c = Ok (cell_after writes slot c default)).
Proof.
  induction writes as [| [[s c] p] l IH]; intros m Hrows.
  - exists m. simpl. repeat split; auto.
  - simpl. pose proof (Hrows (s, c, p) (or_introl eq_refl)) as Hs. simpl in Hs.
    destruct (set_cell m s c p) as [m1 | e] eqn:E.
    2:{ unfold set_cell in E. destruct (zget m s); [discriminate | congruence]. }
    destruct (IH m1) as (m' & Hfold & Hdom & Hcells).
    { intros w Hw Hn. apply (set_cell_rows _ _ _ _ _ _ E) in Hn.
      exact (Hrows w (or_intror Hw) Hn). }
    exists m'. simpl. split; [exact Hfold |]. split.
    + intros slot. rewrite Hdom. exact (set_cell_rows _ _ _ _ slot _ E).
    + intros slot c' default Hd. apply Hcells.
      rewrite (get_cell_set_cell _ _ _ _ slot c' _ E), Hd.
      destruct ((s =? slot) && (c =? c')); reflexivity.
Qed.

Lemma fold_result_ext {A S : Type} (f g : S -> A -> result S) (l : list A) :
  (forall s x, In x l -> f s x = g s x) ->
  forall s, fold_result f l s = fold_result g l s.
Proof.
  induction l as [| x l IH]; intros H s; [reflexivity |]. simpl.
  rewrite (H s x (or_introl eq_refl)). destruct (g s x); [| reflexivity].
  simpl. apply IH. intros s' y Hy. apply H. right. exact Hy.
Qed.

Lemma fold_result_flat_map {A B S : Type} (f : S -> B -> result S) (g : A -> list B)
    (l : list A) :
  forall s,
    fold_result (fun s x => fold_result f (g x) s) l s = fold_result f (flat_map g l) s.
Proof.
  induction l as [| x l IH]; intros s; [reflexivity |]. simpl.
  assert (Happ : forall l1 l2 s0,
            fold_result f (l1 ++ l2) s0
            = bind (fold_result f l1 s0) (fold_result f l2)).
  { induction l1 as [| y l1 IH1]; intros l2 s0; [reflexivity |]. simpl.
    destruct (f s0 y); [simpl; apply IH1 | reflexivity]. }
  rewrite Happ. destruct (fold_result f (g x) s); [simpl; apply IH | reflexivity].
Qed.

Lemma fold_result_filter_map {A B S : Type} (f : S -> B -> result S) (keep : A -> bool)
    (h : A -> B) (l : list A) :
  forall s,
    fold_result (fun s x => if keep x then f s (h x) else Ok s) l s
    = fold_result f (map h (filter keep l)) s.
Proof.
  induction l as [| x l IH]; intros s; [reflexivity |]. simpl.
  destruct (keep x); simpl.
  - destruct (f s (h x)); [simpl; apply IH | reflexivity].
  - apply IH.
Qed.

Lemma In_range2 (a b i : Z) : In i (Py.range2 a b) <-> a <= i < b.
Proof.
  unfold Py.range2. rewrite in_map_iff. split.
  - intros (k & <- & Hk). apply in_seq in Hk. lia.
  - intros H. exists (Z.to_nat (i - a)). split; [lia | apply in_seq; lia].
Qed.

Lemma In_cell_writes (self : InterviewScheduler) (values : assignment)
    (slot c : Z) (p : string) :
  In (slot, c, p) (cell_writes self values) <->
  In c (candidates self) /\
  exists d, In (p, d) (panels self) /\
            values (Start c p) <= slot < values (Start c p) + d /\
            slot < slots_per_day self.
Proof.
  unfold cell_writes. rewrite in_flat_map. split.
  - intros (c' & Hc & H). apply in_flat_map in H. destruct H as ([p' d] & Hp & H).
    apply in_map_iff in H. destruct H as (s & E & Hs). simpl in E, Hs.
    injection E as <- <- <-. apply filter_In in Hs. destruct Hs as [Hs Hlt].
    apply In_range2 in Hs. apply Z.ltb_lt in Hlt. split; [exact Hc |]. exists d. auto.
  - intros (Hc & d & Hp & Hs & Hlt). exists c. split; [exact Hc |].
    apply in_flat_map. exists (p, d). split; [exact Hp |]. simpl.
    apply in_map_iff. exists slot. split; [reflexivity |].
    apply filter_In. split; [apply In_range2, Hs | apply Z.ltb_lt, Hlt].
Qed.

Lemma cell_after_cases (slot c : Z) (p : string) (writes : list (Z * Z * string)) :
  (forall q, In (slot, c, q) writes -> q = p) ->
  forall before,
    (In (slot, c, p) writes /\ cell_after writes slot c before = p) \/
    ((forall q, ~ In (slot, c, q) writes) /\ cell_after writes slot c before = before).
Proof.
  unfold cell_after. induction writes as [| [[s' c'] q] l IH]; intros Hall before.
  - right. split; [intros q [] | reflexivity].
  - simpl. destruct ((s' =? slot) && (c' =? c)) eqn:E.
    + apply andb_true_iff in E. rewrite !Z.eqb_eq in E. destruct E as [-> ->].
      pose proof (Hall q (or_introl eq_refl)) as ->. left. split; [left; reflexivity |].
      destruct (IH (fun q H => Hall q (or_intror H)) p) as [[_ H] | [_ H]]; exact H.
    + destruct (IH (fun q H => Hall q (or_intror H)) before) as [[Hin H] | [Hno H]].
      * left. split; [right; exact Hin | exact H].
      * right. split; [| exact H]. intros q' [Hq | Hq]; [| exact (Hno q' Hq)].
        injection Hq as -> -> _. rewrite !Z.eqb_refl in E. discriminate.
Qed.

Lemma get_keys_NoDup {V : Type} (d : list (string * V)) (k : string) (v : V) :
  NoDup (Py.keys d) -> In (k, v) d -> Py.get d k = Some v.
Proof.
  induction d as [| [k' v'] d IH]; simpl; intros Hnd Hin; [contradiction |].
  inversion Hnd as [| ? ? Hn Hd]; subst.
  destruct Hin as [E | Hin].
  - injection E as -> ->. rewrite String.eqb_refl. reflexivity.
  - destruct (String.eqb k' k) eqn:E; [| exact (IH Hd Hin)].
    apply String.eqb_eq in E. subst k'. exfalso. apply Hn.
    apply in_map_iff. exists (k, v). auto.
Qed.

(** X19: after a successful solve [export_to_csv] returns a table with the
    header row (the date cell, then CANDIDATE 1 to CANDIDATE N) and one row
    for each slot of the day, in order: the clock times of the slot, then
    for each candidate the name of the panel whose session occupies the
    slot, or the empty text when the candidate is idle.  With a file name it
    writes the same table to that file and returns the name. *)
Theorem exported_table (self self' : InterviewScheduler) (values : assignment)
    (date : string) :
  solved self self' values ->
  NoDup (Py.keys (panels self)) ->
  exists cell : Z -> Z -> string,
    let header :=
      date :: map (fun c => String.append "CANDIDATE " (Py.str_of_Z (c + 1)))
                  (candidates self) in
    let rows :=
      map (fun slot => time_range self slot :: map (cell slot) (candidates self))
          (Py.range (slots_per_day self)) in
    export_to_csv self' None date
      = Ok {| returned := writerows (header :: rows); written := None |} /\
    (forall filename, filename <> "" ->
       export_to_csv self' (Some filename) date
       = Ok {| returned := filename;
               written := Some (filename, writerows (header :: rows)) |}) /\
    (forall slot c, 0 <= slot < slots_per_day self -> In c (candidates self) ->
       (forall p, In p (Py.keys (panels self)) -> occupies self values c p slot ->
                  cell slot c = p) /\
       ((forall p, In p (Py.keys (panels self)) -> ~ occupies self values c p slot) ->
        cell slot c = "")).
Proof.
  intros Hs Hnd. pose proof (solved_satisfies _ _ _ Hs) as Hsat.
  destruct (solved_state _ _ _ Hs) as (Hfound & _).
  destruct (solved_fields _ _ _ Hs) as (Hc & _ & Hp & _ & HS & _ & Ht & _).
  set (writes := cell_writes self values).
  set (setw := fun (m : schedule_matrix) (w : Z * Z * string) =>
                 set_cell m (fst (fst w)) (snd (fst w)) (snd w)).
  set (empty := fold_left (fun (m : list (Z * list (Z * string))) slot =>
                             zset m slot (map (fun c => (c, "")) (candidates self)))
                          (Py.range (slots_per_day self)) []).
  assert (Hempty : forall slot, 0 <= slot < slots_per_day self ->
            zget empty slot = Some (map (fun c => (c, "")) (candidates self))).
  { intros slot Hslot. unfold empty.
    pose proof (zget_fill (map (fun c => (c, "")) (candidates self))
                  (Py.range (slots_per_day self)) [] slot) as Hz.
    assert (E : existsb (Z.eqb slot) (Py.range (slots_per_day self)) = true)
      by (apply existsb_exists; exists slot; split;
          [apply In_range, Hslot | apply Z.eqb_refl]).
    rewrite E in Hz. exact Hz. }
  assert (Hfill :
    fold_result (fun m c =>
      fold_result (fun m '(p, d) =>
        start_slot <- Value_start self' c p ;;
        fold_result (fun m slot =>
          if slot <? slots_per_day self then set_cell m slot c p else Ok m)
          (Py.range2 start_slot (start_slot + d)) m)
        (panels self) m)
      (candidates self) empty
    = fold_result setw writes empty).
  { unfold writes, cell_writes. rewrite <- fold_result_flat_map.
    apply fold_result_ext. intros m c Hin.
    rewrite <- fold_result_flat_map. apply fold_result_ext. intros m' [p d] Hpd.
    rewrite (Value_start_solved _ _ _ c p Hs Hin)
      by (apply in_map_iff; exists (p, d); auto).
    simpl bind. cbv zeta.
    exact (fold_result_filter_map setw (fun slot => slot <? slots_per_day self)
             (fun slot => (slot, c, p)) _ m'). }
  destruct (fold_set_cell writes empty) as (filled & Hfilled & _ & Hcells).
  { intros [[slot c] p] Hw. apply In_cell_writes in Hw.
    destruct Hw as (Hcin & d & Hpd & Hslot & Hlt). simpl.
    assert (Hk : In p (Py.keys (panels self)))
      by (apply in_map_iff; exists (p, d); auto).
    pose proof (solution_end_bound self values c p Hsat Hcin Hk).
    rewrite Hempty by lia. discriminate. }
  set (cell := fun slot c => cell_after writes slot c "").
  assert (Hget : forall slot c, 0 <= slot < slots_per_day self -> In c (candidates self) ->
            get_cell filled slot c = Ok (cell slot c)).
  { intros slot c Hslot Hcin. apply Hcells. unfold get_cell.
    rewrite (Hempty slot Hslot), (zget_row _ _ Hcin). reflexivity. }
  assert (Hrows :
    map_result (fun slot =>
        let time_range :=
          String.append (slot_to_time self' slot)
                        (String.append "-" (slot_to_time self' (slot + 1))) in
        cells <- map_result (get_cell filled slot) (candidates self) ;;
        Ok (time_range :: cells))
      (Py.range (slots_per_day self))
    = Ok (map (fun slot => time_range self slot :: map (cell slot) (candidates self))
              (Py.range (slots_per_day self)))).
  { apply map_result_Ok. intros slot Hslot. apply In_range in Hslot. cbv zeta.
    rewrite (map_result_Ok _ (cell slot)) by (intros c Hcin; apply Hget; assumption).
    simpl bind. rewrite !Ht. reflexivity. }
  assert (Hexport : forall filename,
    export_to_csv self' filename date
    = let content :=
        writerows ((date :: map (fun c => String.append "CANDIDATE " (Py.str_of_Z (c + 1)))
                                (candidates self))
                   :: map (fun slot => time_range self slot
                                       :: map (cell slot) (candidates self))
                          (Py.range (slots_per_day self))) in
      match filename with
      | Some name =>
          if negb (String.eqb name "")
          then Ok {| returned := name; written := Some (name, content) |}
          else Ok {| returned := content; written := None |}
      | None => Ok {| returned := content; written := None |}
      end).
  { intros filename. unfold export_to_csv. rewrite Hfound. simpl negb. cbv iota zeta.
    rewrite Hc, Hp, HS. fold empty. rewrite Hfill. unfold setw. rewrite Hfilled.
    unfold bind at 1. cbv zeta in Hrows. rewrite Hrows. reflexivity. }
  exists cell. cbv zeta. split; [apply (Hexport None) | split].
  - intros filename Hne. rewrite (Hexport (Some filename)). cbv zeta.
    apply String.eqb_neq in Hne. rewrite Hne. reflexivity.
  - intros slot c Hslot Hcin.
    assert (Hunique : forall p q,
              In (slot, c, p) writes -> In (slot, c, q) writes -> q = p).
    { intros p q Hwp Hwq. apply In_cell_writes in Hwp. apply In_cell_writes in Hwq.
      destruct Hwp as (_ & d & Hpd & Hps & _). destruct Hwq as (_ & d' & Hqd & Hqs & _).
      destruct (String.eqb q p) eqn:E; [apply String.eqb_eq, E |].
      apply String.eqb_neq in E. exfalso.
      assert (Hkp : In p (Py.keys (panels self)))
        by (apply in_map_iff; exists (p, d); auto).
      assert (Hkq : In q (Py.keys (panels self)))
        by (apply in_map_iff; exists (q, d'); auto).
      pose proof (solution_no_overlap self values c Hsat Hcin q p Hkq Hkp E) as Hno.
      unfold duration in Hno.
      rewrite (get_keys_NoDup _ _ _ Hnd Hpd), (get_keys_NoDup _ _ _ Hnd Hqd) in Hno.
      lia. }
    split.
    + intros p Hk Hocc. destruct (get_keys _ _ Hk) as (d & Hg & Hpd).
      unfold occupies, duration in Hocc. rewrite Hg in Hocc.
      assert (Hw : In (slot, c, p) writes)
        by (apply In_cell_writes; split; [exact Hcin | exists d; repeat split; tauto || lia]).
      destruct (cell_after_cases slot c p writes (fun q Hq => Hunique p q Hw Hq) "")
        as [[_ H] | [Hno _]]; [exact H | exfalso; exact (Hno p Hw)].
    + intros Hidle.
      assert (Hno : forall q, ~ In (slot, c, q) writes).
      { intros q Hw. apply In_cell_writes in Hw. destruct Hw as (_ & d & Hqd & Hqs & _).
        apply (Hidle q); [apply in_map_iff; exists (q, d); auto |].
        unfold occupies, duration. rewrite (get_keys_NoDup _ _ _ Hnd Hqd). exact Hqs. }
      destruct (cell_after_cases slot c "" writes
                  (fun q Hq => False_ind _ (Hno q Hq)) "") as [[_ H] | [_ H]]; exact H.
Qed.

Lemma exported_table_witness :
  exists cell : Z -> Z -> string,
    export_to_csv (fst (solve small_day FEASIBLE small_day_values)) None "DATE"
    = Ok {| returned :=
              writerows
                (("DATE" :: map (fun c => String.append "CANDIDATE " (Py.str_of_Z (c + 1)))
                                (candidates small_day))
                 :: map (fun slot => time_range small_day slot
                                     :: map (cell slot) (candidates small_day))
                        (Py.range (slots_per_day small_day)));
            written := None |}.
Proof.
  destruct (exported_table small_day _ small_day_values "DATE" solved_small_day)
    as (cell & H & _).
  - repeat constructor; simpl; intuition discriminate.
  - exists cell. exact H.
Defined.

(** ** The makespan of an optimal solution *)

Lemma eval_with_makespan (a : assignment) (m : Z) (e : expr) :
  expr_free e = true -> eval (with_makespan a m) e = eval a e.
Proof.
  induction e as [z | v | e1 IH1 e2 IH2 | e IH k | vs]; simpl; intros H.
  - reflexivity.
  - destruct v; try reflexivity. discriminate.
  - apply andb_true_iff in H. destruct H as [H1 H2].
    rewrite (IH1 H1), (IH2 H2). reflexivity.
  - rewrite (IH H). reflexivity.
  - f_equal. apply map_ext_in. intros v Hv. rewrite forallb_forall in H.
    pose proof (H v Hv) as Hf. destruct v; try reflexivity. discriminate.
Qed.

Lemma lit_with_makespan (a : assignment) (m : Z) (ls : list lit) :
  forallb lit_free ls = true ->
  forallb (lit_true (with_makespan a m)) ls = forallb (lit_true a) ls /\
  existsb (lit_true (with_makespan a m)) ls = existsb (lit_true a) ls.
Proof.
  induction ls as [| l ls IH]; simpl; intros H; [auto |].
  apply andb_true_iff in H. destruct H as [Hl Hls]. destruct (IH Hls) as [-> ->].
  assert (E : lit_true (with_makespan a m) l = lit_true a l)
    by (destruct l as [v | v]; destruct v; try reflexivity; discriminate).
  rewrite E. auto.
Qed.

Lemma holds_with_makespan (a : assignment) (m : Z) (c : constraint) :
  constraint_free c = true -> holds (with_makespan a m) c = holds a c.
Proof.
  destruct c as [v lb ub | v | e1 op e2 enf | ls enf | ivs]; simpl; intros H.
  - destruct v; try reflexivity. discriminate.
  - destruct v; try reflexivity. discriminate.
  - apply andb_true_iff in H. destruct H as [H He]. apply andb_true_iff in H.
    destruct H as [H1 H2].
    rewrite (eval_with_makespan a m e1 H1), (eval_with_makespan a m e2 H2).
    destruct (lit_with_makespan a m enf He) as [-> _]. reflexivity.
  - apply andb_true_iff in H. destruct H as [H1 H2].
    destruct (lit_with_makespan a m enf H2) as [-> _].
    destruct (lit_with_makespan a m ls H1) as [_ ->]. reflexivity.
  - f_equal. apply map_ext_in. intros iv Hiv. rewrite forallb_forall in H.
    pose proof (H iv Hiv) as Hf. apply andb_true_iff in Hf. destruct Hf as [H1 H2].
    rewrite (eval_with_makespan a m _ H1), (eval_with_makespan a m _ H2). reflexivity.
Qed.

Ltac free_vars :=
  simpl; rewrite ?andb_true_r; apply forallb_forall;
  let v := fresh "v" in let Hv := fresh "Hv" in let x := fresh "x" in
  intros v Hv; apply in_map_iff in Hv; destruct Hv as (x & <- & _);
  try destruct x; reflexivity.

Ltac free_leaf H :=
  repeat (destruct H as [<- | H]; [reflexivity |]); try contradiction.

(** Only [_set_objective] mentions the makespan variable. *)
Lemma makespan_only_in_objective (self : InterviewScheduler) (c0 : constraint) :
  constructed self ->
  In c0 (start_vars self) \/ In c0 (_add_basic_constraints self) \/
  In c0 (_add_gap_constraints self) \/ In c0 (_add_position_constraints self) \/
  In c0 (_add_panel_conflict_constraints self) \/ In c0 (_add_order_constraints self) ->
  constraint_free c0 = true.
Proof.
  intros Hcons [H | [H | [H | [H | [H | H]]]]].
  - unfold start_vars in H. apply in_flat_map in H. destruct H as (c & _ & H).
    apply in_map_iff in H. destruct H as ([p d] & <- & _). reflexivity.
  - unfold _add_basic_constraints in H. rewrite !in_app_iff in H.
    destruct H as [H | [H | H]].
    + apply in_map_iff in H. destruct H as (c & <- & _). free_vars.
    + apply in_flat_map in H. destruct H as (p & _ & H).
      destruct (negb (Py.in_list p lunch_like_panels)); [| contradiction].
      destruct H as [<- | []]. free_vars.
    + apply in_flat_map in H. destruct H as (c & _ & H).
      apply in_flat_map in H. destruct H as (p & _ & H).
      apply in_app_iff in H. destruct H as [H | H].
      * apply in_flat_map in H. destruct H as ([i [lo hi]] & _ & H). free_leaf H.
      * destruct H as [<- | []]. unfold availability_options. free_vars.
  - unfold _add_gap_constraints in H. apply in_flat_map in H. destruct H as (c & _ & H).
    unfold gap_constraints_of in H. rewrite !in_app_iff in H.
    destruct H as [H | [H | [H | H]]].
    + apply in_map_iff in H. destruct H as ([p q] & <- & _). reflexivity.
    + apply in_flat_map in H. destruct H as ([p q] & _ & H).
      unfold follows_constraints in H. apply in_app_iff in H. destruct H as [H | H].
      * free_leaf H.
      * apply in_flat_map in H. destruct H as (r & _ & H).
        destruct (negb (String.eqb r p) && negb (String.eqb r q)); [| contradiction].
        free_leaf H.
    + apply in_flat_map in H. destruct H as (p & _ & H).
      destruct H as [<- | [<- | []]]; free_vars.
    + destruct H as [<- | []]. free_vars.
  - unfold _add_position_constraints in H. apply in_flat_map in H.
    destruct H as (c & _ & H). apply in_flat_map in H. destruct H as ([p pos] & Hp & H).
    destruct (validated_position self Hcons p pos Hp) as [_ Hpos].
    destruct pos as [s | k |]; [| | contradiction].
    + destruct Hpos as [-> | ->]; apply in_map_iff in H; destruct H as (o & <- & _);
        reflexivity.
    + apply in_app_iff in H. destruct H as [H | H].
      * apply in_flat_map in H. destruct H as (o & _ & H). free_leaf H.
      * destruct H as [<- | []]. free_vars.
  - unfold _add_panel_conflict_constraints in H. apply in_map_iff in H.
    destruct H as (group & <- & _). simpl. apply forallb_forall. intros iv Hiv.
    apply in_flat_map in Hiv. destruct Hiv as (p & _ & Hiv).
    apply in_map_iff in Hiv. destruct Hiv as (c & <- & _). reflexivity.
  - unfold _add_order_constraints in H. apply in_flat_map in H.
    destruct H as (c & _ & H). apply in_flat_map in H. destruct H as (i & _ & H).
    free_leaf H.
Qed.

Lemma fold_max_spec (l : list Z) :
  0 <= fold_right Z.max 0 l /\
  (forall x, In x l -> x <= fold_right Z.max 0 l) /\
  (forall b, 0 <= b -> (forall x, In x l -> x <= b) -> fold_right Z.max 0 l <= b).
Proof.
  induction l as [| a l (IH0 & IH1 & IH2)]; simpl.
  - split; [lia |]. split; [intros x [] | intros b Hb _; exact Hb].
  - split; [lia |]. split.
    + intros x [<- | Hx]; [lia |]. specialize (IH1 x Hx). lia.
    + intros b Hb H. assert (fold_right Z.max 0 l <= b) by (apply IH2; auto).
      assert (a <= b) by (apply H; auto). lia.
Qed.

Lemma break_vars_free (self : InterviewScheduler) :
  forallb (fun v => negb (is_makespan v)) (break_vars self) = true.
Proof.
  apply forallb_forall. intros v Hv. unfold break_vars in Hv.
  apply in_flat_map in Hv. destruct Hv as (c & _ & Hv).
  apply in_map_iff in Hv. destruct Hv as (i & <- & _). reflexivity.
Qed.

(** X20: when the solver reports OPTIMAL, the makespan variable equals the
    slot at which the last session of the day ends (0 when there is no
    session): the objective leaves no slack between the last session and
    the reported end of the day. *)
Theorem optimal_makespan_is_latest_end (self self' : InterviewScheduler)
    (values : assignment) :
  solved self self' values ->
  status self' = Some OPTIMAL ->
  values Makespan = latest_end self values.
Proof.
  intros Hs Hopt. pose proof (solved_satisfies _ _ _ Hs) as Hsat.
  destruct Hs as (st & Hcons & (_ & Hmin) & Hsolve).
  unfold solve in Hsolve. injection Hsolve as <- _. simpl in Hopt.
  injection Hopt as ->. specialize (Hmin eq_refl).
  assert (Hends : forall c p d, In c (candidates self) -> In (p, d) (panels self) ->
                                values (Start c p) + d <= values Makespan).
  { intros c p d Hc Hp.
    assert (H : holds values (Linear (V Makespan) Ge (Plus (V (Start c p)) (Const d)) [])
                = true).
    { apply (satisfies_In _ _ _ Hsat), In_set_objective. unfold _set_objective.
      apply in_or_app. right. apply in_flat_map. exists c. split; [exact Hc |].
      apply in_map_iff. exists (p, d). auto. }
    simpl in H. apply Z.geb_le in H. exact H. }
  assert (Hrange : 0 <= values Makespan <= slots_per_day self).
  { assert (H : holds values (NewIntVar Makespan 0 (slots_per_day self)) = true).
    { apply (satisfies_In _ _ _ Hsat), In_set_objective. unfold _set_objective.
      apply in_or_app. left. simpl. auto. }
    simpl in H. apply andb_true_iff in H. destruct H as [H1 H2].
    apply Z.leb_le in H1, H2. lia. }
  destruct (fold_max_spec
              (flat_map (fun c => map (fun '(p, d) => values (Start c p) + d)
                                      (panels self)) (candidates self)))
    as (Hm0 & Hm1 & Hm2).
  fold (latest_end self values) in Hm0, Hm1, Hm2.
  assert (Hle : latest_end self values <= values Makespan).
  { apply Hm2; [lia |]. intros x Hx. apply in_flat_map in Hx.
    destruct Hx as (c & Hc & Hx). apply in_map_iff in Hx.
    destruct Hx as ([p d] & <- & Hp). eauto. }
  assert (Hsat' : satisfies (with_makespan values (latest_end self values)) (model self)
                  = true).
  { apply forallb_forall. intros c0 Hc0. pose proof Hc0 as Hin.
    unfold model in Hc0. rewrite !in_app_iff in Hc0.
    destruct Hc0 as [H | [H | [H | [H | [H | [H | H]]]]]];
      try (rewrite holds_with_makespan
             by (apply (makespan_only_in_objective self); [exact Hcons | tauto]);
           exact (satisfies_In _ _ _ Hsat Hin)).
    unfold _set_objective in H. apply in_app_iff in H. destruct H as [H | H].
    - destruct H as [<- | [<- | [<- | []]]].
      + exact (satisfies_In _ _ _ Hsat Hin).
      + rewrite holds_with_makespan; [exact (satisfies_In _ _ _ Hsat Hin) |].
        simpl. rewrite break_vars_free. reflexivity.
      + simpl. apply andb_true_iff. split; apply Z.leb_le; lia.
    - apply in_flat_map in H. destruct H as (c & Hc & H). apply in_map_iff in H.
      destruct H as ([p d] & <- & Hp). simpl. apply Z.geb_le. apply Hm1.
      apply in_flat_map. exists c. split; [exact Hc |].
      apply in_map_iff. exists (p, d). auto. }
  specialize (Hmin _ Hsat'). unfold objective in Hmin. simpl in Hmin. lia.
Qed.

Lemma optimal_makespan_is_latest_end_witness :
  badge_values Makespan = latest_end badge_day badge_values.
Proof.
  apply (optimal_makespan_is_latest_end badge_day
           (fst (solve badge_day OPTIMAL badge_values)) badge_values).
  - exact solved_badge_day.
  - reflexivity.
Defined.

(** ** Decimal numerals *)

Lemma int_digits_digit (acc : Z) (prev : bool) (c : ascii) (r : string) :
  Py.is_digit c = true ->
  Py.int_digits acc prev (String c r) = Py.int_digits (10 * acc + Py.digit_val c) true r.
Proof. intros H. simpl. rewrite H. reflexivity. Qed.

Lemma int_digits_uint (d : Decimal.uint) (acc : Z) (prev : bool) :
  d <> Decimal.Nil \/ prev = true ->
  Py.int_digits acc prev (NilEmpty.string_of_uint d) = Some (uint_value acc d).
Proof.
  revert acc prev.
  induction d as [| d IH | d IH | d IH | d IH | d IH | d IH | d IH | d IH | d IH | d IH];
    intros acc prev H;
    try (simpl NilEmpty.string_of_uint; rewrite int_digits_digit by reflexivity;
         rewrite IH by auto; reflexivity).
  destruct H as [H | ->]; [congruence | reflexivity].
Qed.

Lemma all_digits_uint (d : Decimal.uint) :
  Py.all_digits (NilEmpty.string_of_uint d) = true.
Proof. induction d; simpl; auto. Qed.

Lemma uint_value_acc (d : Decimal.uint) (a : positive) :
  uint_value (Zpos a) d = Zpos (Pos.of_uint_acc d a).
Proof.
  revert a. induction d; intros a; cbn [Pos.of_uint_acc uint_value];
    try reflexivity; rewrite <- IHd; f_equal; lia.
Qed.

Lemma uint_value_of_uint (d : Decimal.uint) :
  uint_value 0 d = Z.of_N (Pos.of_uint d).
Proof.
  induction d; cbn [Pos.of_uint uint_value]; try assumption; try reflexivity;
    cbn [Z.of_N]; rewrite <- uint_value_acc; f_equal.
Qed.

Lemma uint_value_to_uint (p : positive) :
  uint_value 0 (Pos.to_uint p) = Zpos p.
Proof. rewrite uint_value_of_uint, DecimalPos.Unsigned.of_to. reflexivity. Qed.

Lemma digit_not_sign (c : ascii) :
  Py.is_digit c = true ->
  Ascii.eqb c "-" = false /\ Ascii.eqb c "+" = false /\ Ascii.eqb c ":" = false.
Proof.
  destruct c as [[] [] [] [] [] [] [] []]; vm_compute; intros H;
    first [discriminate H | auto].
Qed.

Lemma all_digits_isdigit (s : string) :
  Py.all_digits s = true -> s <> "" -> Py.isdigit s = true.
Proof. destruct s; [congruence | auto]. Qed.

Lemma strip_negative (s : string) :
  Py.all_digits s = true -> s <> "" -> Py.strip (String "-" s) = String "-" s.
Proof.
  intros H Hne. unfold Py.strip.
  change (Py.lstrip (String "-" s)) with (String "-" s).
  change (Py.rstrip (String "-" s))
    with (match Py.rstrip s with
          | EmptyString => String "-" EmptyString
          | r' => String "-" r'
          end).
  rewrite (rstrip_digits s H). destruct s; [congruence | reflexivity].
Qed.

(** The decimal numeral of a natural number reads back. *)
Lemma str_of_Z_digits (z : Z) :
  0 <= z ->
  Py.all_digits (Py.str_of_Z z) = true /\ Py.str_of_Z z <> "" /\
  forall prev, Py.int_digits 0 prev (Py.str_of_Z z) = Some z.
Proof.
  intros Hz. destruct z as [| p | p]; [| | lia].
  - split; [reflexivity |]. split; [discriminate | reflexivity].
  - unfold Py.str_of_Z. cbn [Z.to_int NilZero.string_of_int].
    pose proof (uint_value_to_uint p) as Hv.
    assert (Hne : Pos.to_uint p <> Decimal.Nil).
    { intros E. rewrite E in Hv. discriminate Hv. }
    assert (E : NilZero.string_of_uint (Pos.to_uint p)
                = NilEmpty.string_of_uint (Pos.to_uint p)).
    { destruct (Pos.to_uint p); [congruence | reflexivity ..]. }
    rewrite E. split; [apply all_digits_uint |]. split.
    + destruct (Pos.to_uint p); [congruence | discriminate ..].
    + intros prev. rewrite int_digits_uint by auto. rewrite Hv. reflexivity.
Qed.

Lemma zfill_digits (n : nat) (s : string) (z : Z) :
  Py.all_digits s = true -> s <> "" ->
  (forall prev, Py.int_digits 0 prev s = Some z) ->
  Py.all_digits (Py.zfill n s) = true /\ Py.zfill n s <> "" /\
  forall prev, Py.int_digits 0 prev (Py.zfill n s) = Some z.
Proof.
  intros H1 H2 H3. induction n as [| n (IH1 & IH2 & IH3)]; [auto |].
  simpl. split; [exact IH1 |]. split; [discriminate |].
  intros prev. apply IH3.
Qed.

(** What the format [02d] writes: a sign and a numeral of the absolute
    value. *)
Lemma format_02d_shape (z : Z) :
  exists ds,
    Py.format_02d z = (if z <? 0 then String "-" ds else ds) /\
    Py.all_digits ds = true /\ ds <> "" /\
    forall prev, Py.int_digits 0 prev ds = Some (Z.abs z).
Proof.
  destruct (str_of_Z_digits (Z.abs z) (Z.abs_nonneg z)) as (H1 & H2 & H3).
  unfold Py.format_02d. cbv zeta.
  destruct (z <? 0).
  - eexists. split; [reflexivity |]. apply zfill_digits; assumption.
  - eexists. split; [reflexivity |]. apply zfill_digits; assumption.
Qed.

Lemma int_format_02d (z : Z) : Py.int (Py.format_02d z) = Ok z.
Proof.
  destruct (format_02d_shape z) as (ds & -> & H1 & H2 & H3).
  unfold Py.int. cbv zeta. destruct (z <? 0) eqn:Hz.
  - rewrite (strip_negative ds H1 H2).
    change (Ascii.eqb "-" "-") with true. cbv iota.
    rewrite H3. simpl. apply Z.ltb_lt in Hz. f_equal. lia.
  - rewrite (strip_digits ds (all_digits_isdigit ds H1 H2)). destruct ds as [| c r]; [congruence |].
    pose proof H1 as Hc. simpl in Hc. apply andb_true_iff in Hc. destruct Hc as [Hc _].
    destruct (digit_not_sign c Hc) as (-> & -> & _). rewrite H3.
    apply Z.ltb_ge in Hz. f_equal. lia.
Qed.

Lemma split_numeral (ds rest : string) :
  Py.all_digits ds = true ->
  Py.split ":" (String.append ds (String ":" rest)) = ds :: Py.split ":" rest.
Proof.
  induction ds as [| c r IH]; intros H; [reflexivity |].
  simpl in H. apply andb_true_iff in H. destruct H as [Hc Hr].
  destruct (digit_not_sign c Hc) as (_ & _ & Hcolon).
  cbn [String.append Py.split]. rewrite Hcolon, (IH Hr). reflexivity.
Qed.

Lemma split_numeral_end (ds : string) :
  Py.all_digits ds = true -> Py.split ":" ds = [ds].
Proof.
  induction ds as [| c r IH]; intros H; [reflexivity |].
  simpl in H. apply andb_true_iff in H. destruct H as [Hc Hr].
  destruct (digit_not_sign c Hc) as (_ & _ & Hcolon).
  cbn [Py.split]. rewrite Hcolon, (IH Hr). reflexivity.
Qed.

Lemma split_formatted (h m : Z) :
  Py.split ":" (String.append (Py.format_02d h) (String.append ":" (Py.format_02d m)))
  = [Py.format_02d h; Py.format_02d m].
Proof.
  destruct (format_02d_shape h) as (dh & -> & Hh & _).
  destruct (format_02d_shape m) as (dm & -> & Hm & _).
  assert (Em : Py.split ":" (if m <? 0 then String "-" dm else dm)
               = [if m <? 0 then String "-" dm else dm]).
  { destruct (m <? 0); [| apply split_numeral_end; exact Hm].
    cbn [Py.split]. change (Ascii.eqb "-" ":") with false. cbv iota.
    rewrite (split_numeral_end dm Hm). reflexivity. }
  change (String.append ":" ?x) with (String ":" x).
  destruct (h <? 0).
  - cbn [String.append Py.split]. change (Ascii.eqb "-" ":") with false. cbv iota.
    rewrite (split_numeral dh _ Hh), Em. reflexivity.
  - rewrite (split_numeral dh _ Hh), Em. reflexivity.
Qed.

Lemma hours_and_minutes_formatted (h m : Z) :
  hours_and_minutes
    (String.append (Py.format_02d h) (String.append ":" (Py.format_02d m)))
  = Some (h, m).
Proof.
  unfold hours_and_minutes. rewrite split_formatted. cbn [map].
  rewrite !int_format_02d. reflexivity.
Qed.

(** ** The web adapters *)

(** X21: the api's two time helpers are inverse to each other: the text
    [_minutes_to_time_string] writes for any number of minutes, negative
    ones included, is read back by [_parse_time_to_minutes] as that
    number. *)
Theorem api_time_round_trip (minutes : Z) :
  Api._parse_time_to_minutes (Api._minutes_to_time_string minutes) = Some minutes.
Proof.
  unfold Api._parse_time_to_minutes, Api._minutes_to_time_string. cbv zeta.
  rewrite hours_and_minutes_formatted. f_equal.
  pose proof (Z.div_mod minutes 60 ltac:(lia)). lia.
Qed.

(** X22: the web adapter reads every clock time the scheduler writes, as
    the minutes since midnight of the slot: the minutes of the start of the
    day plus the slot times the slot duration. *)
Theorem web_reads_slot_times (self : InterviewScheduler) (slot : Z) :
  Web._parse_time_to_minutes (slot_to_time self slot)
  = Some (start_time_hour self * 60 + start_time_minute self
          + slot * slot_duration_minutes self).
Proof.
  unfold Web._parse_time_to_minutes, slot_to_time, slot_to_hour_minute. cbv zeta.
  rewrite hours_and_minutes_formatted. f_equal.
  pose proof (Z.div_mod (slot * slot_duration_minutes self + start_time_minute self) 60
                ltac:(lia)). lia.
Qed.

Lemma idle_time_absent (s : session) (total : Z) :
  add_if_present "idle_time" total (session_dict s) = Some total.
Proof. unfold add_if_present, session_dict. destruct (gap_before s); reflexivity. Qed.

Lemma idle_time_sessions (l : list session) (total : Z) :
  fold_option (add_if_present "idle_time") (map session_dict l) total = Some total.
Proof.
  induction l as [| s l IH]; [reflexivity |].
  simpl. rewrite idle_time_absent. simpl. exact IH.
Qed.

Lemma candidate_schedules_sessions (scheduler : InterviewScheduler)
    (made : list (string * list dict)) :
  candidate_schedules scheduler = Ok made ->
  Forall (fun kv => exists l, snd kv = map session_dict l) made.
Proof.
  unfold candidate_schedules. generalize (Py.range (num_candidates scheduler)).
  intros l H. apply map_result_Forall2 in H.
  induction H as [| i kv l made Hi _ IH]; constructor; [| exact IH].
  apply bind_Ok in Hi. destruct Hi as (sessions & _ & Hi). injection Hi as <-.
  exists sessions. reflexivity.
Qed.

Lemma api_idle_time_zero (sol : solution_data) :
  from_scheduler sol -> Api._calculate_total_idle_time (schedules sol) = Some 0.
Proof.
  intros (scheduler & H). apply candidate_schedules_sessions in H.
  unfold Api._calculate_total_idle_time. generalize 0.
  induction H as [| kv made (l & Hl) _ IH]; intros total; [reflexivity |].
  simpl. rewrite Hl, idle_time_sessions. simpl. apply IH.
Qed.

Lemma api_similar (sol1 sol2 : solution_data) :
  from_scheduler sol1 -> from_scheduler sol2 ->
  Api._solutions_are_similar sol1 sol2 = Some true.
Proof.
  intros H1 H2. unfold Api._solutions_are_similar.
  rewrite (api_idle_time_zero sol1 H1), (api_idle_time_zero sol2 H2). reflexivity.
Qed.

(** X23: the api's duplicate check cannot tell two solutions apart: it sums
    the key "idle_time" of the sessions, which no session of
    [get_candidate_schedule] has, so the total is 0 for every solution and
    [_solutions_are_similar] answers True for any two of them. *)
Theorem api_solutions_always_similar (sol1 sol2 : solution_data) :
  from_scheduler sol1 -> from_scheduler sol2 ->
  Api._calculate_total_idle_time (schedules sol1) = Some 0 /\
  Api._calculate_total_idle_time (schedules sol2) = Some 0 /\
  Api._solutions_are_similar sol1 sol2 = Some true.
Proof.
  intros H1 H2. split; [exact (api_idle_time_zero sol1 H1) |].
  split; [exact (api_idle_time_zero sol2 H2) | exact (api_similar sol1 sol2 H1 H2)].
Qed.

Lemma api_solutions_always_similar_witness :
  Api._calculate_total_idle_time (schedules small_day_solution) = Some 0 /\
  Api._calculate_total_idle_time (schedules small_day_solution) = Some 0 /\
  Api._solutions_are_similar small_day_solution small_day_solution = Some true.
Proof.
  apply (api_solutions_always_similar small_day_solution small_day_solution);
    exists (fst (solve small_day FEASIBLE small_day_values)); vm_compute; reflexivity.
Defined.

Lemma ForallOrdPairs_snoc {A : Type} (R : A -> A -> Prop) (l : list A) (x : A) :
  ForallOrdPairs R l -> Forall (fun e => R e x) l -> ForallOrdPairs R (l ++ [x]).
Proof.
  induction 1 as [| a l Ha _ IH]; intros Hx; simpl.
  - constructor; constructor.
  - inversion Hx as [| ? ? Hax Hlx]; subst. constructor.
    + apply Forall_app. split; [exact Ha | constructor; [exact Hax | constructor]].
    + exact (IH Hlx).
Qed.

Section AttemptsSpec.
Variable similar : solution_data -> solution_data -> option bool.
Variable max_solutions : Z.
Variable answers : Z -> CpSat.status * assignment.

Lemma is_different_true (solution : solution_data) (solutions : list solution_data) :
  is_different similar solution solutions = Some true ->
  Forall (fun earlier => kept_apart similar earlier solution) solutions.
Proof.
  induction solutions as [| e l IH]; simpl; intros H; [constructor |].
  unfold and_then in H. destruct (similar solution e) as [[|] |] eqn:E; try discriminate.
  constructor; [exact E | exact (IH H)].
Qed.

(** What the loop keeps: its solutions are made by the scheduler, each was
    found different from all kept before it, and there are no more than
    the bound. *)
Lemma attempts_spec (todo : list Z) (scheduler : InterviewScheduler)
    (solutions sols : list solution_data) :
  attempts similar max_solutions answers scheduler todo solutions = Some sols ->
  Forall from_scheduler solutions ->
  ForallOrdPairs (kept_apart similar) solutions ->
  len solutions <= Z.max 0 max_solutions ->
  Forall from_scheduler sols /\
  ForallOrdPairs (kept_apart similar) sols /\
  len sols <= Z.max 0 max_solutions.
Proof.
  revert scheduler solutions.
  induction todo as [| attempt rest IH]; intros scheduler solutions H Hm Hp Hl.
  - injection H as <-. auto.
  - cbn [attempts] in H.
    destruct (len solutions >=? max_solutions) eqn:Hfull.
    { injection H as <-. auto. }
    destruct (answers attempt) as [st values].
    destruct (solve scheduler st values) as [scheduler' success].
    destruct success; [| exact (IH _ _ H Hm Hp Hl)].
    unfold and_then in H.
    destruct (raised (get_solution_summary scheduler')) as [summary |]; [| discriminate].
    destruct (raised (candidate_schedules scheduler')) as [made |] eqn:Hmade;
      [| discriminate].
    cbv zeta in H.
    set (solution := {| summary := summary; schedules := made; attempt := attempt + 1 |})
      in H.
    destruct (is_different similar solution solutions) as [[|] |] eqn:Hd;
      [| exact (IH _ _ H Hm Hp Hl) | discriminate].
    apply (IH _ _ H).
    + apply Forall_app. split; [exact Hm |]. constructor; [| constructor].
      exists scheduler'. simpl.
      destruct (candidate_schedules scheduler'); [| discriminate].
      injection Hmade as ->. reflexivity.
    + apply ForallOrdPairs_snoc; [exact Hp |]. apply is_different_true. exact Hd.
    + unfold len in *. rewrite length_app. simpl.
      assert (Hlt : Z.of_nat (List.length solutions) < max_solutions).
      { destruct (Z.of_nat (List.length solutions) >=? max_solutions) eqn:E;
          [discriminate |]. rewrite Z.geb_leb in E. apply Z.leb_gt in E. exact E. }
      lia.
Qed.
End AttemptsSpec.

(** X24: [schedule_multiple] never returns more than one solution, whatever
    the solver answers in its ten attempts and however many solutions were
    asked for: every later solution is dropped as similar to the first. *)
Theorem api_schedule_multiple_at_most_one (scheduler : InterviewScheduler)
    (max_solutions : Z) (answers : Z -> CpSat.status * assignment)
    (solutions : list solution_data) :
  Api.schedule_multiple scheduler max_solutions answers = Some solutions ->
  len solutions <= 1.
Proof.
  intros H. unfold Api.schedule_multiple in H.
  assert (H0 : len (@nil solution_data) <= Z.max 0 max_solutions)
    by (change (len (@nil solution_data)) with 0; lia).
  destruct (attempts_spec _ _ _ _ _ _ _ H (Forall_nil _) (FOP_nil _) H0) as (Hm & Hp & _).
  destruct solutions as [| a [| b l]]; [unfold len; simpl; lia | unfold len; simpl; lia |].
  exfalso. inversion Hp as [| ? ? Ha _]; subst.
  inversion Ha as [| ? ? Hab _]; subst. unfold kept_apart in Hab.
  inversion Hm as [| ? ? Hma Hm']; subst. inversion Hm' as [| ? ? Hmb _]; subst.
  rewrite (api_similar b a Hmb Hma) in Hab. discriminate.
Qed.

Lemma api_schedule_multiple_at_most_one_witness :
  exists solutions,
    Api.schedule_multiple small_day 3 (fun _ => (FEASIBLE, small_day_values))
    = Some solutions /\
    len solutions <= 1.
Proof.
  eexists. split; [vm_compute; reflexivity |].
  apply (api_schedule_multiple_at_most_one small_day 3
           (fun _ => (FEASIBLE, small_day_values))).
  vm_compute. reflexivity.
Defined.


